(** * git_branch_stack: the ring stack and its reconciliation

    A shallow embedding of [git_branch_stack.py].  Python values are modelled
    as the program has them: reference names are strings, the ring is a list
    of strings, [position] is an optional unbounded integer ([None] or an
    [int]), list accesses follow Python's rules for negative and out-of-range
    indices, and methods of [class Stack] are state transformers that either
    return, raise an exception, or leave through [sys.exit].

    Conventions of the model:
    - the interpreter is Python 3 (the script's first line), so comparing an
      [int] with [None] raises [TypeError];
    - [StackM], [GitM], [GitQ], [StackP] and [Cmd] are the classes and the
      commands with [verbose] off, its default on the command line and the
      value used by the script's own [Test.setup]: [i_print] then prints
      nothing and [save] only writes the file.  [GitV] and [StackV] are the
      two classes with the flag as it is given: every call to git prints
      what it runs and [save] prints the ring before it writes;
    - the names of references and the text git prints are strings of
      characters below 128.  The line typed at the prompt is any text, a
      sequence of Unicode code points ([PyUni]); what Python does with a
      code point from 128 on, and the longest number [int] reads, are the
      interpreter's and not the script's, and are parameters;
    - the [git] executable is outside the program: it is a function from
      an argument vector to a completed process (return code and output),
      and the repository does not change while one command runs. *)

From Stdlib Require Import ZArith List String Ascii Bool Lia Arith.
From Stdlib Require Import DecimalString.
Import ListNotations.
Local Open Scope string_scope.
Local Open Scope list_scope.
Local Open Scope Z_scope.

(** ** Python lists *)

Module PyList.

Section Ops.
Context {A : Type}.

(** Length as a Python integer. *)
Definition len (l : list A) : Z := Z.of_nat (List.length l).

(** A negative index counts from the end. *)
Definition norm (l : list A) (i : Z) : Z :=
  if i <? 0 then i + len l else i.

(** [l[i]]; [None] stands for [IndexError]. *)
Definition getitem (l : list A) (i : Z) : option A :=
  let j := norm l i in
  if j <? 0 then None else nth_error l (Z.to_nat j).

(** [del l[i]]; [None] stands for [IndexError]. *)
Definition delitem (l : list A) (i : Z) : option (list A) :=
  let j := norm l i in
  if (j <? 0) || (len l <=? j) then None
  else Some (firstn (Z.to_nat j) l ++ skipn (S (Z.to_nat j)) l).

(** [l.insert(i, x)]: the index is clamped into [0 .. len l], never an
    error. *)
Definition insert (l : list A) (i : Z) (x : A) : list A :=
  let j := Z.min (Z.max (norm l i) 0) (len l) in
  firstn (Z.to_nat j) l ++ x :: skipn (Z.to_nat j) l.

Variable eqb : A -> A -> bool.

(** [x in l]. *)
Definition contains (x : A) (l : list A) : bool := existsb (eqb x) l.

(** [l.index(x)]: the first index holding [x]; [None] stands for
    [ValueError]. *)
Fixpoint index (l : list A) (x : A) : option nat :=
  match l with
  | [] => None
  | y :: t => if eqb x y then Some O
              else match index t x with
                   | Some n => Some (S n)
                   | None => None
                   end
  end.

(** [l.remove(x)]: drops the first occurrence; [None] stands for
    [ValueError]. *)
Fixpoint remove (l : list A) (x : A) : option (list A) :=
  match l with
  | [] => None
  | y :: t => if eqb x y then Some t
              else match remove t x with
                   | Some t' => Some (y :: t')
                   | None => None
                   end
  end.
End Ops.

End PyList.

(** ** The data model *)

(** One entry of the persisted mapping: [{'ring': [...], 'position': ...}]. *)
Record RingRecord := mkRing {
  ring : list string;
  position : option Z
}.

(** The exceptions the modelled code can raise. *)
Inductive exn := IndexError | TypeError | ValueError | AttributeError.

(** What a [Stack] object can reach while it runs: [stack] is the record of
    the current repository root, shared with [stack_dict]; [stack_file] is the
    record last written for that root by [save]; [console] collects the lines
    printed, oldest first. *)
Record Stack := mkStack {
  stack : RingRecord;
  stack_file : RingRecord;
  console : list string
}.

(** The ways a call can end, each with the state it leaves behind. *)
Inductive outcome (A : Type) :=
| Ok (a : A) (s : Stack)
| Raise (e : exn) (s : Stack)
| SysExit (code : Z) (s : Stack).
Arguments Ok {A} a s.
Arguments Raise {A} e s.
Arguments SysExit {A} code s.

Definition method (A : Type) := Stack -> outcome A.

Definition ret {A} (a : A) : method A := fun s => Ok a s.

Definition bind {A B} (m : method A) (k : A -> method B) : method B :=
  fun s => match m s with
           | Ok a s' => k a s'
           | Raise e s' => Raise e s'
           | SysExit c s' => SysExit c s'
           end.

Declare Scope method_scope.
Delimit Scope method_scope with method.
Notation "x <- m ;; k" := (bind m (fun x => k))
  (at level 61, m at next level, right associativity) : method_scope.
Notation "m ;; k" := (bind m (fun _ => k))
  (at level 61, right associativity) : method_scope.
Local Open Scope method_scope.

Definition raise {A} (e : exn) : method A := fun s => Raise e s.

Definition sys_exit {A} (code : Z) : method A := fun s => SysExit code s.

Definition print (line : string) : method unit :=
  fun s => Ok tt (mkStack (stack s) (stack_file s) (console s ++ [line])).

(** A list operation that may fail, with the exception its failure raises. *)
Definition or_raise {A} (e : exn) (o : option A) : method A :=
  match o with
  | Some a => ret a
  | None => raise e
  end.

(** ** class Stack *)

Module StackM.

(** The [ring] property and its setter. *)
Definition get_ring : method (list string) := fun s => Ok (ring (stack s)) s.

Definition set_ring (new_ring : list string) : method unit :=
  fun s => Ok tt (mkStack (mkRing new_ring (position (stack s)))
                          (stack_file s) (console s)).

(** The [index] property and its setter. *)
Definition get_index : method (option Z) :=
  fun s => Ok (position (stack s)) s.

Definition set_index (index : option Z) : method unit :=
  fun s => Ok tt (mkStack (mkRing (ring (stack s)) index)
                          (stack_file s) (console s)).

(** [save] with [verbose] off: the whole mapping is dumped to the file; for
    the current root that is the record as it stands.  [StackV.save] is the
    method with the flag. *)
Definition save : method unit :=
  fun s => Ok tt (mkStack (stack s) (stack s) (console s)).

(** [is_empty].  The ring is a list here, so the [is None] test of the
    source is never true. *)
Definition is_empty : method bool :=
  r <- get_ring ;;
  ret (PyList.len r =? 0).

(** Truth value of a list: [if self.ring]. *)
Definition truthy (r : list string) : bool :=
  match r with [] => false | _ :: _ => true end.

Definition push (branch : string) : method unit :=
  r <- get_ring ;;
  new_position <-
    (if PyList.contains String.eqb branch r then
       n <- or_raise ValueError (PyList.index String.eqb r branch) ;;
       ret (Z.of_nat n)
     else
       idx <- get_index ;;
       let new_position := match idx with
                           | Some i => i + 1
                           | None => 0
                           end in
       set_ring (PyList.insert r new_position branch) ;;
       ret new_position) ;;
  set_index (Some new_position) ;;
  save.

Definition pop : method string :=
  idx <- get_index ;;
  match idx with
  | None =>
      print "No branches on the stack" ;;
      sys_exit 1
  | Some i =>
      r <- get_ring ;;
      out <- or_raise IndexError (PyList.getitem r i) ;;
      r' <- or_raise IndexError (PyList.delitem r i) ;;
      set_ring r' ;;
      (if truthy r' then set_index (Some ((i - 1) mod PyList.len r'))
       else set_index None) ;;
      save ;;
      ret out
  end.

Definition current : method (option string) :=
  r <- get_ring ;;
  if truthy r then
    idx <- get_index ;;
    match idx with
    | None => raise TypeError
    | Some i =>
        if PyList.len r >? i then
          x <- or_raise IndexError (PyList.getitem r i) ;;
          ret (Some x)
        else ret None
    end
  else ret None.

(** [back] and [forward] differ only in the step. *)
Definition move (step : Z) : method (option string) :=
  r <- get_ring ;;
  if negb (truthy r) then ret None
  else
    idx <- get_index ;;
    match idx with
    | None => raise TypeError
    | Some i =>
        let new_index := (i + step) mod PyList.len r in
        set_index (Some new_index) ;;
        save ;;
        x <- or_raise IndexError (PyList.getitem r new_index) ;;
        ret (Some x)
    end.

Definition back : method (option string) := move (-1).

Definition forward : method (option string) := move 1.

End StackM.

(** ** Python strings *)

(** The text git prints, and the names in the ring: strings of characters
    below 128. *)

Module PyStr.

(** The characters below 128 for which [str.isspace] holds. *)
Definition is_space (c : ascii) : bool :=
  let n := nat_of_ascii c in
  ((9 <=? n) && (n <=? 13) || (28 <=? n) && (n <=? 32))%nat.

Fixpoint lstrip (s : string) : string :=
  match s with
  | EmptyString => EmptyString
  | String c t => if is_space c then lstrip t else s
  end.

Fixpoint rstrip (s : string) : string :=
  match s with
  | EmptyString => EmptyString
  | String c t =>
      match rstrip t with
      | EmptyString => if is_space c then EmptyString else String c EmptyString
      | t' => String c t'
      end
  end.

(** [s.strip()] *)
Definition strip (s : string) : string := rstrip (lstrip s).

(** [s.split(sep)] for a one-character separator: never an empty list. *)
Fixpoint split (sep : ascii) (s : string) : list string :=
  match s with
  | EmptyString => [EmptyString]
  | String c t =>
      if Ascii.eqb c sep then EmptyString :: split sep t
      else match split sep t with
           | h :: r => String c h :: r
           | [] => [String c EmptyString]
           end
  end.

(** [s.startswith(p)] *)
Definition startswith (p s : string) : bool := String.prefix p s.

(** ["%s" % n] for a count. *)
Definition str (n : nat) : string := NilEmpty.string_of_uint (Nat.to_uint n).

(** Truth value of a count. *)
Definition nonzero (n : nat) : bool := negb (n =? 0)%nat.

(** Truth value of a string. *)
Definition truthy (s : string) : bool :=
  match s with EmptyString => false | _ => true end.

End PyStr.

(** ** Python strings as sequences of code points *)

(** The line typed at the prompt is any text: a [str] is a sequence of
    Unicode code points.  What the methods of [str], the pattern class of
    decimal digits and [int] do with a code point below 128 is written out;
    what they do with the others they take from the Unicode database of the
    interpreter, which is no part of the script and is a parameter here, as
    is the limit the interpreter puts on the length of a number. *)

Module PyUni.

Definition str := list N.

(** The code points of a literal whose characters are below 128. *)
Definition of_string (s : string) : str :=
  map N_of_ascii (list_ascii_of_string s).

Fixpoint eqb (a b : str) : bool :=
  match a, b with
  | [], [] => true
  | x :: a', y :: b' => (x =? y)%N && eqb a' b'
  | _, _ => false
  end.

Record Interpreter := mkInterpreter {
  (** [str.isspace] of a code point from 128 on. *)
  space_beyond : N -> bool;
  (** The value of a code point from 128 on that is a decimal digit
      (category Nd); [None] for any other. *)
  decimal_beyond : N -> option Z;
  (** [str.lower] of a text that has a code point from 128 on. *)
  lower_beyond : str -> str;
  (** [sys.get_int_max_str_digits()]; 0 where there is no limit, as in
      every interpreter before 3.11. *)
  max_str_digits : nat
}.

Section Interpreter.

Variable py : Interpreter.

(** [c.isspace()] *)
Definition isspace (c : N) : bool :=
  if (c <? 128)%N
  then ((9 <=? c) && (c <=? 13) || (28 <=? c) && (c <=? 32))%N
  else space_beyond py c.

(** The value of a decimal digit, the characters the pattern class for
    digits matches in a [str] and [int] reads. *)
Definition decimal (c : N) : option Z :=
  if (c <? 128)%N
  then if ((48 <=? c) && (c <=? 57))%N then Some (Z.of_N c - 48) else None
  else decimal_beyond py c.

Definition isdecimal (c : N) : bool :=
  match decimal c with
  | Some _ => true
  | None => false
  end.

Fixpoint lstrip (s : str) : str :=
  match s with
  | [] => []
  | c :: t => if isspace c then lstrip t else s
  end.

Fixpoint rstrip (s : str) : str :=
  match s with
  | [] => []
  | c :: t =>
      match rstrip t with
      | [] => if isspace c then [] else [c]
      | t' => c :: t'
      end
  end.

(** [s.strip()] *)
Definition strip (s : str) : str := rstrip (lstrip s).

(** [s.split()]: the maximal runs of characters that are not white space;
    [cur] is the run being read. *)
Fixpoint words (cur : str) (s : str) : list str :=
  match s with
  | [] => match cur with [] => [] | _ => [cur] end
  | c :: t =>
      if isspace c then
        match cur with
        | [] => words [] t
        | _ => cur :: words [] t
        end
      else words (cur ++ [c]) t
  end.

Definition split_ws (s : str) : list str := words [] s.

(** [s.lower()] *)
Definition lower (s : str) : str :=
  if forallb (fun c => (c <? 128)%N) s
  then map (fun c => if ((65 <=? c) && (c <=? 90))%N then (c + 32)%N else c) s
  else lower_beyond py s.

Fixpoint digits_value (acc : Z) (s : str) : option Z :=
  match s with
  | [] => Some acc
  | c :: t =>
      match decimal c with
      | Some d => digits_value (10 * acc + d) t
      | None => None
      end
  end.

(** [int(s)] on a run of decimal digits, the only texts the selection
    pattern lets through (Lemma [tokens_are_numbers]); [None] stands for
    [ValueError].  A run of more than 640 digits is refused when it is
    longer than the limit, if there is one. *)
Definition int (s : str) : option Z :=
  match s with
  | [] => None
  | _ =>
      if ((640 <? List.length s) && (0 <? max_str_digits py)
          && (max_str_digits py <? List.length s))%nat
      then None
      else digits_value 0 s
  end.

End Interpreter.

End PyUni.

(** ** class Git *)

(** The result of [subprocess.run]. *)
Record CompletedProcess := mkProcess {
  returncode : Z;
  stdout : string
}.

(** The repository as the program sees it: what running an argument vector
    gives. *)
Definition Git := list string -> CompletedProcess.

Module GitM.

Definition _run_with_status (git : Git) (args : list string)
  : CompletedProcess := git args.

Definition _run (git : Git) (args : list string) : string :=
  PyStr.strip (stdout (_run_with_status git args)).

(** The command does not mention [branch]. *)
Definition _ref_exists (git : Git) (branch : string) : bool :=
  let cmd := ["git"; "branch"; "--no-color"] in
  returncode (_run_with_status git cmd) =? 0.

Definition ref_exists (git : Git) (branch : string) : bool :=
  let remote_ref := ("origin/" ++ branch)%string in
  _ref_exists git branch || _ref_exists git remote_ref.

(** The lines of [git rev-list --left-right remote...local]. *)
Definition revs (git : Git) (local remote : string) : list string :=
  let query := (remote ++ "..." ++ local)%string in
  PyStr.split "010"%char
    (_run git ["git"; "rev-list"; "--left-right"; query]).

Definition behind (git : Git) (local remote : string) : nat :=
  List.length (filter (PyStr.startswith "<") (revs git local remote)).

Definition ahead (git : Git) (local remote : string) : nat :=
  List.length (filter (PyStr.startswith ">") (revs git local remote)).

Definition status_for (git : Git) (local remote : string) : string :=
  let behind := behind git local remote in
  let ahead := ahead git local remote in
  let behind_str :=
    if PyStr.nonzero behind then ("<" ++ PyStr.str behind)%string
    else EmptyString in
  let ahead_str :=
    if PyStr.nonzero ahead then (">" ++ PyStr.str ahead)%string
    else EmptyString in
  let out := (behind_str ++ ahead_str)%string in
  if PyStr.truthy out then out else "=".

End GitM.

(** ** What [git rev-list --left-right] prints *)

(** For the symmetric difference [remote...local] git prints one line for
    each commit that only one side reaches: the mark [<] when only the left
    side, [remote], reaches it, so that [local] is behind by it, the mark
    [>] when only [local] reaches it, then the name of the commit and the
    end of the line. *)
Inductive side := LeftSide | RightSide.

Definition mark (sd : side) : string :=
  match sd with
  | LeftSide => "<"
  | RightSide => ">"
  end.

Definition rev_list_line (commit : side * string) : string :=
  (mark (fst commit) ++ snd commit)%string.

Fixpoint rev_list_output (commits : list (side * string)) : string :=
  match commits with
  | [] => EmptyString
  | commit :: rest =>
      (rev_list_line commit ++ String "010" (rev_list_output rest))%string
  end.

(** The number of commits on one side. *)
Definition on_side (sd : side) (commits : list (side * string)) : nat :=
  List.length
    (filter (fun commit => match fst commit, sd with
                           | LeftSide, LeftSide | RightSide, RightSide => true
                           | _, _ => false
                           end) commits).

(** ** Reconciliation *)

(** [branch != expected_branch], where [expected_branch] may be [None]. *)
Definition differs (branch : string) (expected_branch : option string) : bool :=
  match expected_branch with
  | Some e => negb (String.eqb branch e)
  | None => true
  end.

Definition _fix_ring (git : Git) (branch : string) : method unit :=
  expected_branch <- StackM.current ;;
  r <- StackM.get_ring ;;
  StackM.set_ring (filter (GitM.ref_exists git) r) ;;
  e <- StackM.is_empty ;;
  (if e || differs branch expected_branch then StackM.push branch
   else ret tt) ;;
  StackM.save.

(** ** Interactive selection: the [try] block of [print_ring] *)

Module Select.

Section Pattern.

Variable py : PyUni.Interpreter.

(** The pattern given to [re.match] is case-insensitive and has two
    groups: an optional [d], then blanks and a run of digits followed by
    any number of further runs of digits, each after at least one blank.
    It is matched at the start of [resp] and need not reach its end.  A
    blank is the space character itself; a digit is any decimal digit.

    [groups pending s] is the text the second group takes from [s]:
    digits are taken as they come, blanks are held in [pending] and only
    taken once a digit follows them, anything else ends the match.  An
    empty result means that no digit was reached, so the pattern fails. *)
Fixpoint groups (pending : PyUni.str) (s : PyUni.str) : PyUni.str :=
  match s with
  | [] => []
  | c :: t =>
      if PyUni.isdecimal py c then pending ++ c :: groups [] t
      else if (c =? 32)%N then groups (pending ++ [32%N]) t
      else []
  end.

(** The optional marker: one [d] or [D] at the very start.  No other code
    point has [d] as its lower case, so none is matched along with them. *)
Definition marker (resp : PyUni.str) : PyUni.str * PyUni.str :=
  match resp with
  | c :: t =>
      if ((c =? 100) || (c =? 68))%N then ([c], t) else ([], resp)
  | [] => ([], [])
  end.

(** The two groups of the match object, or [None] when [re.match] returns
    [None]. *)
Definition re_match (resp : PyUni.str) : option (PyUni.str * PyUni.str) :=
  let (g1, rest) := marker resp in
  match groups [] rest with
  | [] => None
  | g2 => Some (g1, g2)
  end.

(** What the second group can be, said without the automaton: a text of
    blanks and digits whose last character is a digit. *)
Fixpoint blanks_and_digits (s : PyUni.str) : bool :=
  match s with
  | [] => true
  | c :: t => (PyUni.isdecimal py c || (c =? 32)%N) && blanks_and_digits t
  end.

Fixpoint ends_with_digit (s : PyUni.str) : bool :=
  match s with
  | [] => false
  | [c] => PyUni.isdecimal py c
  | _ :: t => ends_with_digit t
  end.

Definition fits (g : PyUni.str) : Prop :=
  blanks_and_digits g = true /\ ends_with_digit g = true.

(** [p] is the beginning of [s]. *)
Definition starts (p s : PyUni.str) : Prop := exists rest, s = p ++ rest.

(** [[stack.ring[int(b) - 1] for b in tokens]] *)
Fixpoint lookups (r : list string) (tokens : list PyUni.str)
  : method (list string) :=
  match tokens with
  | [] => ret []
  | b :: rest =>
      n <- or_raise ValueError (PyUni.int py b) ;;
      x <- or_raise IndexError (PyList.getitem r (n - 1)) ;;
      xs <- lookups r rest ;;
      ret (x :: xs)
  end.

End Pattern.

(** [try: body except Exception: pass].  [SystemExit] is not an
    [Exception] and goes through. *)
Definition try_pass (body : method unit) : method unit :=
  fun s => match body s with
           | Ok a s' => Ok a s'
           | Raise _ s' => Ok tt s'
           | SysExit c s' => SysExit c s'
           end.

Section Commands.

Variable py : PyUni.Interpreter.

(** [pop(opts)], the command: it builds its own [Stack] from the file and
    talks to git. *)
Variable pop_command : method unit.

(** The jump of lines 374 to 381: check out [branch_i] and push what
    git then reports as current. *)
Variable jump : string -> method unit.

Fixpoint delete_all (branch : string) (branches : list string)
  : method unit :=
  match branches with
  | [] => ret tt
  | branch_i :: rest =>
      (if String.eqb branch branch_i then
         print ("Popping " ++ branch_i)%string ;;
         pop_command
       else
         print ("Deleting " ++ branch_i)%string ;;
         r <- StackM.get_ring ;;
         r' <- or_raise ValueError (PyList.remove String.eqb r branch_i) ;;
         StackM.set_ring r' ;;
         StackM.save) ;;
      delete_all branch rest
  end.

(** The body of the [try], once a non-empty [resp] has been read. *)
Definition selection (resp : PyUni.str) (branch : string) : method unit :=
  m <- or_raise AttributeError (re_match py resp) ;;
  let action := PyUni.lower py (fst m) in
  r <- StackM.get_ring ;;
  branches <-
    lookups py r (PyUni.split_ws py (PyUni.strip py (snd m))) ;;
  if PyUni.eqb action (PyUni.of_string "d") then delete_all branch branches
  else
    branch_i <- or_raise IndexError (PyList.getitem branches 0) ;;
    if String.eqb branch branch_i then ret tt
    else jump branch_i.

(** [print_ring] from its prompt on.  [line] is what [readline] gives, the
    end of the line included, or [None] when nothing arrived before the
    timeout; [branch] is the current reference found by [_prepare]. *)
Definition print_ring_select (line : option PyUni.str) (branch : string)
  : method unit :=
  print "Type a number to switch to another branch" ;;
  try_pass
    match line with
    | None => ret tt
    | Some l =>
        let resp := PyUni.strip py l in
        if match resp with [] => true | _ => false end then ret tt
        else selection resp branch
    end.

End Commands.

End Select.

(** ** The invariants of the data model *)

(** [position] is [None] exactly on the empty ring, is otherwise an index of
    the ring, and no name occurs twice. *)
Definition inv (r : RingRecord) : Prop :=
  (position r = None <-> ring r = []) /\
  (forall p, position r = Some p -> 0 <= p < PyList.len (ring r)) /\
  NoDup (ring r).

(** The same as a test, for concrete records. *)
Fixpoint nodupb (l : list string) : bool :=
  match l with
  | [] => true
  | x :: t => negb (PyList.contains String.eqb x t) && nodupb t
  end.

Definition invb (r : RingRecord) : bool :=
  match position r with
  | None => match ring r with [] => true | _ => false end
  | Some p => (0 <=? p) && (p <? PyList.len (ring r))
  end && nodupb (ring r).

(** The state after a call, however it ended. *)
Definition state_of {A} (o : outcome A) : Stack :=
  match o with
  | Ok _ s => s
  | Raise _ s => s
  | SysExit _ s => s
  end.

(** Running a method [n] times in a row, stopping at the first call that
    does not return. *)
Fixpoint repeat_call {A} (m : method A) (n : nat) : method unit :=
  match n with
  | O => ret tt
  | S k => m ;; repeat_call m k
  end.

(** ** Records and states named in the statements *)

(** The state left by a method that ended with [save]: the record is both in
    memory and in the file. *)
Definition saved (r : RingRecord) (s : Stack) : Stack :=
  mkStack r r (console s).

(** Where [push] inserts a new name. *)
Definition push_target (r : RingRecord) : Z :=
  match position r with
  | Some i => i + 1
  | None => 0
  end.

(** The record [pop] leaves when it removes the entry at [p]. *)
Definition popped (r : list string) (p : Z) : RingRecord :=
  let r' := firstn (Z.to_nat p) r ++ skipn (S (Z.to_nat p)) r in
  mkRing r' (if StackM.truthy r' then Some ((p - 1) mod PyList.len r') else None).

(** ** States used as examples *)

(** A fresh [Stack]: nothing in memory, nothing in the file, nothing printed. *)
Definition fresh : Stack := mkStack (mkRing [] None) (mkRing [] None) [].

(** A [Stack] whose record [r] is also the one in the file. *)
Definition loaded (r : RingRecord) : Stack := saved r fresh.

Definition push_example : Stack := loaded (mkRing ["aaa"; "bbb"] (Some 0)).

(** A repository whose only branch is [main]: [git branch --no-color]
    succeeds and lists it; nothing else is asked of it here. *)
Definition only_main : Git :=
  fun args =>
    if list_eq_dec string_dec args ["git"; "branch"; "--no-color"]
    then mkProcess 0 "* main"
    else mkProcess 129 "usage: git".

(** Outside any repository every git command fails. *)
Definition no_repository : Git :=
  fun _ => mkProcess 128 "fatal: not a git repository".

(** The record after the filtering step of [_fix_ring]: the entries git
    vouches for, and [position] as it was. *)
Definition filtered (git : Git) (s : Stack) : Stack :=
  mkStack (mkRing (filter (GitM.ref_exists git) (ring (stack s)))
                  (position (stack s)))
          (stack_file s) (console s).

(** The state in which a selection is discarded: only the prompt was
    printed. *)
Definition prompted (s : Stack) : Stack :=
  mkStack (stack s) (stack_file s)
          (console s ++ ["Type a number to switch to another branch"]).

(** ** The rest of [class Git] *)

(** [_col(code, s)]: [s] between the escape sequences of a colour. *)
Definition _col (code : nat) (s : string) : string :=
  (String "027" "[" ++ PyStr.str code ++ "m" ++ s ++ String "027" "[0m")%string.

Module GitQ.

(** [s[1:]] *)
Definition tail (s : string) : string :=
  match s with
  | EmptyString => EmptyString
  | String _ t => t
  end.

(** [s[n:]] *)
Fixpoint drop (n : nat) (s : string) : string :=
  match n, s with
  | S k, String _ t => drop k t
  | _, _ => s
  end.

(** The text before and after the last [c] of [s], if there is one. *)
Fixpoint rsplit (c : ascii) (s : string) : option (string * string) :=
  match s with
  | EmptyString => None
  | String x t =>
      match rsplit c t with
      | Some (a, b) => Some (String x a, b)
      | None => if Ascii.eqb x c then Some (EmptyString, t) else None
      end
  end.

Definition detached : string := "(HEAD detached at ".

(** [re.sub] of the detached-HEAD pattern by its group, on one line: the
    pattern is the text [detached], then anything, then a closing bracket.
    The leftmost place where [detached] starts and a bracket follows is
    matched up to the last bracket of the line, so nothing after it can match
    again. *)
Fixpoint unwrap_detached (s : string) : string :=
  match s with
  | EmptyString => EmptyString
  | String c t =>
      if String.prefix detached s then
        match rsplit ")" (drop (String.length detached) s) with
        | Some (inner, rest) => (inner ++ rest)%string
        | None => String c (unwrap_detached t)
        end
      else String c (unwrap_detached t)
  end.

(** [current_branch]; [None] stands for the [IndexError] of [[...][0]] when
    no line starts with a star. *)
Definition current_branch (git : Git) : option string :=
  let result :=
    PyStr.split "010"%char (GitM._run git ["git"; "branch"; "--no-color"]) in
  match map (fun r => PyStr.strip (tail r))
            (filter (PyStr.startswith "*") result) with
  | [] => None
  | out :: _ => Some (unwrap_detached out)
  end.

(** [checkout(params, branch)] *)
Definition checkout (git : Git) (params : list string) (branch : option string)
  : CompletedProcess :=
  let parameters := ["git"; "checkout"] ++ params in
  let parameters :=
    match branch with
    | Some b => if PyStr.truthy b then parameters ++ [b] else parameters
    | None => parameters
    end in
  GitM._run_with_status git parameters.

(** [pat in s] *)
Fixpoint contains_sub (pat s : string) : bool :=
  String.prefix pat s ||
  match s with
  | EmptyString => false
  | String _ t => contains_sub pat t
  end.

(** [re.sub(pat, "", s)] for a pattern without special characters: every
    occurrence, leftmost first and not overlapping, is left out.  [skip]
    counts the characters of an occurrence still to pass over. *)
Fixpoint remove_all (pat : string) (skip : nat) (s : string) : string :=
  match s with
  | EmptyString => EmptyString
  | String c t =>
      match skip with
      | S k => remove_all pat k t
      | O =>
          if String.prefix pat s
          then match String.length pat with
               | O => String c (remove_all pat O t)
               | S k => remove_all pat k t
               end
          else String c (remove_all pat O t)
      end
  end.

(** [branches]: the set is a list here; the script only asks what is in
    it. *)
Definition branches (git : Git) : list string :=
  let result :=
    PyStr.split "010"%char
      (GitM._run git ["git"; "branch"; "--all"; "--no-color"]) in
  let out :=
    map (fun b => PyStr.strip (tail b))
        (filter (fun b => negb (contains_sub "origin/HEAD" b)) result) in
  map (remove_all "remotes/origin/" O) out.

(** A Python [dict] from strings to strings: the keys in the order they
    first came, each with the value it was last given. *)
Definition dict := list (string * string).

Fixpoint dict_set (d : dict) (k v : string) : dict :=
  match d with
  | [] => [(k, v)]
  | (k', v') :: rest =>
      if String.eqb k k' then (k, v) :: rest else (k', v') :: dict_set rest k v
  end.

Fixpoint dict_get (d : dict) (k : string) : option string :=
  match d with
  | [] => None
  | (k', v) :: rest => if String.eqb k k' then Some v else dict_get rest k
  end.

(** [{r[0]: r[1] for r in results}]; [None] stands for the [IndexError] of
    [r[1]] on a line without the separator. *)
Fixpoint pairs_dict (d : dict) (results : list (list string)) : option dict :=
  match results with
  | [] => Some d
  | r :: rest =>
      match nth_error r 0, nth_error r 1 with
      | Some k, Some v => pairs_dict (dict_set d k v) rest
      | _, _ => None
      end
  end.

Definition remotes_for_local_branches (git : Git) : option dict :=
  let results :=
    map (PyStr.split "&"%char)
        (PyStr.split "010"%char
           (GitM._run git ["git"; "for-each-ref";
                           "--format=%(refname:short)&%(upstream:short)";
                           "refs/heads"])) in
  pairs_dict [] results.

(** [statuses]: the keys of [mapping] are distinct, so the new dictionary
    has the same keys in the same order. *)
Definition statuses (git : Git) : option dict :=
  match remotes_for_local_branches git with
  | Some mapping =>
      Some (map (fun lr => (fst lr, GitM.status_for git (fst lr) (snd lr)))
                mapping)
  | None => None
  end.

End GitQ.

(** ** The rest of [class Stack] *)

Module StackP.

(** ["%-20s" % s]: [s] padded with blanks on the right up to the width. *)
Definition ljust (width : nat) (s : string) : string :=
  (s ++ string_of_list_ascii (repeat " "%char (width - String.length s)))%string.

(** One line of [print_ring]: number, name and status, in green when [i] is
    [index]. *)
Definition ring_line (statuses : GitQ.dict) (index : option Z)
    (i : nat) (ref : string) : string :=
  let status := match GitQ.dict_get statuses ref with
                | Some st => st
                | None => EmptyString
                end in
  let to_print :=
    (PyStr.str (i + 1) ++ ") " ++ ljust 20 ref ++ " " ++ status)%string in
  match index with
  | Some p => if Z.of_nat i =? p then _col 32 to_print else to_print
  | None => to_print
  end.

(** The loop of [print_ring] from entry number [i] on. *)
Fixpoint print_lines (statuses : GitQ.dict) (index : option Z)
    (i : nat) (refs : list string) : method unit :=
  match refs with
  | [] => ret tt
  | ref :: rest =>
      print (ring_line statuses index i ref) ;;
      print_lines statuses index (S i) rest
  end.

(** [Stack.print_ring] *)
Definition print_ring (git : Git) : method unit :=
  statuses <- or_raise IndexError (GitQ.statuses git) ;;
  r <- StackM.get_ring ;;
  index <- StackM.get_index ;;
  print_lines statuses index O r.

(** [Stack(stack_file, verbose)]: a new object whose record is the one the
    file holds for this root; a root the file does not know reads as the
    empty record, which is what [__init__] puts in its place. *)
Definition init : method unit :=
  fun s => Ok tt (mkStack (stack_file s) (stack_file s) (console s)).

End StackP.

(** ** The classes with [verbose] set *)

(** [Git(verbose)]: every call to git first prints, when [verbose] is set,
    the command it runs, so the methods are state transformers over the
    console.  What git answers is the same as in [GitM] and [GitQ]. *)

Module GitV.

Section Verbose.

Variable verbose : bool.
Variable git : Git.

(** [i_print(verbose, message)] *)
Definition i_print (message : string) : method unit :=
  if verbose then print message else ret tt.

Definition _run_with_status (args : list string) : method CompletedProcess :=
  i_print ("Running: '" ++ String.concat " " args ++ "'")%string ;;
  ret (git args).

Definition _run (args : list string) : method string :=
  process <- _run_with_status args ;;
  ret (PyStr.strip (stdout process)).

(** [IndexError] comes from [r[1]] on a line without the separator. *)
Definition remotes_for_local_branches : method GitQ.dict :=
  out <- _run ["git"; "for-each-ref";
               "--format=%(refname:short)&%(upstream:short)"; "refs/heads"] ;;
  let results := map (PyStr.split "&"%char) (PyStr.split "010"%char out) in
  or_raise IndexError (GitQ.pairs_dict [] results).

Definition status_for (local remote : string) : method string :=
  let query := (remote ++ "..." ++ local)%string in
  out <- _run ["git"; "rev-list"; "--left-right"; query] ;;
  let revs := PyStr.split "010"%char out in
  let behind := List.length (filter (PyStr.startswith "<") revs) in
  let ahead := List.length (filter (PyStr.startswith ">") revs) in
  let behind_str :=
    if PyStr.nonzero behind then ("<" ++ PyStr.str behind)%string
    else EmptyString in
  let ahead_str :=
    if PyStr.nonzero ahead then (">" ++ PyStr.str ahead)%string
    else EmptyString in
  let out := (behind_str ++ ahead_str)%string in
  ret (if PyStr.truthy out then out else "=").

(** The comprehension of [statuses] over [mapping.items()], whose keys are
    distinct. *)
Fixpoint status_items (items : GitQ.dict) : method GitQ.dict :=
  match items with
  | [] => ret []
  | (loc, rem) :: rest =>
      status <- status_for loc rem ;;
      d <- status_items rest ;;
      ret ((loc, status) :: d)
  end.

Definition statuses : method GitQ.dict :=
  mapping <- remotes_for_local_branches ;;
  status_items mapping.

End Verbose.

End GitV.

(** [Stack(stack_file, verbose)], whose [git] is [Git(verbose)]: [save]
    prints the ring before it writes the file.  [StackM] above is this class
    with [verbose] off (Lemma [quiet_stack]). *)

Module StackV.

Section Verbose.

Variable verbose : bool.
Variable git : Git.

Definition print_ring : method unit :=
  statuses <- GitV.statuses verbose git ;;
  r <- StackM.get_ring ;;
  index <- StackM.get_index ;;
  StackP.print_lines statuses index O r.

Definition save : method unit :=
  (if verbose then print_ring else ret tt) ;;
  fun s => Ok tt (mkStack (stack s) (stack s) (console s)).

Definition push (branch : string) : method unit :=
  r <- StackM.get_ring ;;
  new_position <-
    (if PyList.contains String.eqb branch r then
       n <- or_raise ValueError (PyList.index String.eqb r branch) ;;
       ret (Z.of_nat n)
     else
       idx <- StackM.get_index ;;
       let new_position := match idx with
                           | Some i => i + 1
                           | None => 0
                           end in
       StackM.set_ring (PyList.insert r new_position branch) ;;
       ret new_position) ;;
  StackM.set_index (Some new_position) ;;
  save.

Definition pop : method string :=
  idx <- StackM.get_index ;;
  match idx with
  | None =>
      print "No branches on the stack" ;;
      sys_exit 1
  | Some i =>
      r <- StackM.get_ring ;;
      out <- or_raise IndexError (PyList.getitem r i) ;;
      r' <- or_raise IndexError (PyList.delitem r i) ;;
      StackM.set_ring r' ;;
      (if StackM.truthy r'
       then StackM.set_index (Some ((i - 1) mod PyList.len r'))
       else StackM.set_index None) ;;
      save ;;
      ret out
  end.

Definition move (step : Z) : method (option string) :=
  r <- StackM.get_ring ;;
  if negb (StackM.truthy r) then ret None
  else
    idx <- StackM.get_index ;;
    match idx with
    | None => raise TypeError
    | Some i =>
        let new_index := (i + step) mod PyList.len r in
        StackM.set_index (Some new_index) ;;
        save ;;
        x <- or_raise IndexError (PyList.getitem r new_index) ;;
        ret (Some x)
    end.

Definition back : method (option string) := move (-1).

Definition forward : method (option string) := move 1.

End Verbose.

End StackV.

(** ** The commands *)

Module Cmd.

(** [_prepare]: a new [Stack], the current reference, and the ring
    reconciled with it.  It returns the reference. *)
Definition _prepare (git : Git) : method string :=
  StackP.init ;;
  branch <- or_raise IndexError (GitQ.current_branch git) ;;
  _fix_ring git branch ;;
  ret branch.

(** [pop(opts)].  The checkout at its end is a call to git whose result is
    not looked at; it does not touch the [Stack]. *)
Definition pop (git : Git) : method unit :=
  branch <- _prepare git ;;
  old_branch <- StackM.pop ;;
  new_branch <- StackM.current ;;
  ret tt.

(** [push(opts)].  [git'] is the repository as the checkout left it: the
    current reference is asked for again after it. *)
Definition push (git git' : Git) : method unit :=
  branch <- _prepare git ;;
  new_branch <- or_raise IndexError (GitQ.current_branch git') ;;
  if negb (String.eqb new_branch branch) then StackM.push new_branch
  else ret tt.

Section WithPrintRing.

(** [print_ring(opts, print_only)], the command that shows the ring. *)
Variable print_ring : bool -> method unit.

Definition _cleanup (git : Git) (code : Z) (branch original_branch : string)
    (print_only : bool) : method unit :=
  if negb (code =? 0) then
    print (_col 33 ("Looks like " ++ branch ++
                    " no longer exists. Cleaned up - please re-select.")%string) ;;
    r <- StackM.get_ring ;;
    r' <- or_raise ValueError (PyList.remove String.eqb r branch) ;;
    StackM.set_ring r' ;;
    _fix_ring git original_branch ;;
    print EmptyString ;;
    print_ring print_only
  else print_ring true.

(** [next_branch] and [prev_branch] differ only in the move. *)
Definition navigate (move : method (option string)) (git : Git)
  : method unit :=
  branch <- _prepare git ;;
  next <- move ;;
  match next with
  | None => ret tt
  | Some next_branch =>
      if negb (PyStr.truthy next_branch) then ret tt
      else
        let code := returncode (GitQ.checkout git [] (Some next_branch)) in
        _cleanup git code next_branch branch true
  end.

Definition next_branch : Git -> method unit := navigate StackM.forward.

Definition prev_branch : Git -> method unit := navigate StackM.back.

Definition remove_missing_branches (git : Git) : method unit :=
  branch <- _prepare git ;;
  r <- StackM.get_ring ;;
  let valid_branches :=
    filter (fun br => PyList.contains String.eqb br (GitQ.branches git)) r in
  StackM.set_ring
    (filter (fun br => PyList.contains String.eqb br valid_branches) r) ;;
  _fix_ring git branch ;;
  print_ring true.

End WithPrintRing.

End Cmd.

(** A repository with the branches [main] and [dev], [main] checked out and
    also on the remote; a checkout of [dev] fails, as when the branch is
    deleted behind the script's back. *)
Definition main_and_dev : Git :=
  fun args =>
    if list_eq_dec string_dec args ["git"; "branch"; "--no-color"]
    then mkProcess 0 "* main
  dev"
    else if list_eq_dec string_dec args ["git"; "branch"; "--all"; "--no-color"]
    then mkProcess 0 "* main
  dev
  remotes/origin/HEAD -> origin/main
  remotes/origin/main"
    else if list_eq_dec string_dec args
              ["git"; "for-each-ref";
               "--format=%(refname:short)&%(upstream:short)"; "refs/heads"]
    then mkProcess 0 "dev&
main&origin/main"
    else mkProcess 1 "error: pathspec did not match any file(s) known to git".

(** A checkout made by hand at a commit: a detached HEAD and no local
    branch. *)
Definition detached_head : Git :=
  fun args =>
    if list_eq_dec string_dec args ["git"; "branch"; "--no-color"]
    then mkProcess 0 "* (HEAD detached at 1a2b3c4)"
    else if list_eq_dec string_dec args
              ["git"; "for-each-ref";
               "--format=%(refname:short)&%(upstream:short)"; "refs/heads"]
    then mkProcess 0 ""
    else mkProcess 1 "".

(** A repository whose branches stand differently against their upstreams:
    [topic] has diverged, [main] is ahead, [old] is twelve commits behind and
    anything else is level.  The lines are those of
    [git rev-list --left-right]. *)
Definition diverged : Git :=
  fun args =>
    if list_eq_dec string_dec args
         ["git"; "rev-list"; "--left-right"; "origin/topic...topic"]
    then mkProcess 0 "<8f3a1c0d2b4e6f7a9c1d3e5f7a9b1c3d5e7f9a1b
<1b9d7f5e3c1a9f7e5d3c1b9a7f5e3d1c0b2a4f6e
>4e6f8a0c2e4a6c8e0a2c4e6a8c0e2a4c6e8a0c2e
<0a1b2c3d4e5f60718293a4b5c6d7e8f901234567
"
    else if list_eq_dec string_dec args
         ["git"; "rev-list"; "--left-right"; "origin/main...main"]
    then mkProcess 0 ">aa11bb22cc33dd44ee55ff6677889900aabbccdd
>bb22cc33dd44ee55ff6677889900aabbccddeeff
"
    else if list_eq_dec string_dec args
         ["git"; "rev-list"; "--left-right"; "origin/old...old"]
    then mkProcess 0 "<01
<02
<03
<04
<05
<06
<07
<08
<09
<10
<11
<12
"
    else mkProcess 0 "".

(** A ring that still names [gone], a branch since deleted, next to the
    checked-out [main]; and the repository it belongs to, where [main] is
    the only branch, locally and on the remote, and a checkout of [gone]
    fails. *)
Definition stale_entry : Stack := loaded (mkRing ["gone"; "main"] (Some 1)).

Definition without_gone : Git :=
  fun args =>
    if list_eq_dec string_dec args ["git"; "branch"; "--no-color"]
    then mkProcess 0 "* main"
    else if list_eq_dec string_dec args ["git"; "branch"; "--all"; "--no-color"]
    then mkProcess 0 "* main
  remotes/origin/HEAD -> origin/main
  remotes/origin/main"
    else if list_eq_dec string_dec args ["git"; "checkout"; "gone"]
    then mkProcess 1 "error: pathspec 'gone' did not match any file(s) known to git"
    else mkProcess 0 "".

(** A repository in which the branch [dev] was deleted behind the script's
    back: [main] is checked out, [topic] exists, and of all checkouts only
    that of [dev] fails. *)
Definition stale_dev : Git :=
  fun args =>
    if list_eq_dec string_dec args ["git"; "branch"; "--no-color"]
    then mkProcess 0 "* main
  topic"
    else if list_eq_dec string_dec args ["git"; "checkout"; "dev"]
    then mkProcess 1 "error: pathspec 'dev' did not match any file(s) known to git"
    else if list_eq_dec string_dec args
              ["git"; "for-each-ref";
               "--format=%(refname:short)&%(upstream:short)"; "refs/heads"]
    then mkProcess 0 "main&origin/main
topic&"
    else mkProcess 0 "".

(** The state in which the [verbose] run of [git for-each-ref] leaves the
    console. *)
Definition after_running (s : Stack) : Stack :=
  mkStack (stack s) (stack_file s)
          (console s ++
           ["Running: 'git for-each-ref --format=%(refname:short)&%(upstream:short) refs/heads'"]).

(** A state after more lines were printed. *)
Definition printed (lines : list string) (s : Stack) : Stack :=
  mkStack (stack s) (stack_file s) (console s ++ lines).

(** An interpreter for the examples: its white space from 128 on is that
    of Unicode, its decimal digits from 128 on are the Arabic-Indic, the
    Devanagari and the full-width ones, texts are lower-cased below 128
    only, and the limit on numbers is the default of 4300 digits. *)
Definition sample_interpreter : PyUni.Interpreter :=
  PyUni.mkInterpreter
    (fun c => existsb (N.eqb c)
                [133; 160; 5760; 8232; 8233; 8239; 8287; 12288]%N
              || ((8192 <=? c) && (c <=? 8202))%N)
    (fun c => if ((1632 <=? c) && (c <=? 1641))%N then Some (Z.of_N c - 1632)
              else if ((2406 <=? c) && (c <=? 2415))%N then Some (Z.of_N c - 2406)
              else if ((65296 <=? c) && (c <=? 65305))%N then Some (Z.of_N c - 65296)
              else None)
    (fun s => s)
    4300.

(** The same interpreter without a limit on numbers, as before 3.11. *)
Definition unlimited_interpreter : PyUni.Interpreter :=
  PyUni.mkInterpreter
    (PyUni.space_beyond sample_interpreter)
    (PyUni.decimal_beyond sample_interpreter)
    (PyUni.lower_beyond sample_interpreter)
    0.

(** * Properties *)

(** ** Python list operations inside their range *)

Section PyListFacts.
Context {A : Type}.
Implicit Types (l : list A) (i : Z) (x : A).

Lemma len_nonneg l : 0 <= PyList.len l.
Proof. unfold PyList.len. lia. Qed.

Lemma norm_nonneg l i : 0 <= i -> PyList.norm l i = i.
Proof.
  intros Hi. unfold PyList.norm.
  destruct (Z.ltb_spec i 0); [lia | reflexivity].
Qed.

Lemma getitem_nonneg l i :
  0 <= i -> PyList.getitem l i = nth_error l (Z.to_nat i).
Proof.
  intros Hi. unfold PyList.getitem. rewrite norm_nonneg by assumption.
  destruct (Z.ltb_spec i 0); [lia | reflexivity].
Qed.

Lemma getitem_in_range l i :
  0 <= i < PyList.len l -> exists x, PyList.getitem l i = Some x.
Proof.
  intros [Hlo Hhi]. rewrite getitem_nonneg by assumption.
  destruct (nth_error l (Z.to_nat i)) as [x|] eqn:E; [eauto|].
  apply nth_error_None in E. unfold PyList.len in Hhi. lia.
Qed.

Lemma delitem_in_range l i :
  0 <= i < PyList.len l ->
  PyList.delitem l i =
    Some (firstn (Z.to_nat i) l ++ skipn (S (Z.to_nat i)) l).
Proof.
  intros [Hlo Hhi]. unfold PyList.delitem.
  rewrite norm_nonneg by assumption.
  destruct (Z.ltb_spec i 0); [lia|].
  destruct (Z.leb_spec (PyList.len l) i); [lia | reflexivity].
Qed.

Lemma insert_in_range l i x :
  0 <= i <= PyList.len l ->
  PyList.insert l i x =
    firstn (Z.to_nat i) l ++ x :: skipn (Z.to_nat i) l.
Proof.
  intros [Hlo Hhi]. unfold PyList.insert.
  rewrite norm_nonneg by assumption.
  replace (Z.min (Z.max i 0) (PyList.len l)) with i by lia.
  reflexivity.
Qed.

(** Inserting into the empty list puts the element first, whatever the
    index. *)
Lemma insert_nil i x : PyList.insert (@nil A) i x = [x].
Proof.
  unfold PyList.insert. cbn [PyList.len List.length Z.of_nat].
  now rewrite firstn_nil, skipn_nil.
Qed.

Lemma length_splice l (n : nat) x :
  List.length (firstn n l ++ x :: skipn n l) = S (List.length l).
Proof.
  rewrite length_app. cbn [List.length].
  rewrite length_firstn, length_skipn. lia.
Qed.

Lemma nth_error_splice l (n : nat) x :
  (n <= List.length l)%nat ->
  nth_error (firstn n l ++ x :: skipn n l) n = Some x.
Proof.
  intros Hn.
  rewrite nth_error_app2 by (rewrite length_firstn; lia).
  rewrite length_firstn, Nat.min_l, Nat.sub_diag by lia. reflexivity.
Qed.

Lemma NoDup_splice l (n : nat) x :
  NoDup l -> ~ In x l -> NoDup (firstn n l ++ x :: skipn n l).
Proof.
  intros Hnd Hx. apply NoDup_Add with (a := x) (l := firstn n l ++ skipn n l).
  - apply Add_app.
  - rewrite firstn_skipn. split; assumption.
Qed.

Lemma NoDup_cut l (n : nat) :
  NoDup l -> NoDup (firstn n l ++ skipn (S n) l).
Proof.
  intros Hnd. rewrite <- (firstn_skipn n l) in Hnd.
  destruct (skipn n l) as [|y rest] eqn:E.
  - assert (skipn (S n) l = []) as ->; [|assumption].
    apply skipn_all_iff. apply skipn_all_iff in E. lia.
  - assert (skipn (S n) l = rest) as ->.
    { change (S n) with (1 + n)%nat. rewrite <- skipn_skipn, E. reflexivity. }
    eapply NoDup_remove_1; eassumption.
Qed.

End PyListFacts.

Lemma contains_In (x : string) (l : list string) :
  PyList.contains String.eqb x l = true <-> In x l.
Proof.
  unfold PyList.contains. rewrite existsb_exists. split.
  - intros (y & Hy & E). apply String.eqb_eq in E. now subst.
  - intros H. exists x. split; [assumption | apply String.eqb_refl].
Qed.

Lemma contains_not_In (x : string) (l : list string) :
  PyList.contains String.eqb x l = false <-> ~ In x l.
Proof.
  rewrite <- contains_In. destruct (PyList.contains String.eqb x l); split;
    congruence.
Qed.

(** [index] finds the first position of a member. *)
Lemma index_In (x : string) (l : list string) :
  In x l ->
  exists n, PyList.index String.eqb l x = Some n /\
            nth_error l n = Some x /\
            forall m, (m < n)%nat -> nth_error l m <> Some x.
Proof.
  induction l as [|y t IH]; intros Hin; [contradiction|].
  cbn [PyList.index]. destruct (String.eqb_spec x y) as [->|Hne].
  - exists O. split; [reflexivity|]. split; [reflexivity|].
    intros m Hm. lia.
  - destruct Hin as [->|Hin]; [congruence|].
    destruct (IH Hin) as (n & -> & Hn & Hfirst).
    exists (S n). split; [reflexivity|]. split; [assumption|].
    intros [|m] Hm; cbn [nth_error]; [congruence|].
    apply Hfirst. lia.
Qed.

Lemma nodupb_NoDup (l : list string) : nodupb l = true <-> NoDup l.
Proof.
  induction l as [|x t IH]; cbn [nodupb].
  - split; [constructor | reflexivity].
  - rewrite andb_true_iff, negb_true_iff, contains_not_In, IH. split.
    + intros [H1 H2]. now constructor.
    + intros H. inversion H; subst. now split.
Qed.

Lemma invb_inv (r : RingRecord) : invb r = true -> inv r.
Proof.
  destruct r as [l [p|]]; unfold invb, inv; cbn [ring position];
    rewrite andb_true_iff, nodupb_NoDup; intros [H1 H2].
  - apply andb_true_iff in H1 as [Hlo Hhi].
    apply Z.leb_le in Hlo. apply Z.ltb_lt in Hhi.
    split; [split; [discriminate | intros ->; cbn in Hhi; lia]|].
    split; [intros q [= <-]; lia | assumption].
  - destruct l; [|discriminate].
    split; [split; reflexivity|].
    split; [discriminate | assumption].
Qed.

Lemma In_insert (l : list string) (i : Z) (x : string) :
  In x (PyList.insert l i x).
Proof. unfold PyList.insert. apply in_or_app. right. left. reflexivity. Qed.

(** ** What each method of [Stack] computes *)

Import StackM.

Ltac run_method :=
  cbv beta iota delta
    [push pop current move is_empty bind get_ring get_index set_ring
     set_index save ret raise or_raise sys_exit print];
  cbn [stack stack_file console ring position].

Lemma truthy_nonempty (r : list string) : truthy r = true <-> r <> [].
Proof. destruct r; cbn; split; congruence. Qed.

Lemma truthy_len (r : list string) : truthy r = true <-> 0 < PyList.len r.
Proof.
  destruct r; unfold PyList.len; cbn [truthy List.length]; split;
    try congruence; lia.
Qed.

Lemma push_present (name : string) (s : Stack) :
  In name (ring (stack s)) ->
  exists n, PyList.index String.eqb (ring (stack s)) name = Some n /\
            push name s =
              Ok tt (saved (mkRing (ring (stack s)) (Some (Z.of_nat n))) s).
Proof.
  intros Hin. destruct (index_In name _ Hin) as (n & Hn & _).
  exists n. split; [assumption|]. run_method.
  apply contains_In in Hin. rewrite Hin, Hn. reflexivity.
Qed.

Lemma push_absent (name : string) (s : Stack) :
  ~ In name (ring (stack s)) ->
  push name s =
    Ok tt (saved (mkRing (PyList.insert (ring (stack s))
                                        (push_target (stack s)) name)
                         (Some (push_target (stack s)))) s).
Proof.
  intros Hin. apply contains_not_In in Hin. run_method. rewrite Hin.
  unfold push_target. destruct (position (stack s)); reflexivity.
Qed.

Lemma push_target_range (r : RingRecord) :
  inv r -> 0 <= push_target r <= PyList.len (ring r).
Proof.
  intros (Hnone & Hidx & _). unfold push_target.
  destruct (position r) as [p|].
  - specialize (Hidx p eq_refl). lia.
  - pose proof (len_nonneg (ring r)). lia.
Qed.

Lemma pop_in_range (s : Stack) (p : Z) :
  position (stack s) = Some p ->
  0 <= p < PyList.len (ring (stack s)) ->
  exists out, nth_error (ring (stack s)) (Z.to_nat p) = Some out /\
              pop s = Ok out (saved (popped (ring (stack s)) p) s).
Proof.
  intros Hpos Hp. destruct (getitem_in_range _ _ Hp) as (out & Hout).
  exists out. split; [rewrite <- getitem_nonneg by lia; assumption|].
  run_method. rewrite Hpos, Hout, delitem_in_range by assumption.
  unfold popped, saved. run_method.
  destruct (truthy _); run_method; reflexivity.
Qed.

Lemma pop_none (s : Stack) :
  position (stack s) = None ->
  pop s = SysExit 1 (mkStack (stack s) (stack_file s)
                             (console s ++ ["No branches on the stack"])).
Proof. intros Hpos. run_method. rewrite Hpos. reflexivity. Qed.

Lemma move_empty (step : Z) (s : Stack) :
  ring (stack s) = [] -> move step s = Ok None s.
Proof. intros Hr. run_method. rewrite Hr. reflexivity. Qed.

Lemma move_nonempty (step : Z) (s : Stack) (p : Z) :
  ring (stack s) <> [] ->
  position (stack s) = Some p ->
  let q := (p + step) mod PyList.len (ring (stack s)) in
  exists x, nth_error (ring (stack s)) (Z.to_nat q) = Some x /\
            move step s = Ok (Some x) (saved (mkRing (ring (stack s)) (Some q)) s).
Proof.
  intros Hr Hpos q.
  assert (0 <= q < PyList.len (ring (stack s))) as Hq.
  { apply Z.mod_pos_bound. apply truthy_len, truthy_nonempty, Hr. }
  destruct (getitem_in_range _ _ Hq) as (x & Hx).
  exists x. split; [rewrite <- getitem_nonneg by lia; assumption|].
  run_method. apply truthy_nonempty in Hr. rewrite Hr. cbn [negb].
  run_method. rewrite Hpos. fold q. rewrite Hx. reflexivity.
Qed.

Lemma current_empty (s : Stack) : ring (stack s) = [] -> current s = Ok None s.
Proof. intros Hr. run_method. rewrite Hr. reflexivity. Qed.

Lemma current_beyond (s : Stack) (p : Z) :
  position (stack s) = Some p ->
  PyList.len (ring (stack s)) <= p ->
  current s = Ok None s.
Proof.
  intros Hpos Hp. run_method.
  destruct (truthy _); [|reflexivity].
  run_method. rewrite Hpos.
  destruct (Z.gtb_spec (PyList.len (ring (stack s))) p); [lia | reflexivity].
Qed.

Lemma current_in_range (s : Stack) (p : Z) :
  position (stack s) = Some p ->
  0 <= p < PyList.len (ring (stack s)) ->
  exists x, nth_error (ring (stack s)) (Z.to_nat p) = Some x /\
            current s = Ok (Some x) s.
Proof.
  intros Hpos Hp. destruct (getitem_in_range _ _ Hp) as (x & Hx).
  exists x. split; [rewrite <- getitem_nonneg by lia; assumption|].
  run_method.
  assert (truthy (ring (stack s)) = true) as -> by (apply truthy_len; lia).
  run_method. rewrite Hpos.
  destruct (Z.gtb_spec (PyList.len (ring (stack s))) p); [|lia].
  run_method. rewrite Hx. reflexivity.
Qed.

(** [current] returns its state as it found it, however it ends. *)
Lemma current_pure (s : Stack) : state_of (current s) = s.
Proof.
  run_method. destruct (truthy _); [|reflexivity].
  run_method. destruct (position (stack s)) as [p|]; [|reflexivity].
  destruct (_ >? _); [|reflexivity].
  run_method. destruct (PyList.getitem _ _); reflexivity.
Qed.

(** ** push *)

(** C1.  On a record that satisfies the invariants, [push name] returns and:
    if [name] is already in the ring, the ring is left as it was and
    [position] becomes an index at which the ring holds [name]; if [name] is
    absent, it is inserted at index [position + 1] (index 0 when [position] is
    [None]), [position] becomes that index, [current()] then returns [name],
    and the ring has exactly one more element. *)
Theorem push_spec (name : string) (s : Stack) :
  inv (stack s) ->
  exists s', push name s = Ok tt s' /\
    (In name (ring (stack s)) ->
       ring (stack s') = ring (stack s) /\
       exists n, position (stack s') = Some (Z.of_nat n) /\
                 nth_error (ring (stack s)) n = Some name) /\
    (~ In name (ring (stack s)) ->
       let k := match position (stack s) with
                | Some p => p + 1
                | None => 0
                end in
       ring (stack s') =
         firstn (Z.to_nat k) (ring (stack s)) ++
         name :: skipn (Z.to_nat k) (ring (stack s)) /\
       nth_error (ring (stack s')) (Z.to_nat k) = Some name /\
       position (stack s') = Some k /\
       current s' = Ok (Some name) s' /\
       List.length (ring (stack s')) = S (List.length (ring (stack s)))).
Proof.
  intros Hinv.
  destruct (in_dec string_dec name (ring (stack s))) as [Hin|Hin].
  - destruct (push_present name s Hin) as (n & Hn & ->).
    eexists. split; [reflexivity|]. split; [|contradiction].
    intros _. cbn. split; [reflexivity|]. exists n. split; [reflexivity|].
    destruct (index_In name _ Hin) as (n' & Hn' & Hnth & _). congruence.
  - rewrite (push_absent name s Hin).
    eexists. split; [reflexivity|]. split; [contradiction|].
    intros _ k. change k with (push_target (stack s)).
    pose proof (push_target_range _ Hinv) as Hk.
    assert (Z.to_nat (push_target (stack s)) <= List.length (ring (stack s)))%nat
      as Hk' by (unfold PyList.len in Hk; lia).
    unfold saved. cbn [stack ring position].
    rewrite insert_in_range by assumption.
    split; [reflexivity|].
    split; [apply nth_error_splice; assumption|].
    split; [reflexivity|].
    split; [|apply length_splice].
    match goal with |- current ?s' = _ => set (s1 := s') end.
    destruct (current_in_range s1 (push_target (stack s))) as (x & Hx & ->).
    + reflexivity.
    + subst s1. cbn [stack ring]. unfold PyList.len.
      rewrite length_splice. lia.
    + subst s1. cbn [stack ring] in Hx.
      rewrite nth_error_splice in Hx by assumption. congruence.
Qed.

Lemma push_spec_witness :
  inv (stack push_example) /\
  exists s', push "ccc" push_example = Ok tt s' /\
             ring (stack s') = ["aaa"; "ccc"; "bbb"] /\
             position (stack s') = Some 1.
Proof.
  assert (inv (stack push_example)) as Hinv by (apply invb_inv; reflexivity).
  split; [exact Hinv|].
  destruct (push_spec "ccc" push_example Hinv) as (s' & Hrun & _ & Habsent).
  exists s'. split; [exact Hrun|].
  assert (~ In "ccc" (ring (stack push_example))) as Hnot.
  { apply contains_not_In. reflexivity. }
  destruct (Habsent Hnot) as (Hring & _ & Hpos & _).
  split; [exact Hring | exact Hpos].
Defined.

(** ** pop *)

(** C2.  When [position] is an index of the ring, [pop] removes the entry at
    [position] and returns it.  If the ring is then empty, [position] is
    [None] and [current()] returns [None].  Otherwise [position] is
    [(position - 1) mod] the new length (the new last index when the first
    entry was removed), and [current()] returns what [back()] returns on the
    shortened ring with the cursor still at the old [position]. *)
Theorem pop_spec (s : Stack) (p : Z) :
  position (stack s) = Some p ->
  0 <= p < PyList.len (ring (stack s)) ->
  exists out s', pop s = Ok out s' /\
    nth_error (ring (stack s)) (Z.to_nat p) = Some out /\
    ring (stack s') =
      firstn (Z.to_nat p) (ring (stack s)) ++
      skipn (S (Z.to_nat p)) (ring (stack s)) /\
    (ring (stack s') = [] ->
       position (stack s') = None /\ current s' = Ok None s') /\
    (ring (stack s') <> [] ->
       position (stack s') = Some ((p - 1) mod PyList.len (ring (stack s'))) /\
       (p = 0 -> position (stack s') = Some (PyList.len (ring (stack s')) - 1)) /\
       exists x sb,
         back (mkStack (mkRing (ring (stack s')) (Some p))
                       (stack_file s) (console s)) = Ok (Some x) sb /\
         current s' = Ok (Some x) s').
Proof.
  intros Hpos Hp. destruct (pop_in_range s p Hpos Hp) as (out & Hout & ->).
  exists out. eexists. split; [reflexivity|]. split; [exact Hout|].
  unfold saved, popped. cbn [stack ring position].
  set (r' := firstn (Z.to_nat p) (ring (stack s)) ++
             skipn (S (Z.to_nat p)) (ring (stack s))).
  split; [reflexivity|]. split.
  - intros Hr'. rewrite Hr'. cbn [truthy]. split; [reflexivity|].
    now apply current_empty.
  - intros Hr'. pose proof Hr' as Ht. apply truthy_nonempty in Ht.
    rewrite Ht. split; [reflexivity|]. split.
    + intros ->. f_equal. apply truthy_len in Ht.
      rewrite <- (Z.mod_unique_pos (0 - 1) (PyList.len r') (-1)
                    (PyList.len r' - 1)); [reflexivity | lia | lia].
    + set (q := (p - 1) mod PyList.len r').
      set (sb := mkStack (mkRing r' (Some p)) (stack_file s) (console s)).
      destruct (move_nonempty (-1) sb p Hr' eq_refl) as (x & Hx & Hback).
      exists x. eexists. split; [exact Hback|].
      cbn [sb stack ring] in Hx. change (p + -1) with (p - 1) in Hx. fold q in Hx.
      match goal with |- current ?s' = _ => set (s1 := s') end.
      destruct (current_in_range s1 q) as (y & Hy & ->).
      * reflexivity.
      * apply Z.mod_pos_bound. now apply truthy_len.
      * cbn [s1 stack ring] in Hy. congruence.
Qed.

Lemma pop_spec_witness :
  exists s', pop (loaded (mkRing ["aaa"; "bbb"; "ccc"] (Some 0))) = Ok "aaa" s' /\
             ring (stack s') = ["bbb"; "ccc"] /\
             position (stack s') = Some 1.
Proof.
  destruct (pop_spec (loaded (mkRing ["aaa"; "bbb"; "ccc"] (Some 0))) 0)
    as (out & s' & Hrun & Hout & Hring & _ & Hrest).
  - reflexivity.
  - cbn. lia.
  - exists s'. injection Hout as <-. split; [exact Hrun|].
    split; [exact Hring|].
    assert (ring (stack s') <> []) as Hne by (rewrite Hring; discriminate).
    destruct (Hrest Hne) as (_ & Hwrap & _).
    rewrite (Hwrap eq_refl), Hring. reflexivity.
Defined.

(** ** The invariants are kept *)

Lemma inv_nonempty_position (r : RingRecord) :
  inv r -> ring r <> [] -> exists p, position r = Some p /\ 0 <= p < PyList.len (ring r).
Proof.
  intros (Hnone & Hidx & _) Hr. destruct (position r) as [p|] eqn:E.
  - exists p. split; [reflexivity | apply Hidx; reflexivity].
  - exfalso. apply Hr, Hnone. reflexivity.
Qed.

Lemma inv_cursor (l : list string) (q : Z) :
  NoDup l -> 0 <= q < PyList.len l -> inv (mkRing l (Some q)).
Proof.
  intros Hnd Hq. unfold inv. cbn [ring position].
  split; [split; [discriminate | intros ->; cbn in Hq; lia]|].
  split; [intros ? [= <-]; assumption | assumption].
Qed.

Lemma inv_push (name : string) (s : Stack) :
  inv (stack s) -> inv (stack (state_of (push name s))).
Proof.
  intros Hinv. pose proof Hinv as (_ & _ & Hnd).
  destruct (in_dec string_dec name (ring (stack s))) as [Hin|Hin].
  - destruct (push_present name s Hin) as (n & Hn & ->).
    destruct (index_In name _ Hin) as (n' & Hn' & Hnth & _).
    assert (n' = n) as -> by congruence.
    cbn [state_of saved stack]. apply inv_cursor; [assumption|].
    assert (n < List.length (ring (stack s)))%nat
      by (apply nth_error_Some; congruence).
    unfold PyList.len. lia.
  - rewrite (push_absent name s Hin). cbn [state_of saved stack].
    pose proof (push_target_range _ Hinv) as Hk.
    rewrite insert_in_range by assumption.
    apply inv_cursor; [apply NoDup_splice; assumption|].
    unfold PyList.len in *. rewrite length_splice. lia.
Qed.

Lemma inv_popped (l : list string) (p : Z) : NoDup l -> inv (popped l p).
Proof.
  intros Hnd. unfold popped.
  set (l' := firstn (Z.to_nat p) l ++ skipn (S (Z.to_nat p)) l).
  assert (NoDup l') as Hnd' by (apply NoDup_cut; assumption).
  destruct (truthy l') eqn:Ht.
  - apply inv_cursor; [assumption|].
    apply Z.mod_pos_bound. now apply truthy_len.
  - destruct l'; [|discriminate]. unfold inv. cbn [ring position].
    split; [split; reflexivity|]. split; [discriminate | constructor].
Qed.

Lemma inv_pop (s : Stack) : inv (stack s) -> inv (stack (state_of (pop s))).
Proof.
  intros Hinv. destruct (position (stack s)) as [p|] eqn:Hpos.
  - pose proof Hinv as (_ & Hidx & Hnd).
    destruct (pop_in_range s p Hpos (Hidx p Hpos)) as (out & _ & ->).
    cbn [state_of saved stack]. apply inv_popped. assumption.
  - rewrite (pop_none s Hpos). exact Hinv.
Qed.

Lemma inv_move (step : Z) (s : Stack) :
  inv (stack s) -> inv (stack (state_of (move step s))).
Proof.
  intros Hinv. destruct (ring (stack s)) as [|x t] eqn:Hr.
  - rewrite (move_empty step s Hr). exact Hinv.
  - assert (ring (stack s) <> []) as Hne by (rewrite Hr; discriminate).
    destruct (inv_nonempty_position _ Hinv Hne) as (p & Hpos & _).
    destruct (move_nonempty step s p Hne Hpos) as (y & _ & ->).
    cbn [state_of saved stack]. apply inv_cursor; [apply Hinv|].
    apply Z.mod_pos_bound. now apply truthy_len, truthy_nonempty.
Qed.

(** C4.  Each of [push], [pop], [forward] and [back], run on a record that
    satisfies the invariants, leaves a record that satisfies them: [position]
    is [None] exactly when the ring is empty and is otherwise an index of the
    ring, and no name occurs twice.  ([pop] on the empty ring leaves through
    [sys.exit] with the record as it was.) *)
Theorem operations_keep_inv (s : Stack) :
  inv (stack s) ->
  (forall name, inv (stack (state_of (push name s)))) /\
  inv (stack (state_of (pop s))) /\
  inv (stack (state_of (forward s))) /\
  inv (stack (state_of (back s))).
Proof.
  intros Hinv. split; [intros name; now apply inv_push|].
  split; [now apply inv_pop|].
  split; now apply inv_move.
Qed.

Lemma operations_keep_inv_witness :
  inv (stack push_example) /\
  inv (stack (state_of (push "ccc" push_example))) /\
  inv (stack (state_of (pop push_example))).
Proof.
  assert (inv (stack push_example)) as Hinv by (apply invb_inv; reflexivity).
  destruct (operations_keep_inv push_example Hinv) as (Hpush & Hpop & _).
  split; [exact Hinv|]. split; [apply Hpush | exact Hpop].
Defined.

(** ** forward and back *)

Lemma mod_step_back (p n : Z) :
  0 <= p < n -> ((p + -1) mod n + 1) mod n = p.
Proof.
  intros Hp. rewrite Zplus_mod_idemp_l.
  replace (p + -1 + 1) with p by lia. now apply Z.mod_small.
Qed.

Lemma mod_step_forward (p n : Z) :
  0 <= p < n -> ((p + 1) mod n + -1) mod n = p.
Proof.
  intros Hp. rewrite Zplus_mod_idemp_l.
  replace (p + 1 + -1) with p by lia. now apply Z.mod_small.
Qed.

(** Two moves in a row on a ring with a valid cursor. *)
Lemma move_move (a b : Z) (s : Stack) (p : Z) :
  ring (stack s) <> [] ->
  position (stack s) = Some p ->
  exists v,
    (move a ;; move b) s =
      Ok v (saved (mkRing (ring (stack s))
                          (Some (((p + a) mod PyList.len (ring (stack s)) + b)
                                 mod PyList.len (ring (stack s))))) s).
Proof.
  intros Hr Hpos. unfold bind at 1.
  destruct (move_nonempty a s p Hr Hpos) as (x & _ & ->).
  match goal with |- context [move b ?s1] => set (s' := s1) end.
  destruct (move_nonempty b s' _ Hr eq_refl) as (y & _ & Hb).
  exists (Some y). rewrite Hb. reflexivity.
Qed.

(** [S k] calls of [forward] advance the cursor by [S k], modulo the length. *)
Lemma repeat_forward (k : nat) : forall (s : Stack) (p : Z),
  ring (stack s) <> [] ->
  position (stack s) = Some p ->
  repeat_call forward (S k) s =
    Ok tt (saved (mkRing (ring (stack s))
                         (Some ((p + Z.of_nat (S k))
                                mod PyList.len (ring (stack s))))) s).
Proof.
  induction k as [|k IH]; intros s p Hr Hpos.
  - cbn [repeat_call]. unfold bind, forward.
    destruct (move_nonempty 1 s p Hr Hpos) as (x & _ & ->). reflexivity.
  - change (repeat_call forward (S (S k)) s)
      with (bind forward (fun _ => repeat_call forward (S k)) s).
    unfold bind, forward.
    destruct (move_nonempty 1 s p Hr Hpos) as (x & _ & ->).
    rewrite (IH _ ((p + 1) mod PyList.len (ring (stack s)))); [|assumption|reflexivity].
    unfold saved. cbn [stack ring console].
    rewrite Zplus_mod_idemp_l.
    replace (p + 1 + Z.of_nat (S k)) with (p + Z.of_nat (S (S k))) by lia.
    reflexivity.
Qed.

(** C5.  On a ring of size at least one whose record satisfies the
    invariants, [back()] then [forward()] leaves the ring and [position] as
    they were, and so does [forward()] then [back()]; and [len(ring)] calls
    of [forward()] in a row bring [position] back, so that [current()]
    returns the element it returned before. *)
Theorem back_forward_inverse (s : Stack) :
  inv (stack s) ->
  ring (stack s) <> [] ->
  (exists v s', (back ;; forward) s = Ok v s' /\
                ring (stack s') = ring (stack s) /\
                position (stack s') = position (stack s)) /\
  (exists v s', (forward ;; back) s = Ok v s' /\
                ring (stack s') = ring (stack s) /\
                position (stack s') = position (stack s)) /\
  (exists x s', current s = Ok (Some x) s /\
                repeat_call forward (List.length (ring (stack s))) s = Ok tt s' /\
                ring (stack s') = ring (stack s) /\
                position (stack s') = position (stack s) /\
                current s' = Ok (Some x) s').
Proof.
  intros Hinv Hr.
  destruct (inv_nonempty_position _ Hinv Hr) as (p & Hpos & Hp).
  split; [|split].
  - destruct (move_move (-1) 1 s p Hr Hpos) as (v & Hrun).
    exists v. eexists. split; [exact Hrun|].
    cbn [saved stack ring position]. split; [reflexivity|].
    rewrite mod_step_back by assumption. now rewrite Hpos.
  - destruct (move_move 1 (-1) s p Hr Hpos) as (v & Hrun).
    exists v. eexists. split; [exact Hrun|].
    cbn [saved stack ring position]. split; [reflexivity|].
    rewrite mod_step_forward by assumption. now rewrite Hpos.
  - destruct (current_in_range s p Hpos Hp) as (x & Hx & Hcur).
    exists x. destruct (ring (stack s)) as [|y t] eqn:Hring; [congruence|].
    cbn [List.length]. rewrite <- Hring in *.
    rewrite (repeat_forward (List.length t) s p Hr Hpos).
    eexists. split; [exact Hcur|]. split; [reflexivity|].
    assert ((p + Z.of_nat (S (List.length t))) mod PyList.len (ring (stack s)) = p)
      as Hback.
    { unfold PyList.len in *. rewrite Hring in *. cbn [List.length] in *.
      rewrite <- (Z.mul_1_l (Z.of_nat (S (List.length t)))) at 1.
      rewrite Z.mod_add by lia. apply Z.mod_small. lia. }
    rewrite Hback. cbn [saved stack ring position].
    split; [reflexivity|]. split; [now rewrite Hpos|].
    match goal with |- current ?s1 = _ => set (s' := s1) end.
    destruct (current_in_range s' p eq_refl Hp) as (x' & Hx' & ->).
    change (ring (stack s')) with (ring (stack s)) in Hx'. congruence.
Qed.

Lemma back_forward_inverse_witness :
  exists v s', (back ;; forward) push_example = Ok v s' /\
               ring (stack s') = ["aaa"; "bbb"] /\
               position (stack s') = Some 0.
Proof.
  assert (inv (stack push_example)) as Hinv by (apply invb_inv; reflexivity).
  assert (ring (stack push_example) <> []) as Hne by discriminate.
  destruct (back_forward_inverse push_example Hinv Hne)
    as ((v & s' & Hrun & Hring & Hpos) & _).
  exists v, s'. split; [exact Hrun|]. split; [exact Hring | exact Hpos].
Defined.

(** ** Leaving through [sys.exit] *)

(** With [verbose] off.  On a record that satisfies the invariants, [pop]
    on the empty ring prints a message and leaves through [sys.exit(1)];
    [forward] and [back] on the empty ring return [None] and change
    nothing; and no other call ends abnormally: [pop] on a non-empty ring,
    [push], [current], [is_empty], [forward] and [back] all return. *)
Lemma quiet_only_pop_exits (s : Stack) :
  inv (stack s) ->
  (ring (stack s) = [] ->
     pop s = SysExit 1 (mkStack (stack s) (stack_file s)
                                (console s ++ ["No branches on the stack"])) /\
     forward s = Ok None s /\
     back s = Ok None s) /\
  (ring (stack s) <> [] -> exists out s', pop s = Ok out s') /\
  (forall name, exists s', push name s = Ok tt s') /\
  (exists v, current s = Ok v s) /\
  (exists b, is_empty s = Ok b s) /\
  (exists v s', forward s = Ok v s') /\
  (exists v s', back s = Ok v s').
Proof.
  intros Hinv.
  assert (forall step, exists v s', move step s = Ok v s') as Hmove.
  { intros step. destruct (ring (stack s)) as [|x t] eqn:Hr.
    - exists None, s. now apply move_empty.
    - assert (ring (stack s) <> []) as Hne by (rewrite Hr; discriminate).
      destruct (inv_nonempty_position _ Hinv Hne) as (p & Hpos & _).
      destruct (move_nonempty step s p Hne Hpos) as (y & _ & Hrun).
      exists (Some y). eexists. exact Hrun. }
  split; [|split; [|split; [|split; [|split; [|split]]]]].
  - intros Hr. split; [|split; now apply move_empty].
    apply pop_none. now apply Hinv.
  - intros Hr. destruct (inv_nonempty_position _ Hinv Hr) as (p & Hpos & Hp).
    destruct (pop_in_range s p Hpos Hp) as (out & _ & Hrun).
    exists out. eexists. exact Hrun.
  - intros name.
    destruct (in_dec string_dec name (ring (stack s))) as [Hin|Hin].
    + destruct (push_present name s Hin) as (n & _ & Hrun).
      eexists. exact Hrun.
    + eexists. now apply push_absent.
  - destruct (ring (stack s)) as [|x t] eqn:Hr.
    + exists None. now apply current_empty.
    + assert (ring (stack s) <> []) as Hne by (rewrite Hr; discriminate).
      destruct (inv_nonempty_position _ Hinv Hne) as (p & Hpos & Hp).
      destruct (current_in_range s p Hpos Hp) as (y & _ & Hrun).
      exists (Some y). exact Hrun.
  - eexists. reflexivity.
  - apply Hmove.
  - apply Hmove.
Qed.

Example quiet_only_pop_exits_fresh :
  pop fresh = SysExit 1 (mkStack (mkRing [] None) (mkRing [] None)
                                 ["No branches on the stack"]) /\
  forward fresh = Ok None fresh /\
  back fresh = Ok None fresh.
Proof.
  assert (inv (stack fresh)) as Hinv by (apply invb_inv; reflexivity).
  destruct (quiet_only_pop_exits fresh Hinv) as (Hempty & _).
  exact (Hempty eq_refl).
Qed.

(** ** current *)

(** C7, as the code has it.  [current] returns the element at [position]
    when the invariants hold and [position] is not [None], returns [None] on
    an empty ring, and returns [None] when [position] is an integer not below
    [len(ring)]; however it ends, it leaves the state as it found it. *)
Theorem current_spec (s : Stack) :
  (inv (stack s) ->
   forall p, position (stack s) = Some p ->
             exists x, nth_error (ring (stack s)) (Z.to_nat p) = Some x /\
                       current s = Ok (Some x) s) /\
  (ring (stack s) = [] -> current s = Ok None s) /\
  (forall p, position (stack s) = Some p ->
             PyList.len (ring (stack s)) <= p ->
             current s = Ok None s) /\
  state_of (current s) = s.
Proof.
  split; [|split; [|split]].
  - intros (_ & Hidx & _) p Hpos. apply current_in_range; auto.
  - apply current_empty.
  - apply current_beyond.
  - apply current_pure.
Qed.

Lemma current_spec_witness :
  current push_example = Ok (Some "aaa") push_example /\
  current fresh = Ok None fresh /\
  current (loaded (mkRing ["aaa"] (Some 7))) =
    Ok None (loaded (mkRing ["aaa"] (Some 7))).
Proof.
  split; [|split].
  - destruct (current_spec push_example) as (Hin & _).
    assert (inv (stack push_example)) as Hinv by (apply invb_inv; reflexivity).
    destruct (Hin Hinv 0 eq_refl) as (x & Hx & Hrun).
    injection Hx as <-. exact Hrun.
  - destruct (current_spec fresh) as (_ & Hempty & _).
    exact (Hempty eq_refl).
  - destruct (current_spec (loaded (mkRing ["aaa"] (Some 7)))) as (_ & _ & Hbig & _).
    apply (Hbig 7 eq_refl). cbn. lia.
Defined.

(** C7, as stated, fails: a [position] written into the stored record by hand
    can make [current] raise.  With one entry in the ring, [position = -2]
    raises [IndexError] and [position = None] raises [TypeError]. *)
Lemma current_raises_on_tampered_position :
  current (loaded (mkRing ["aaa"] (Some (-2)))) =
    Raise IndexError (loaded (mkRing ["aaa"] (Some (-2)))) /\
  current (loaded (mkRing ["aaa"] None)) =
    Raise TypeError (loaded (mkRing ["aaa"] None)).
Proof. split; reflexivity. Qed.

(** ** The reference source *)

(** C8.  The answer of [ref_exists] is the success of one fixed command,
    [git branch --no-color], and is the same for every name: the code does
    not tell an existing reference from a missing one. *)
Theorem ref_exists_ignores_name (git : Git) (name other : string) :
  GitM.ref_exists git name =
    (returncode (git ["git"; "branch"; "--no-color"]) =? 0) /\
  GitM.ref_exists git other = GitM.ref_exists git name.
Proof.
  unfold GitM.ref_exists, GitM._ref_exists, GitM._run_with_status.
  split; [apply orb_diag | reflexivity].
Qed.

(** In a repository whose only branch is [main], a name that exists neither
    locally nor on the remote is reported to exist. *)
Example ref_exists_missing_branch : GitM.ref_exists only_main "gone" = true.
Proof. reflexivity. Qed.

Lemma append_empty_r (t : string) : (t ++ "")%string = t.
Proof. induction t as [|c t IH]; cbn; [reflexivity | now rewrite IH]. Qed.

(** The token of [status_for], whatever git prints for
    [git rev-list --left-right remote...local]: with [N] the number of
    lines of the stripped output that start with [<] and [M] the number of
    those that start with [>], the token is ["="] exactly when both are
    zero, and otherwise ["<N"] when [N > 0] followed by [">M"] when
    [M > 0], the numbers written in decimal. *)
Lemma status_for_lines (git : Git) (local remote : string) :
  let lines :=
    PyStr.split "010"%char
      (PyStr.strip
         (stdout (git ["git"; "rev-list"; "--left-right";
                       (remote ++ "..." ++ local)%string]))) in
  let N := List.length (filter (String.prefix "<") lines) in
  let M := List.length (filter (String.prefix ">") lines) in
  (GitM.status_for git local remote = "=" <-> N = O /\ M = O) /\
  GitM.status_for git local remote =
    match N, M with
    | O, O => "="
    | S _, O => "<" ++ NilEmpty.string_of_uint (Nat.to_uint N)
    | O, S _ => ">" ++ NilEmpty.string_of_uint (Nat.to_uint M)
    | S _, S _ => "<" ++ NilEmpty.string_of_uint (Nat.to_uint N) ++
                  ">" ++ NilEmpty.string_of_uint (Nat.to_uint M)
    end%string.
Proof.
  intros lines N M.
  change (GitM.status_for git local remote) with
    (let behind_str :=
       if PyStr.nonzero N then ("<" ++ PyStr.str N)%string else EmptyString in
     let ahead_str :=
       if PyStr.nonzero M then (">" ++ PyStr.str M)%string else EmptyString in
     let out := (behind_str ++ ahead_str)%string in
     if PyStr.truthy out then out else "=").
  unfold PyStr.str.
  destruct N as [|n], M as [|m]; cbn [PyStr.nonzero Nat.eqb negb].
  - cbn. split; [split; [intros _; split|]|]; reflexivity.
  - cbn [String.append PyStr.truthy].
    split; [split; [intros [=] | intros [_ [=]]] | reflexivity].
  - cbn [String.append PyStr.truthy]. rewrite append_empty_r.
    split; [split; [intros [=] | intros [[=] _]] | reflexivity].
  - cbn [String.append PyStr.truthy].
    split; [split; [intros [=] | intros [[=] _]] | reflexivity].
Qed.

(** Three commits only on the remote and one only on the local branch; two
    commits only on the local branch; twelve commits only on the remote; no
    commit on either side. *)
Example status_for_examples :
  GitM.status_for diverged "topic" "origin/topic" = "<3>1" /\
  GitM.status_for diverged "main" "origin/main" = ">2" /\
  GitM.status_for diverged "old" "origin/old" = "<12" /\
  GitM.status_for diverged "dev" "origin/dev" = "=".
Proof. repeat split. Qed.

(** ** Reconciliation *)

(** Filtering by [ref_exists] keeps the whole ring or nothing. *)
Lemma filter_ref_exists (git : Git) (l : list string) :
  filter (GitM.ref_exists git) l =
    if GitM.ref_exists git "" then l else [].
Proof.
  induction l as [|x t IH]; cbn [filter].
  - destruct (GitM.ref_exists git ""); reflexivity.
  - rewrite IH. change (GitM.ref_exists git x) with (GitM.ref_exists git "").
    destruct (GitM.ref_exists git ""); reflexivity.
Qed.

(** [push] always returns, with the name in the ring and the record saved. *)
Lemma push_returns (name : string) (s : Stack) :
  exists s', push name s = Ok tt s' /\
             In name (ring (stack s')) /\
             stack_file s' = stack s'.
Proof.
  destruct (in_dec string_dec name (ring (stack s))) as [Hin|Hin].
  - destruct (push_present name s Hin) as (n & _ & ->).
    eexists. split; [reflexivity|]. split; [exact Hin | reflexivity].
  - rewrite (push_absent name s Hin).
    eexists. split; [reflexivity|]. split; [apply In_insert | reflexivity].
Qed.

Lemma current_returns (s : Stack) :
  inv (stack s) -> exists v, current s = Ok v s.
Proof.
  intros Hinv. destruct (ring (stack s)) as [|x t] eqn:Hr.
  - exists None. now apply current_empty.
  - assert (ring (stack s) <> []) as Hne by (rewrite Hr; discriminate).
    destruct (inv_nonempty_position _ Hinv Hne) as (p & Hpos & Hp).
    destruct (current_in_range s p Hpos Hp) as (y & _ & Hrun).
    exists (Some y). exact Hrun.
Qed.

Lemma differs_false (branch : string) (expected : option string) :
  differs branch expected = false <-> expected = Some branch.
Proof.
  destruct expected as [e|]; cbn [differs].
  - rewrite negb_false_iff, String.eqb_eq. split; congruence.
  - split; discriminate.
Qed.

(** [_fix_ring] once [current] has returned: filter, then push if needed,
    then save. *)
Lemma fix_ring_unfold (git : Git) (branch : string) (s : Stack)
      (expected : option string) :
  current s = Ok expected s ->
  _fix_ring git branch s =
    ((if (PyList.len (ring (stack (filtered git s))) =? 0)
          || differs branch expected
      then push branch else ret tt) ;; save) (filtered git s).
Proof.
  intros Hcur. unfold _fix_ring. unfold bind at 1. rewrite Hcur.
  reflexivity.
Qed.

(** The steps of [_fix_ring] on a record that satisfies the invariants,
    relative to what [ref_exists] answers: the filtering step keeps, in
    order, the entries for which [ref_exists] answers true and does not
    write [position]; then, if the filtered ring is empty or [branch]
    differs from what [current()] reported, [branch] is pushed; otherwise
    the filtered record stands.  What [ref_exists] answers is the subject of
    [ref_exists_ignores_name]. *)
Lemma fix_ring_steps (git : Git) (branch : string) (s : Stack) :
  inv (stack s) ->
  exists expected s',
    current s = Ok expected s /\
    _fix_ring git branch s = Ok tt s' /\
    (forall x, In x (ring (stack (filtered git s))) <->
               In x (ring (stack s)) /\ GitM.ref_exists git x = true) /\
    (forall x, expected = Some x -> GitM.ref_exists git x = true ->
               current (filtered git s) = Ok (Some x) (filtered git s)) /\
    (ring (stack (filtered git s)) = [] \/ expected <> Some branch ->
     exists sp, push branch (filtered git s) = Ok tt sp /\
                stack s' = stack sp /\
                In branch (ring (stack s'))) /\
    (ring (stack (filtered git s)) <> [] -> expected = Some branch ->
     stack s' = stack (filtered git s)) /\
    (forall x, ring (stack s) = [x] -> GitM.ref_exists git x = false ->
               ring (stack s') = [branch]).
Proof.
  intros Hinv. destruct (current_returns s Hinv) as (expected & Hcur).
  exists expected.
  destruct (push_returns branch (filtered git s)) as (sp & Hpush & Hin & Hfile).
  assert ((PyList.len (ring (stack (filtered git s))) =? 0) = true <->
          ring (stack (filtered git s)) = []) as Hempty.
  { rewrite Z.eqb_eq. unfold PyList.len.
    destruct (ring (stack (filtered git s))); cbn [List.length]; split;
      try congruence; lia. }
  assert (exists s',
    _fix_ring git branch s = Ok tt s' /\
    (ring (stack (filtered git s)) = [] \/ expected <> Some branch ->
     stack s' = stack sp) /\
    (ring (stack (filtered git s)) <> [] -> expected = Some branch ->
     stack s' = stack (filtered git s))) as (s' & Hrun & Hpushed & Hkept).
  { rewrite (fix_ring_unfold git branch s expected Hcur). unfold bind.
    destruct ((PyList.len (ring (stack (filtered git s))) =? 0)
              || differs branch expected) eqn:Hcond.
    - rewrite Hpush. eexists. split; [reflexivity|]. split; [reflexivity|].
      intros Hne Hexp. exfalso. apply orb_true_iff in Hcond as [Hc|Hc].
      + apply Hne, Hempty, Hc.
      + apply differs_false in Hexp. congruence.
    - eexists. split; [reflexivity|]. split; [|reflexivity].
      apply orb_false_iff in Hcond as [Hc1 Hc2]. intros [He|Hd]; exfalso.
      + apply Hempty in He. congruence.
      + apply Hd, differs_false, Hc2. }
  exists s'. split; [exact Hcur|]. split; [exact Hrun|].
  split; [intros x; apply filter_In|].
  split; [|split; [|split; [exact Hkept|]]].
  - intros x -> Hx. unfold filtered. rewrite filter_ref_exists.
    change (GitM.ref_exists git "") with (GitM.ref_exists git x). rewrite Hx.
    destruct s as [[r p] f c]. exact Hcur.
  - intros Hc. exists sp. split; [exact Hpush|].
    split; [now apply Hpushed|]. rewrite (Hpushed Hc). exact Hin.
  - intros x Hring Hx.
    assert (filter (GitM.ref_exists git) (ring (stack s)) = []) as Hnil.
    { rewrite Hring. cbn [filter]. now rewrite Hx. }
    rewrite Hpushed by (left; exact Hnil).
    assert (~ In branch (ring (stack (filtered git s)))) as Hnot.
    { unfold filtered. cbn [stack ring]. rewrite Hnil. intros []. }
    pose proof (push_absent _ _ Hnot) as Habs. rewrite Hpush in Habs.
    injection Habs as ->. unfold saved, filtered. cbn [stack ring].
    rewrite Hnil. apply insert_nil.
Qed.

Lemma fix_ring_steps_example :
  exists s', _fix_ring no_repository "main" (loaded (mkRing ["aaa"] (Some 0)))
               = Ok tt s' /\
             ring (stack s') = ["main"].
Proof.
  assert (inv (stack (loaded (mkRing ["aaa"] (Some 0))))) as Hinv
    by (apply invb_inv; reflexivity).
  destruct (fix_ring_steps no_repository "main" _ Hinv)
    as (expected & s' & _ & Hrun & _ & _ & _ & _ & Hrefill).
  exists s'. split; [exact Hrun|].
  apply (Hrefill "aaa"); reflexivity.
Defined.

(** When the filter empties the ring, [position] is still the old one when
    [push] adds one to it: the cursor ends beyond the single entry. *)
Example fix_ring_after_emptying :
  stack (state_of (_fix_ring no_repository "main"
                             (loaded (mkRing ["aaa"] (Some 0)))))
    = mkRing ["main"] (Some 1).
Proof. reflexivity. Qed.

(** ** Interactive selection *)

Lemma append_assoc (a b c : string) : ((a ++ b) ++ c = a ++ b ++ c)%string.
Proof. induction a as [|x a IH]; cbn; [reflexivity | now rewrite IH]. Qed.

Lemma prefix_empty (t : string) : String.prefix EmptyString t = true.
Proof. destruct t; reflexivity. Qed.

Lemma prefix_same_head (c : ascii) (r t : string) :
  String.prefix r t = true -> String.prefix (String c r) (String c t) = true.
Proof. intros H. cbn. destruct (ascii_dec c c); [assumption | congruence]. Qed.

Lemma getitem_beyond (r : list string) (n : Z) :
  PyList.len r < n -> PyList.getitem r (n - 1) = None.
Proof.
  intros Hn. pose proof (len_nonneg r).
  rewrite getitem_nonneg by lia. apply nth_error_None.
  unfold PyList.len in *. lia.
Qed.

Section Selection.

Variable py : PyUni.Interpreter.

Lemma starts_nil (s : PyUni.str) : Select.starts [] s.
Proof. exists s. reflexivity. Qed.

Lemma starts_same_head (c : N) (r t : PyUni.str) :
  Select.starts r t -> Select.starts (c :: r) (c :: t).
Proof. intros (rest & ->). exists rest. reflexivity. Qed.

Lemma starts_cons (p : PyUni.str) (c : N) (t : PyUni.str) :
  Select.starts p (c :: t) ->
  p = [] \/ exists p', p = c :: p' /\ Select.starts p' t.
Proof.
  destruct p as [|a p']; [now left|]. intros (rest & H).
  injection H as <- ->. right. exists p'. split; [reflexivity|].
  now exists rest.
Qed.

Lemma fits_cons (c : N) (p : PyUni.str) :
  Select.fits py (c :: p) ->
  (PyUni.isdecimal py c || (c =? 32)%N) = true /\
  (p = [] /\ PyUni.isdecimal py c = true \/ Select.fits py p).
Proof.
  intros [Hall Hend]. cbn [Select.blanks_and_digits] in Hall.
  apply andb_true_iff in Hall as [Hc Hall]. split; [assumption|].
  destruct p as [|d p]; [left; now split | right; now split].
Qed.

Lemma not_fits_empty : ~ Select.fits py [].
Proof. intros [_ H]. discriminate. Qed.

(** The automaton takes the longest prefix that the second group of the
    pattern can match, after the blanks it was holding, and gives the empty
    text when there is none. *)
Lemma groups_longest (s : PyUni.str) : forall pending,
  (Select.groups py pending s = [] /\
   forall p, Select.starts p s -> ~ Select.fits py p) \/
  (exists r, Select.groups py pending s = pending ++ r /\
             Select.starts r s /\ Select.fits py r /\
             forall p, Select.starts p s -> Select.fits py p ->
                       (List.length p <= List.length r)%nat).
Proof.
  induction s as [|c t IH]; intros pending; cbn [Select.groups].
  - left. split; [reflexivity|]. intros p (rest & Hp).
    destruct p; [apply not_fits_empty | discriminate].
  - destruct (PyUni.isdecimal py c) eqn:Hd.
    + right.
      destruct (IH []) as [[-> Hnone]|(r & -> & Hpre & Hfit & Hmax)].
      * exists [c]. split; [reflexivity|].
        split; [apply starts_same_head, starts_nil|].
        split; [split; cbn; rewrite Hd; reflexivity|].
        intros p Hp Hfp. destruct (starts_cons _ _ _ Hp) as [->|(p' & -> & Hp')].
        -- cbn. lia.
        -- apply fits_cons in Hfp as [_ [[-> _]|Hfp']]; [cbn; lia|].
           exfalso. exact (Hnone p' Hp' Hfp').
      * exists (c :: r). cbn [app]. split; [reflexivity|].
        split; [now apply starts_same_head|].
        split.
        { destruct Hfit as [Ha He].
          split; cbn [Select.blanks_and_digits]; [now rewrite Hd, Ha|].
          destruct r; [discriminate | exact He]. }
        intros p Hp Hfp. destruct (starts_cons _ _ _ Hp) as [->|(p' & -> & Hp')].
        -- cbn. lia.
        -- apply fits_cons in Hfp as [_ [[-> _]|Hfp']]; [cbn; lia|].
           cbn [List.length]. specialize (Hmax p' Hp' Hfp'). lia.
    + destruct (N.eqb_spec c 32) as [->|Hc].
      * destruct (IH (pending ++ [32%N]))
          as [[-> Hnone]|(r & -> & Hpre & Hfit & Hmax)].
        -- left. split; [reflexivity|]. intros p Hp Hfp.
           destruct (starts_cons _ _ _ Hp) as [->|(p' & -> & Hp')];
             [exact (not_fits_empty Hfp)|].
           apply fits_cons in Hfp as [_ [[_ Hx]|Hfp']]; [congruence|].
           exact (Hnone p' Hp' Hfp').
        -- right. exists (32%N :: r). split; [now rewrite <- app_assoc|].
           split; [now apply starts_same_head|]. split.
           { destruct Hfit as [Ha He].
             split; cbn [Select.blanks_and_digits];
               [rewrite Ha; now rewrite orb_true_r|].
             destruct r; [discriminate | exact He]. }
           intros p Hp Hfp.
           destruct (starts_cons _ _ _ Hp) as [->|(p' & -> & Hp')].
           ++ cbn. lia.
           ++ apply fits_cons in Hfp as [_ [[_ Hx]|Hfp']]; [congruence|].
              cbn [List.length]. specialize (Hmax p' Hp' Hfp'). lia.
      * left. split; [reflexivity|]. intros p Hp Hfp.
        destruct (starts_cons _ _ _ Hp) as [->|(p' & -> & Hp')];
          [exact (not_fits_empty Hfp)|].
        apply fits_cons in Hfp as [Hok _]. rewrite Hd in Hok. cbn in Hok.
        apply N.eqb_eq in Hok. congruence.
Qed.

(** [re_match] fails exactly when no prefix of the text after the marker can
    be the second group, and otherwise returns the longest such prefix. *)
Lemma re_match_longest (resp : PyUni.str) :
  match Select.re_match py resp with
  | None =>
      forall p, Select.starts p (snd (Select.marker resp)) ->
                ~ Select.fits py p
  | Some (g1, g2) =>
      g1 = fst (Select.marker resp) /\
      Select.starts g2 (snd (Select.marker resp)) /\
      Select.fits py g2 /\
      forall p, Select.starts p (snd (Select.marker resp)) ->
                Select.fits py p ->
                (List.length p <= List.length g2)%nat
  end.
Proof.
  unfold Select.re_match. destruct (Select.marker resp) as [g1 rest].
  cbn [fst snd].
  destruct (groups_longest rest [])
    as [[-> Hnone]|(r & -> & Hpre & Hfit & Hmax)]; [exact Hnone|].
  cbn [app]. destruct r as [|c r]; [now apply not_fits_empty in Hfit|].
  repeat split; try assumption; apply Hfit.
Qed.

(** What white space leaves of a text was in the text. *)
Lemma lstrip_members (s : PyUni.str) (c : N) :
  In c (PyUni.lstrip py s) -> In c s.
Proof.
  induction s as [|d t IH]; cbn [PyUni.lstrip]; [tauto|].
  destruct (PyUni.isspace py d); [right; now apply IH | tauto].
Qed.

Lemma rstrip_members (s : PyUni.str) (c : N) :
  In c (PyUni.rstrip py s) -> In c s.
Proof.
  induction s as [|d t IH]; cbn [PyUni.rstrip]; [tauto|].
  destruct (PyUni.rstrip py t) as [|e t'].
  - destruct (PyUni.isspace py d); [intros [] | intros [<-|[]]; now left].
  - intros [<-|H]; [now left | right; now apply IH].
Qed.

Lemma strip_members (s : PyUni.str) (c : N) :
  In c (PyUni.strip py s) -> In c s.
Proof. intros H. now apply lstrip_members, rstrip_members. Qed.

(** The runs [split] returns are not empty and are made of the characters
    of the text that are not white space. *)
Lemma words_members (s : PyUni.str) : forall cur b,
  In b (PyUni.words py cur s) ->
  b <> [] /\
  forall c, In c b -> In c cur \/ In c s /\ PyUni.isspace py c = false.
Proof.
  induction s as [|d t IH]; intros cur b; cbn [PyUni.words].
  - destruct cur as [|x cur]; [intros [] | intros [<-|[]]].
    split; [discriminate | intros c Hc; now left].
  - destruct (PyUni.isspace py d) eqn:Hd.
    + destruct cur as [|x cur].
      * intros Hb. destruct (IH [] b Hb) as (Hne & Hmem).
        split; [exact Hne|]. intros c Hc.
        destruct (Hmem c Hc) as [[]|[H1 H2]]. right. split; [now right | exact H2].
      * intros [<-|Hb]; [split; [discriminate | intros c Hc; now left]|].
        destruct (IH [] b Hb) as (Hne & Hmem).
        split; [exact Hne|]. intros c Hc.
        destruct (Hmem c Hc) as [[]|[H1 H2]]. right. split; [now right | exact H2].
    + intros Hb. destruct (IH _ b Hb) as (Hne & Hmem).
      split; [exact Hne|]. intros c Hc.
      destruct (Hmem c Hc) as [H|[H1 H2]].
      * apply in_app_or in H. destruct H as [H|[<-|[]]]; [now left|].
        right. split; [now left | exact Hd].
      * right. split; [now right | exact H2].
Qed.

Lemma fits_members (g : PyUni.str) (c : N) :
  Select.blanks_and_digits py g = true -> In c g ->
  PyUni.isdecimal py c = true \/ c = 32%N.
Proof.
  induction g as [|d t IH]; cbn [Select.blanks_and_digits]; [intros _ []|].
  intros H [<-|Hc]; apply andb_true_iff in H as [Hd Ht].
  - apply orb_true_iff in Hd as [Hd|Hd]; [now left | right; now apply N.eqb_eq].
  - now apply IH.
Qed.

(** The texts handed to [int] are runs of decimal digits, and not empty. *)
Lemma tokens_are_numbers (resp g1 g2 b : PyUni.str) :
  Select.re_match py resp = Some (g1, g2) ->
  In b (PyUni.split_ws py (PyUni.strip py g2)) ->
  b <> [] /\ forall c, In c b -> PyUni.isdecimal py c = true.
Proof.
  intros Hm Hb. pose proof (re_match_longest resp) as Hl. rewrite Hm in Hl.
  destruct Hl as (_ & _ & (Hall & _) & _).
  destruct (words_members _ _ _ Hb) as (Hne & Hmem).
  split; [exact Hne|]. intros c Hc.
  destruct (Hmem c Hc) as [[]|[Hin Hsp]]. apply strip_members in Hin.
  destruct (fits_members g2 c Hall Hin) as [Hd| ->]; [exact Hd|].
  discriminate Hsp.
Qed.

(** What [int] returns is the number the digits write. *)
Lemma int_value (b : PyUni.str) (n : Z) :
  PyUni.int py b = Some n -> PyUni.digits_value py 0 b = Some n.
Proof.
  unfold PyUni.int. destruct b as [|c t]; [discriminate|].
  destruct (_ && _)%bool; [discriminate | tauto].
Qed.

(** Looking the numbers up changes nothing, whether it succeeds or raises. *)
Lemma lookups_outcome (r : list string) (tokens : list PyUni.str) (s : Stack) :
  (exists xs, Select.lookups py r tokens s = Ok xs s) \/
  (exists e, Select.lookups py r tokens s = Raise e s).
Proof.
  induction tokens as [|b rest IH]; cbn [Select.lookups].
  - left. exists []. reflexivity.
  - unfold bind, or_raise. destruct (PyUni.int py b) as [n|]; cbn.
    + destruct (PyList.getitem r (n - 1)) as [x|]; cbn.
      * destruct IH as [(xs & ->)|(e & ->)]; [left | right]; eexists;
          reflexivity.
      * right. eexists. reflexivity.
    + right. eexists. reflexivity.
Qed.

(** One number beyond the ring makes the whole list of lookups raise,
    whether [int] reads that number or refuses it for its length. *)
Lemma lookups_beyond (r : list string) (tokens : list PyUni.str) (s : Stack)
    (b : PyUni.str) (n : Z) :
  In b tokens -> PyUni.digits_value py 0 b = Some n -> PyList.len r < n ->
  exists e, Select.lookups py r tokens s = Raise e s.
Proof.
  intros Hin Hval Hn. induction tokens as [|b0 rest IH]; [contradiction|].
  cbn [Select.lookups]. unfold bind, or_raise.
  destruct (PyUni.int py b0) as [n0|] eqn:Hint0; cbn; [|eexists; reflexivity].
  destruct (PyList.getitem r (n0 - 1)) as [x|] eqn:Hget; cbn;
    [|eexists; reflexivity].
  destruct Hin as [->|Hin].
  - apply int_value in Hint0. assert (n0 = n) as -> by congruence.
    rewrite getitem_beyond in Hget by assumption. discriminate.
  - destruct (IH Hin) as (e & ->). eexists. reflexivity.
Qed.

End Selection.

(** C9, as the code has it.  A line is discarded, leaving the record in
    memory and the record in the file as they were, when no prefix of the
    stripped line fits the pattern, or when a number of the matched prefix is
    greater than the length of the ring.  The line is any text, and the
    interpreter any interpreter. *)
Theorem malformed_selection_discarded
    (py : PyUni.Interpreter)
    (pop_command : method unit) (jump : string -> method unit)
    (line : PyUni.str) (branch : string) (s : Stack) :
  Select.re_match py (PyUni.strip py line) = None \/
  (exists g1 g2 b n,
     Select.re_match py (PyUni.strip py line) = Some (g1, g2) /\
     In b (PyUni.split_ws py (PyUni.strip py g2)) /\
     PyUni.digits_value py 0 b = Some n /\
     PyList.len (ring (stack s)) < n) ->
  Select.print_ring_select py pop_command jump (Some line) branch s =
    Ok tt (prompted s).
Proof.
  intros Hbad. unfold Select.print_ring_select, bind, print.
  fold (prompted s). unfold Select.try_pass.
  destruct (PyUni.strip py line) as [|c0 resp] eqn:Hresp; [reflexivity|].
  unfold Select.selection, bind at 1.
  destruct Hbad as [Hnone|(g1 & g2 & b & n & Hsome & Hin & Hval & Hn)].
  - rewrite Hnone. reflexivity.
  - rewrite Hsome. cbn [or_raise ret fst snd]. unfold bind, get_ring.
    destruct (lookups_beyond py (ring (stack (prompted s))) _ (prompted s) b n
                             Hin Hval Hn) as (e & ->).
    reflexivity.
Qed.

Lemma malformed_selection_discarded_witness :
  Select.print_ring_select sample_interpreter (ret tt) (fun _ => ret tt)
      (Some (PyUni.of_string "d 3
")) "aaa" push_example = Ok tt (prompted push_example) /\
  Select.print_ring_select sample_interpreter (ret tt) (fun _ => ret tt)
      (Some (PyUni.of_string "first
")) "aaa" push_example = Ok tt (prompted push_example).
Proof.
  split.
  - apply malformed_selection_discarded. right.
    exists (PyUni.of_string "d"), (PyUni.of_string " 3"),
           (PyUni.of_string "3"), 3.
    repeat split. left. reflexivity.
  - apply malformed_selection_discarded. left. reflexivity.
Defined.

(** C9, as stated, fails.  With the ring [[aaa; bbb]] and [aaa] current, the
    line [d 0] names no 1-based position, yet index [0 - 1] is the last entry
    and [bbb] is deleted; the line [d2 x] does not fit the grammar, yet its
    prefix [d2] is obeyed and [bbb] is deleted.  Neither the interpreter's
    tables nor the sub-commands are consulted, so the outcome is the same
    whatever they are. *)
Lemma selection_not_discarded :
  (fun py pop_command jump =>
     Select.print_ring_select py pop_command jump
       (Some (PyUni.of_string "d 0
")) "aaa" push_example)
  = (fun _ _ _ =>
       Ok tt (mkStack (mkRing ["aaa"] (Some 0)) (mkRing ["aaa"] (Some 0))
                      ["Type a number to switch to another branch";
                       "Deleting bbb"])) /\
  (fun py pop_command jump =>
     Select.print_ring_select py pop_command jump
       (Some (PyUni.of_string "d2 x
")) "aaa" push_example)
  = (fun _ _ _ =>
       Ok tt (mkStack (mkRing ["aaa"] (Some 0)) (mkRing ["aaa"] (Some 0))
                      ["Type a number to switch to another branch";
                       "Deleting bbb"])).
Proof. split; reflexivity. Qed.

(** A line need not be written in the characters below 128.  With the ring
    [[aaa; bbb; ccc]] and [aaa] current: a no-break space before [2] is
    stripped and the jump is made to [bbb]; the Arabic-Indic digit three
    jumps to [ccc]; [d] and the full-width digit two delete [bbb]. *)
Example selection_in_other_scripts :
  let s := loaded (mkRing ["aaa"; "bbb"; "ccc"] (Some 0)) in
  let run line :=
    Select.print_ring_select sample_interpreter (ret tt)
      (fun b => print ("jump " ++ b)%string) (Some line) "aaa" s in
  run [160; 50; 10]%N = Ok tt (printed ["jump bbb"] (prompted s)) /\
  run [1635; 10]%N = Ok tt (printed ["jump ccc"] (prompted s)) /\
  run [100; 65298; 10]%N =
    Ok tt (mkStack (mkRing ["aaa"; "ccc"] (Some 0))
                   (mkRing ["aaa"; "ccc"] (Some 0))
                   ["Type a number to switch to another branch";
                    "Deleting bbb"]).
Proof. repeat split. Qed.

(** [int] and the limit on the length of a number: under the default limit
    a run of 4301 nines is refused and one of 4300 is read; an interpreter
    without a limit reads both. *)
Example int_refuses_long_numbers :
  PyUni.int sample_interpreter (repeat 57%N 4301) = None /\
  PyUni.int sample_interpreter (repeat 57%N 4300) = Some (10 ^ 4300 - 1) /\
  PyUni.int unlimited_interpreter (repeat 57%N 4301) = Some (10 ^ 4301 - 1).
Proof. vm_compute. repeat split. Qed.

(** ** The script's own tests, run on the model *)

(** [test_stack_push_pop] *)
Example test_stack_push_pop :
  (push "bob" ;; pop) fresh = Ok "bob" fresh /\
  (push "bob" ;; pop ;; pop) fresh =
    SysExit 1 (mkStack (mkRing [] None) (mkRing [] None)
                       ["No branches on the stack"]).
Proof. split; reflexivity. Qed.

(** [test_stack_push_doesnt_add_duplicates] *)
Example test_stack_push_doesnt_add_duplicates :
  (push "bob" ;; push "bob" ;; pop) fresh = Ok "bob" fresh.
Proof. reflexivity. Qed.

(** [test_stack_back_cycles_back_through_ring] *)
Example test_stack_back_cycles_back_through_ring :
  (push "aaa" ;; push "bbb" ;; push "ccc" ;;
   c0 <- current ;; b1 <- back ;; b2 <- back ;; b3 <- back ;;
   ret [c0; b1; b2; b3]) fresh =
    Ok [Some "ccc"; Some "bbb"; Some "aaa"; Some "ccc"]
       (loaded (mkRing ["aaa"; "bbb"; "ccc"] (Some 2))).
Proof. reflexivity. Qed.

(** [test_stack_jumping_and_popping] *)
Example test_stack_jumping_and_popping :
  (push "aaa" ;; push "bbb" ;; push "ccc" ;;
   f1 <- forward ;; f2 <- forward ;; p1 <- pop ;; c1 <- current ;;
   b1 <- back ;; p2 <- pop ;; c2 <- current ;;
   push "ddd" ;; c3 <- current ;; f3 <- forward ;;
   ret [f1; f2; Some p1; c1; b1; Some p2; c2; c3; f3]) fresh =
    Ok [Some "aaa"; Some "bbb"; Some "bbb"; Some "aaa"; Some "ccc";
        Some "ccc"; Some "aaa"; Some "ddd"; Some "aaa"]
       (loaded (mkRing ["aaa"; "ddd"] (Some 0))).
Proof. reflexivity. Qed.

(** [test_stack_popping_from_head] *)
Example test_stack_popping_from_head :
  (push "aaa" ;; push "bbb" ;; push "ccc" ;;
   back ;; back ;; p <- pop ;; c <- current ;; ret (p, c)) fresh =
    Ok ("aaa", Some "ccc") (loaded (mkRing ["bbb"; "ccc"] (Some 1))).
Proof. reflexivity. Qed.

(** What the selection pattern takes from a line. *)
Example re_match_examples :
  let re_match line :=
    Select.re_match sample_interpreter (PyUni.of_string line) in
  let groups g1 g2 := Some (PyUni.of_string g1, PyUni.of_string g2) in
  re_match "d 1 2  3 x" = groups "d" " 1 2  3" /\
  re_match "D12" = groups "D" "12" /\
  re_match "3  " = groups "" "3" /\
  re_match "2nd" = groups "" "2" /\
  re_match "d" = None /\
  re_match "x3" = None.
Proof. repeat split. Qed.

(** * Further properties of the ring *)

(** ** Cutting and splicing lists *)

Section CutSplice.
Context {A : Type}.
Implicit Types (l : list A) (x : A) (n i : nat).

(** A list around one of its entries. *)
Lemma split_at_nth l n x :
  nth_error l n = Some x -> l = firstn n l ++ x :: skipn (S n) l.
Proof.
  revert n. induction l as [|y t IH]; intros [|n] H; try discriminate.
  - injection H as ->. reflexivity.
  - cbn [firstn skipn app]. f_equal. apply IH. exact H.
Qed.

(** Removing what was just spliced in gives the list back. *)
Lemma cut_splice l n x :
  (n <= List.length l)%nat ->
  firstn n (firstn n l ++ x :: skipn n l) ++
  skipn (S n) (firstn n l ++ x :: skipn n l) = l.
Proof.
  intros Hn.
  assert (List.length (firstn n l) = n) as Hlen
    by (rewrite length_firstn; lia).
  rewrite firstn_app, Hlen, Nat.sub_diag. cbn [firstn].
  assert (firstn n (firstn n l) = firstn n l) as ->
    by (apply firstn_all2; lia).
  rewrite app_nil_r, skipn_app, Hlen.
  assert (skipn (S n) (firstn n l) = []) as ->
    by (apply skipn_all2; lia).
  replace (S n - n)%nat with 1%nat by lia.
  cbn [skipn app]. apply firstn_skipn.
Qed.

(** Entries before the cut keep their index, later ones move down by one. *)
Lemma nth_error_cut l n i :
  nth_error (firstn n l ++ skipn (S n) l) i =
    if (i <? n)%nat then nth_error l i else nth_error l (S i).
Proof.
  destruct (Nat.ltb_spec i n) as [Hi|Hi].
  - destruct (Nat.le_gt_cases (List.length l) i) as [Hl|Hl].
    + rewrite (proj2 (nth_error_None l i)) by lia.
      apply nth_error_None. rewrite length_app, length_firstn, length_skipn. lia.
    + rewrite nth_error_app1 by (rewrite length_firstn; lia).
      rewrite nth_error_firstn.
      destruct (Nat.ltb_spec i n); [reflexivity | lia].
  - destruct (Nat.le_gt_cases (List.length l) n) as [Hl|Hl].
    + rewrite skipn_all2 by lia. rewrite app_nil_r, firstn_all2 by lia.
      rewrite !(proj2 (nth_error_None l _)) by lia. reflexivity.
    + rewrite nth_error_app2 by (rewrite length_firstn; lia).
      rewrite length_firstn, Nat.min_l by lia.
      rewrite nth_error_skipn. f_equal. lia.
Qed.

End CutSplice.

(** ** How the operations of [Stack] compose *)

Lemma index_after_prefix (a b : list string) (x : string) :
  ~ In x a -> PyList.index String.eqb (a ++ x :: b) x = Some (List.length a).
Proof.
  induction a as [|y t IH]; intros Hx; cbn [app PyList.index List.length].
  - now rewrite String.eqb_refl.
  - destruct (String.eqb_spec x y) as [->|_]; [exfalso; apply Hx; now left|].
    rewrite IH; [reflexivity|]. intros H. apply Hx. now right.
Qed.

Lemma index_splice (l : list string) (n : nat) (x : string) :
  ~ In x l -> (n <= List.length l)%nat ->
  PyList.index String.eqb (firstn n l ++ x :: skipn n l) x = Some n.
Proof.
  intros Hx Hn. rewrite index_after_prefix.
  - rewrite length_firstn. f_equal. lia.
  - intros H. apply Hx. rewrite <- (firstn_skipn n l).
    apply in_or_app. now left.
Qed.

(** [current] looks at the record only. *)
Lemma current_same_record (s t : Stack) (v : option string) :
  stack t = stack s -> current s = Ok v s -> current t = Ok v t.
Proof.
  intros Hst. run_method. rewrite ?Hst.
  destruct (truthy _); [|congruence].
  run_method. rewrite ?Hst.
  destruct (position (stack s)); [|congruence].
  destruct (_ >? _); [|congruence].
  run_method. rewrite ?Hst.
  destruct (PyList.getitem _ _); congruence.
Qed.

Lemma current_at_cursor (l : list string) (q : Z) (x : string) (s : Stack) :
  0 <= q -> nth_error l (Z.to_nat q) = Some x ->
  stack s = mkRing l (Some q) -> current s = Ok (Some x) s.
Proof.
  intros Hq Hx Hs.
  destruct (current_in_range s q) as (y & Hy & ->).
  - now rewrite Hs.
  - rewrite Hs. cbn [ring]. split; [assumption|].
    assert (Z.to_nat q < List.length l)%nat by (apply nth_error_Some; congruence).
    unfold PyList.len. lia.
  - rewrite Hs in Hy. cbn [ring] in Hy. congruence.
Qed.

(** What [push] leaves on a record that satisfies the invariants. *)
Lemma push_lands (name : string) (s : Stack) :
  inv (stack s) ->
  exists s1, push name s = Ok tt s1 /\
             inv (stack s1) /\
             current s1 = Ok (Some name) s1 /\
             stack_file s1 = stack s1 /\
             console s1 = console s.
Proof.
  intros Hinv. pose proof (inv_push name s Hinv) as Hinv1.
  destruct (in_dec string_dec name (ring (stack s))) as [Hin|Hin].
  - destruct (push_present name s Hin) as (n & Hn & Hrun).
    rewrite Hrun in *. eexists. split; [reflexivity|].
    split; [exact Hinv1|]. split; [|split; reflexivity].
    destruct (index_In name _ Hin) as (n' & Hn' & Hnth & _).
    assert (n' = n) as -> by congruence.
    eapply current_at_cursor; [| |reflexivity]; [lia|].
    now rewrite Nat2Z.id.
  - pose proof (push_absent name s Hin) as Hrun. rewrite Hrun in *.
    eexists. split; [reflexivity|].
    split; [exact Hinv1|]. split; [|split; reflexivity].
    pose proof (push_target_range _ Hinv) as Hk.
    eapply current_at_cursor; [| |reflexivity]; [lia|].
    rewrite insert_in_range by assumption. apply nth_error_splice.
    unfold PyList.len in Hk. lia.
Qed.

(** X1.  Pushing the same name twice is the same as pushing it once: the
    second [push] finds the name and leaves ring, [position] and file as the
    first left them. *)
Theorem push_idempotent (name : string) (s : Stack) :
  inv (stack s) ->
  exists s1, push name s = Ok tt s1 /\ push name s1 = Ok tt s1.
Proof.
  intros Hinv.
  destruct (in_dec string_dec name (ring (stack s))) as [Hin|Hin].
  - destruct (push_present name s Hin) as (n & Hn & Hrun).
    eexists. split; [exact Hrun|].
    match goal with |- push name ?st = _ => set (s1 := st) end.
    assert (In name (ring (stack s1))) as Hin1 by exact Hin.
    destruct (push_present name s1 Hin1) as (n1 & Hn1 & ->).
    change (ring (stack s1)) with (ring (stack s)) in *.
    assert (n1 = n) as -> by congruence. reflexivity.
  - pose proof (push_target_range _ Hinv) as Hk.
    assert (Z.to_nat (push_target (stack s)) <= List.length (ring (stack s)))%nat
      as Hk' by (unfold PyList.len in Hk; lia).
    eexists. split; [apply push_absent; exact Hin|].
    match goal with |- push name ?st = _ => set (s1 := st) end.
    assert (ring (stack s1) =
            firstn (Z.to_nat (push_target (stack s))) (ring (stack s)) ++
            name :: skipn (Z.to_nat (push_target (stack s))) (ring (stack s)))
      as Hring by (apply insert_in_range; exact Hk).
    assert (In name (ring (stack s1))) as Hin1
      by (rewrite Hring; apply in_or_app; right; now left).
    destruct (push_present name s1 Hin1) as (n1 & Hn1 & ->).
    rewrite Hring, index_splice in Hn1 by assumption.
    injection Hn1 as <-. rewrite Z2Nat.id by lia. reflexivity.
Qed.

Lemma push_idempotent_witness :
  exists s1, push "bbb" push_example = Ok tt s1 /\ push "bbb" s1 = Ok tt s1.
Proof.
  apply push_idempotent. apply invb_inv. reflexivity.
Defined.

(** X2.  Pushing a name the ring does not hold and popping at once gives the
    name back and restores the record, ring and [position], exactly. *)
Theorem push_pop_round_trip (name : string) (s : Stack) :
  inv (stack s) ->
  ~ In name (ring (stack s)) ->
  (push name ;; pop) s = Ok name (saved (stack s) s).
Proof.
  intros Hinv Hin. unfold bind. rewrite (push_absent name s Hin).
  pose proof (push_target_range _ Hinv) as Hk.
  set (k := push_target (stack s)) in *.
  assert (Z.to_nat k <= List.length (ring (stack s)))%nat
    as Hk' by (unfold PyList.len in Hk; lia).
  match goal with |- pop ?st = _ => set (s1 := st) end.
  assert (ring (stack s1) =
          firstn (Z.to_nat k) (ring (stack s)) ++
          name :: skipn (Z.to_nat k) (ring (stack s)))
    as Hring by (apply insert_in_range; exact Hk).
  destruct (pop_in_range s1 k eq_refl) as (out & Hout & ->).
  { rewrite Hring. unfold PyList.len in *. rewrite length_splice. lia. }
  rewrite Hring, nth_error_splice in Hout by assumption. injection Hout as <-.
  unfold popped. rewrite Hring, cut_splice by assumption.
  unfold saved. cbn [console s1]. f_equal. f_equal.
  all: destruct (stack s) as [r pos] eqn:Hs; cbn [ring position] in *.
  all: destruct Hinv as (Hnone & Hidx & _); cbn [ring position] in *.
  all: unfold k, push_target; cbn [position].
  all: destruct pos as [p|].
  all: try (specialize (Hidx p eq_refl);
            assert (truthy r = true) as -> by (apply truthy_len; lia);
            replace (p + 1 - 1) with p by lia;
            rewrite Z.mod_small by assumption; reflexivity).
  all: rewrite (proj1 Hnone eq_refl); reflexivity.
Qed.

Lemma push_pop_round_trip_witness :
  (push "ccc" ;; pop) push_example = Ok "ccc" (saved (stack push_example) push_example).
Proof.
  apply push_pop_round_trip.
  - apply invb_inv. reflexivity.
  - apply contains_not_In. reflexivity.
Defined.

(** X3.  On a record that satisfies the invariants, [pop] takes exactly the
    name it returns out of the ring: that name is gone afterwards, every
    other name is still there, and the ring is one shorter. *)
Theorem pop_forgets (s : Stack) (p : Z) :
  inv (stack s) ->
  position (stack s) = Some p ->
  exists out s', pop s = Ok out s' /\
    ~ In out (ring (stack s')) /\
    (forall x, In x (ring (stack s)) <-> x = out \/ In x (ring (stack s'))) /\
    S (List.length (ring (stack s'))) = List.length (ring (stack s)).
Proof.
  intros Hinv Hpos. pose proof Hinv as (_ & Hidx & Hnd).
  destruct (pop_in_range s p Hpos (Hidx p Hpos)) as (out & Hout & ->).
  exists out. eexists. split; [reflexivity|].
  unfold saved, popped. cbn [stack ring].
  pose proof (split_at_nth _ _ _ Hout) as Hsplit.
  set (a := firstn (Z.to_nat p) (ring (stack s))) in *.
  set (b := skipn (S (Z.to_nat p)) (ring (stack s))) in *.
  rewrite Hsplit in Hnd. split; [|split].
  - eapply NoDup_remove_2. exact Hnd.
  - intros x. rewrite Hsplit, !in_app_iff. cbn [In]. intuition congruence.
  - rewrite Hsplit, !length_app. cbn [List.length]. lia.
Qed.

Lemma pop_forgets_witness :
  exists out s', pop push_example = Ok out s' /\ ~ In out (ring (stack s')).
Proof.
  destruct (pop_forgets push_example 0) as (out & s' & Hrun & Hgone & _).
  - apply invb_inv. reflexivity.
  - reflexivity.
  - exists out, s'. split; assumption.
Defined.

(** X4.  On a ring of at least two names, [pop] leaves the cursor on the
    entry that [back] would have moved to: [current()] after the [pop] is
    what [back()] returns before it. *)
Theorem pop_lands_on_predecessor (s : Stack) :
  inv (stack s) ->
  (2 <= List.length (ring (stack s)))%nat ->
  exists x sb out s',
    back s = Ok (Some x) sb /\
    pop s = Ok out s' /\
    current s' = Ok (Some x) s'.
Proof.
  intros Hinv Hlen.
  assert (ring (stack s) <> []) as Hne
    by (intros E; rewrite E in Hlen; cbn in Hlen; lia).
  destruct (inv_nonempty_position _ Hinv Hne) as (p & Hpos & Hp).
  destruct (move_nonempty (-1) s p Hne Hpos) as (x & Hx & Hback).
  destruct (pop_in_range s p Hpos Hp) as (out & _ & Hpop).
  exists x. eexists. exists out. eexists.
  split; [exact Hback|]. split; [exact Hpop|].
  set (l := ring (stack s)) in *. unfold PyList.len in *.
  set (l' := firstn (Z.to_nat p) l ++ skipn (S (Z.to_nat p)) l).
  assert (S (List.length l') = List.length l) as Hlen'.
  { unfold l'. rewrite length_app, length_firstn, length_skipn. lia. }
  assert (truthy l' = true) as Ht
    by (apply truthy_len; unfold PyList.len; lia).
  apply current_at_cursor
    with (l := l') (q := (p - 1) mod Z.of_nat (List.length l')).
  - apply Z.mod_pos_bound. lia.
  - unfold l' at 1. rewrite nth_error_cut.
    destruct (Z.eq_dec p 0) as [Hp0|Hp0].
    + assert ((Z.to_nat ((p - 1) mod Z.of_nat (List.length l')) <? Z.to_nat p)%nat
              = false) as -> by (apply Nat.ltb_ge; lia).
      subst p.
      replace ((0 - 1) mod Z.of_nat (List.length l'))
        with (Z.of_nat (List.length l') - 1)
        by (apply Z.mod_unique_pos with (q := -1); lia).
      replace ((0 + -1) mod Z.of_nat (List.length l))
        with (Z.of_nat (List.length l) - 1) in Hx
        by (apply Z.mod_unique_pos with (q := -1); lia).
      rewrite <- Hx. f_equal. lia.
    + rewrite (Z.mod_small (p - 1)) by lia.
      rewrite (Z.mod_small (p + -1)) in Hx by lia.
      destruct (Nat.ltb_spec (Z.to_nat (p - 1)) (Z.to_nat p)); [|lia].
      rewrite <- Hx. f_equal.
  - unfold saved, popped. cbn [stack]. fold l l'. unfold PyList.len.
    now rewrite Ht.
Qed.

Lemma pop_lands_on_predecessor_witness :
  exists x sb out s',
    back push_example = Ok (Some x) sb /\
    pop push_example = Ok out s' /\
    current s' = Ok (Some x) s'.
Proof.
  apply pop_lands_on_predecessor.
  - apply invb_inv. reflexivity.
  - cbn. lia.
Defined.

(** X5.  On a non-empty ring [forward] and [back] return an entry of the
    ring and leave [position] a valid index, whatever integer [position] was
    before, inside the ring or not; the ring itself is not touched. *)
Theorem move_repairs_cursor (s : Stack) (p : Z) :
  ring (stack s) <> [] ->
  position (stack s) = Some p ->
  (exists x s' q, forward s = Ok (Some x) s' /\
                  ring (stack s') = ring (stack s) /\
                  position (stack s') = Some q /\
                  0 <= q < PyList.len (ring (stack s)) /\
                  nth_error (ring (stack s)) (Z.to_nat q) = Some x) /\
  (exists x s' q, back s = Ok (Some x) s' /\
                  ring (stack s') = ring (stack s) /\
                  position (stack s') = Some q /\
                  0 <= q < PyList.len (ring (stack s)) /\
                  nth_error (ring (stack s)) (Z.to_nat q) = Some x).
Proof.
  intros Hne Hpos.
  assert (forall step, exists x s' q,
            move step s = Ok (Some x) s' /\
            ring (stack s') = ring (stack s) /\
            position (stack s') = Some q /\
            0 <= q < PyList.len (ring (stack s)) /\
            nth_error (ring (stack s)) (Z.to_nat q) = Some x) as Hmove.
  { intros step. destruct (move_nonempty step s p Hne Hpos) as (x & Hx & Hrun).
    exists x. eexists. eexists. split; [exact Hrun|].
    split; [reflexivity|]. split; [reflexivity|]. split; [|exact Hx].
    apply Z.mod_pos_bound. now apply truthy_len, truthy_nonempty. }
  split; apply Hmove.
Qed.

Lemma move_repairs_cursor_witness :
  exists x s' q, forward (loaded (mkRing ["aaa"; "bbb"] (Some 7))) = Ok (Some x) s' /\
                 position (stack s') = Some q /\ 0 <= q < 2.
Proof.
  destruct (move_repairs_cursor (loaded (mkRing ["aaa"; "bbb"] (Some 7))) 7)
    as ((x & s' & q & Hrun & _ & Hq & Hrange & _) & _).
  - discriminate.
  - reflexivity.
  - exists x, s', q. split; [exact Hrun|]. split; [exact Hq | exact Hrange].
Defined.

(** [S k] calls of [move step] shift the cursor by [step * S k], modulo the
    length. *)
Lemma repeat_move (step : Z) (k : nat) : forall (s : Stack) (p : Z),
  ring (stack s) <> [] ->
  position (stack s) = Some p ->
  repeat_call (move step) (S k) s =
    Ok tt (saved (mkRing (ring (stack s))
                         (Some ((p + step * Z.of_nat (S k))
                                mod PyList.len (ring (stack s))))) s).
Proof.
  induction k as [|k IH]; intros s p Hr Hpos.
  - cbn [repeat_call]. unfold bind.
    destruct (move_nonempty step s p Hr Hpos) as (x & _ & ->).
    replace (step * Z.of_nat 1) with step by lia. reflexivity.
  - change (repeat_call (move step) (S (S k)) s)
      with (bind (move step) (fun _ => repeat_call (move step) (S k)) s).
    unfold bind.
    destruct (move_nonempty step s p Hr Hpos) as (x & _ & ->).
    rewrite (IH _ ((p + step) mod PyList.len (ring (stack s))));
      [|assumption|reflexivity].
    unfold saved. cbn [stack ring console].
    rewrite Zplus_mod_idemp_l.
    replace (p + step + step * Z.of_nat (S k))
      with (p + step * Z.of_nat (S (S k))) by lia.
    reflexivity.
Qed.

(** X6.  On a non-empty ring that satisfies the invariants, any number of
    [forward] calls is undone by the same number of [back] calls: ring and
    [position] are as before. *)
Theorem forwards_undone_by_backs (s : Stack) (k : nat) :
  inv (stack s) ->
  ring (stack s) <> [] ->
  exists s1 s2, repeat_call forward k s = Ok tt s1 /\
                repeat_call back k s1 = Ok tt s2 /\
                stack s2 = stack s.
Proof.
  intros Hinv Hne. destruct k as [|k].
  - exists s, s. repeat split.
  - destruct (inv_nonempty_position _ Hinv Hne) as (p & Hpos & Hp).
    unfold forward, back. rewrite (repeat_move 1 k s p Hne Hpos).
    pose (q := (p + 1 * Z.of_nat (S k)) mod PyList.len (ring (stack s))).
    pose (s1 := saved (mkRing (ring (stack s)) (Some q)) s).
    exists s1. eexists. split; [reflexivity|].
    rewrite (repeat_move (-1) k s1 q Hne eq_refl).
    split; [reflexivity|]. unfold s1, q, saved. cbn [stack ring].
    rewrite Zplus_mod_idemp_l.
    replace (p + 1 * Z.of_nat (S k) + -1 * Z.of_nat (S k)) with p by lia.
    rewrite Z.mod_small by assumption.
    destruct (stack s) as [r pos]. cbn [ring position] in *. congruence.
Qed.

Lemma forwards_undone_by_backs_witness :
  exists s1 s2, repeat_call forward 5 push_example = Ok tt s1 /\
                repeat_call back 5 s1 = Ok tt s2 /\
                stack s2 = stack push_example.
Proof.
  apply forwards_undone_by_backs.
  - apply invb_inv. reflexivity.
  - discriminate.
Defined.

(** * Further properties of the reconciliation *)

Lemma ref_exists_when_git_works (git : Git) (x : string) :
  returncode (git ["git"; "branch"; "--no-color"]) = 0 ->
  GitM.ref_exists git x = true.
Proof.
  intros Hrc. unfold GitM.ref_exists, GitM._ref_exists, GitM._run_with_status.
  rewrite Hrc. reflexivity.
Qed.

Lemma ref_exists_when_git_fails (git : Git) (x : string) :
  returncode (git ["git"; "branch"; "--no-color"]) <> 0 ->
  GitM.ref_exists git x = false.
Proof.
  intros Hrc. unfold GitM.ref_exists, GitM._ref_exists, GitM._run_with_status.
  apply Z.eqb_neq in Hrc. rewrite Hrc. reflexivity.
Qed.

(** While git works the filter of [_fix_ring] changes nothing. *)
Lemma filtered_when_git_works (git : Git) (s : Stack) :
  returncode (git ["git"; "branch"; "--no-color"]) = 0 ->
  filtered git s = s.
Proof.
  intros Hrc. unfold filtered.
  rewrite filter_ref_exists, (ref_exists_when_git_works git "" Hrc).
  destruct s as [[r p] f c]. reflexivity.
Qed.

Lemma empty_test (l : list string) : (PyList.len l =? 0) = negb (truthy l).
Proof. destruct l; reflexivity. Qed.

(** When [branch] is already current and the file is up to date,
    [_fix_ring] changes nothing at all. *)
Lemma fix_ring_stable (git : Git) (branch : string) (s : Stack) :
  returncode (git ["git"; "branch"; "--no-color"]) = 0 ->
  current s = Ok (Some branch) s ->
  stack_file s = stack s ->
  _fix_ring git branch s = Ok tt s.
Proof.
  intros Hrc Hcur Hfile.
  rewrite (fix_ring_unfold git branch s _ Hcur), (filtered_when_git_works git s Hrc).
  assert (truthy (ring (stack s)) = true) as Ht.
  { destruct (ring (stack s)) eqn:Hr; [|reflexivity].
    rewrite (current_empty s Hr) in Hcur. discriminate. }
  rewrite empty_test, Ht. cbn [negb orb differs].
  rewrite String.eqb_refl. cbn [negb]. unfold bind, ret, save.
  destruct s as [r f c]. cbn [stack stack_file console] in *. now subst f.
Qed.

(** What [_fix_ring] leaves on a record that satisfies the invariants, while
    git works. *)
Lemma fix_ring_lands (git : Git) (branch : string) (s : Stack) :
  inv (stack s) ->
  returncode (git ["git"; "branch"; "--no-color"]) = 0 ->
  exists s', _fix_ring git branch s = Ok tt s' /\
             inv (stack s') /\
             current s' = Ok (Some branch) s' /\
             stack_file s' = stack s' /\
             (stack s' = stack s \/
              exists s1, push branch s = Ok tt s1 /\ stack s' = stack s1).
Proof.
  intros Hinv Hrc. destruct (current_returns s Hinv) as (expected & Hcur).
  rewrite (fix_ring_unfold git branch s _ Hcur), (filtered_when_git_works git s Hrc).
  destruct ((PyList.len (ring (stack s)) =? 0) || differs branch expected)
    eqn:Hcond; unfold bind.
  - destruct (push_lands branch s Hinv) as (s1 & Hpush & Hinv1 & Hcur1 & Hf1 & _).
    rewrite Hpush. unfold save. eexists. split; [reflexivity|].
    cbn [stack stack_file]. split; [exact Hinv1|].
    split; [eapply current_same_record; [|exact Hcur1]; reflexivity|].
    split; [reflexivity|]. right. exists s1. now split.
  - apply orb_false_iff in Hcond as [_ Hd]. apply differs_false in Hd. subst.
    unfold ret, save. eexists. split; [reflexivity|].
    cbn [stack stack_file]. split; [exact Hinv|].
    split; [eapply current_same_record; [|exact Hcur]; reflexivity|].
    split; [reflexivity | now left].
Qed.

Lemma push_keeps_entries (name x : string) (s s1 : Stack) :
  push name s = Ok tt s1 -> In x (ring (stack s)) -> In x (ring (stack s1)).
Proof.
  intros Hrun Hx.
  destruct (in_dec string_dec name (ring (stack s))) as [Hin|Hin].
  - destruct (push_present name s Hin) as (n & _ & Hrun').
    rewrite Hrun' in Hrun. injection Hrun as <-. exact Hx.
  - rewrite (push_absent name s Hin) in Hrun. injection Hrun as <-.
    unfold saved, PyList.insert. cbn [stack ring].
    rewrite <- (firstn_skipn
                  (Z.to_nat (Z.min (Z.max (PyList.norm (ring (stack s))
                                                      (push_target (stack s))) 0)
                                   (PyList.len (ring (stack s)))))
                  (ring (stack s))) in Hx.
    apply in_app_or in Hx. apply in_or_app.
    destruct Hx as [Hx|Hx]; [now left | right; now right].
Qed.

(** X7.  While [git branch] succeeds, [_fix_ring git branch] on a record
    that satisfies the invariants returns with the cursor on [branch]:
    [current()] is [branch], the invariants hold again, the file holds the
    record, and no entry of the ring was dropped. *)
Theorem fix_ring_heals (git : Git) (branch : string) (s : Stack) :
  inv (stack s) ->
  returncode (git ["git"; "branch"; "--no-color"]) = 0 ->
  exists s', _fix_ring git branch s = Ok tt s' /\
             inv (stack s') /\
             current s' = Ok (Some branch) s' /\
             stack_file s' = stack s' /\
             forall x, In x (ring (stack s)) -> In x (ring (stack s')).
Proof.
  intros Hinv Hrc.
  destruct (fix_ring_lands git branch s Hinv Hrc)
    as (s' & Hrun & Hinv' & Hcur & Hfile & Hhow).
  exists s'. repeat (split; [assumption|]).
  intros x Hx. destruct Hhow as [->|(s1 & Hpush & ->)]; [exact Hx|].
  eapply push_keeps_entries; eassumption.
Qed.

Lemma fix_ring_heals_witness :
  exists s', _fix_ring only_main "main" push_example = Ok tt s' /\
             current s' = Ok (Some "main") s'.
Proof.
  destruct (fix_ring_heals only_main "main" push_example)
    as (s' & Hrun & _ & Hcur & _).
  - apply invb_inv. reflexivity.
  - reflexivity.
  - exists s'. split; assumption.
Defined.

(** X8.  While [git branch] succeeds, running [_fix_ring] a second time with
    the same branch changes nothing: the state it left is a fixed point. *)
Theorem fix_ring_idempotent (git : Git) (branch : string) (s : Stack) :
  inv (stack s) ->
  returncode (git ["git"; "branch"; "--no-color"]) = 0 ->
  exists s', _fix_ring git branch s = Ok tt s' /\
             _fix_ring git branch s' = Ok tt s'.
Proof.
  intros Hinv Hrc.
  destruct (fix_ring_lands git branch s Hinv Hrc)
    as (s' & Hrun & _ & Hcur & Hfile & _).
  exists s'. split; [exact Hrun|]. now apply fix_ring_stable.
Qed.

Lemma fix_ring_idempotent_witness :
  exists s', _fix_ring only_main "main" push_example = Ok tt s' /\
             _fix_ring only_main "main" s' = Ok tt s'.
Proof.
  apply fix_ring_idempotent.
  - apply invb_inv. reflexivity.
  - reflexivity.
Defined.

(** X9.  When [git branch] fails, [_fix_ring] on a non-empty ring throws
    every entry away and pushes [branch] with the old [position] still in
    place: the ring becomes [[branch]] but [position] is the old one plus
    one, outside the ring, so [current()] returns [None] and the invariants
    no longer hold. *)
Theorem fix_ring_when_git_fails (git : Git) (branch : string) (s : Stack) :
  inv (stack s) ->
  ring (stack s) <> [] ->
  returncode (git ["git"; "branch"; "--no-color"]) <> 0 ->
  exists p s', position (stack s) = Some p /\
               _fix_ring git branch s = Ok tt s' /\
               stack s' = mkRing [branch] (Some (p + 1)) /\
               current s' = Ok None s' /\
               ~ inv (stack s').
Proof.
  intros Hinv Hne Hrc.
  destruct (inv_nonempty_position _ Hinv Hne) as (p & Hpos & Hp).
  destruct (current_returns s Hinv) as (expected & Hcur).
  exists p.
  assert (stack (filtered git s) = mkRing [] (Some p)) as Hf.
  { unfold filtered. cbn [stack].
    rewrite filter_ref_exists, (ref_exists_when_git_fails git "" Hrc).
    now rewrite Hpos. }
  assert (~ In branch (ring (stack (filtered git s)))) as Hnot
    by (rewrite Hf; intros []).
  rewrite (fix_ring_unfold git branch s _ Hcur).
  rewrite Hf. cbn [ring PyList.len List.length Z.of_nat Z.eqb orb].
  unfold bind. rewrite (push_absent _ _ Hnot). unfold save, saved, push_target.
  rewrite Hf. cbn [stack ring position]. rewrite insert_nil.
  eexists. split; [exact Hpos|]. split; [reflexivity|].
  cbn [stack]. split; [reflexivity|]. split.
  - apply current_beyond with (p := p + 1); [reflexivity|].
    cbn [stack ring PyList.len List.length Z.of_nat]. lia.
  - intros (_ & Hidx & _). specialize (Hidx (p + 1) eq_refl).
    cbn [ring PyList.len List.length Z.of_nat] in Hidx. lia.
Qed.

Lemma fix_ring_when_git_fails_witness :
  exists p s', position (stack push_example) = Some p /\
               _fix_ring no_repository "main" push_example = Ok tt s' /\
               stack s' = mkRing ["main"] (Some (p + 1)).
Proof.
  destruct (fix_ring_when_git_fails no_repository "main" push_example)
    as (p & s' & Hpos & Hrun & Hstack & _).
  - apply invb_inv. reflexivity.
  - discriminate.
  - discriminate.
  - exists p, s'. repeat split; assumption.
Defined.

(** ** Removing a name from the ring *)

Ltac run_steps :=
  cbv beta iota delta
    [bind print get_ring get_index set_ring set_index save or_raise ret raise];
  cbn [stack stack_file console ring position].

(** In a list without duplicates [remove] cuts the list at the place of the
    name. *)
Lemma remove_cut (l : list string) : forall (i : nat) (x : string),
  NoDup l -> nth_error l i = Some x ->
  PyList.remove String.eqb l x = Some (firstn i l ++ skipn (S i) l).
Proof.
  induction l as [|y t IH]; intros [|i] x Hnd Hx; try discriminate;
    cbn [PyList.remove nth_error] in *.
  - injection Hx as ->. now rewrite String.eqb_refl.
  - inversion Hnd as [|? ? Hy Hnd']; subst.
    destruct (String.eqb_spec x y) as [->|_].
    + exfalso. apply Hy. eapply nth_error_In. eassumption.
    + rewrite (IH i x Hnd' Hx). reflexivity.
Qed.

Lemma cut_members (l : list string) (i : nat) (x : string) :
  NoDup l -> nth_error l i = Some x ->
  NoDup (firstn i l ++ skipn (S i) l) /\
  forall y, In y (firstn i l ++ skipn (S i) l) <-> In y l /\ y <> x.
Proof.
  intros Hnd Hx. split; [now apply NoDup_cut|].
  pose proof (split_at_nth _ _ _ Hx) as Hsplit.
  set (a := firstn i l) in *. set (b := skipn (S i) l) in *.
  rewrite Hsplit in Hnd. pose proof (NoDup_remove_2 _ _ _ Hnd) as Hgone.
  intros y. rewrite Hsplit, !in_app_iff. cbn [In]. rewrite in_app_iff in Hgone.
  split.
  - intros H. split; [tauto|]. intros ->. tauto.
  - intros [[H|[H|H]] Hne]; [now left | congruence | now right].
Qed.

(** [current] returns whenever [position] is an integer that is not
    negative; what it returns is in the ring at [position]. *)
Lemma current_returns_nonneg (s : Stack) (p : Z) :
  position (stack s) = Some p -> 0 <= p ->
  exists v, current s = Ok v s /\
            forall x, v = Some x ->
                      p < PyList.len (ring (stack s)) /\
                      nth_error (ring (stack s)) (Z.to_nat p) = Some x.
Proof.
  intros Hpos Hp.
  destruct (Z.lt_ge_cases p (PyList.len (ring (stack s)))) as [Hlt|Hge].
  - destruct (current_in_range s p Hpos (conj Hp Hlt)) as (x & Hx & Hrun).
    exists (Some x). split; [exact Hrun|]. intros ? [= <-]. now split.
  - exists None. split; [now apply current_beyond with (p := p)|]. discriminate.
Qed.

(** Pushing a name the ring holds puts the cursor on it and repairs the
    invariants, whatever [position] was. *)
Lemma push_present_lands (name : string) (s : Stack) :
  NoDup (ring (stack s)) -> In name (ring (stack s)) ->
  exists s1, push name s = Ok tt s1 /\
             ring (stack s1) = ring (stack s) /\
             inv (stack s1) /\
             current s1 = Ok (Some name) s1 /\
             stack_file s1 = stack s1 /\
             console s1 = console s.
Proof.
  intros Hnd Hin. destruct (push_present name s Hin) as (n & Hn & Hrun).
  destruct (index_In name _ Hin) as (n' & Hn' & Hnth & _).
  assert (n' = n) as -> by congruence.
  assert (n < List.length (ring (stack s)))%nat
    by (apply nth_error_Some; congruence).
  eexists. split; [exact Hrun|]. unfold saved. cbn [stack ring stack_file console].
  split; [reflexivity|].
  split; [apply inv_cursor; [assumption | unfold PyList.len; lia]|].
  split; [|split; reflexivity].
  eapply current_at_cursor; [| |reflexivity]; [lia|]. now rewrite Nat2Z.id.
Qed.

(** [_fix_ring] repairs a stale cursor when the branch is in the ring. *)
Lemma fix_ring_lands_present (git : Git) (branch : string) (s : Stack) (p : Z) :
  returncode (git ["git"; "branch"; "--no-color"]) = 0 ->
  NoDup (ring (stack s)) ->
  position (stack s) = Some p -> 0 <= p ->
  In branch (ring (stack s)) ->
  exists s', _fix_ring git branch s = Ok tt s' /\
             ring (stack s') = ring (stack s) /\
             inv (stack s') /\
             current s' = Ok (Some branch) s' /\
             stack_file s' = stack s' /\
             console s' = console s.
Proof.
  intros Hrc Hnd Hpos Hp Hin.
  destruct (current_returns_nonneg s p Hpos Hp) as (expected & Hcur & Hexp).
  rewrite (fix_ring_unfold git branch s _ Hcur), (filtered_when_git_works git s Hrc).
  destruct ((PyList.len (ring (stack s)) =? 0) || differs branch expected)
    eqn:Hcond; unfold bind.
  - destruct (push_present_lands branch s Hnd Hin)
      as (s1 & -> & Hring & Hinv1 & Hcur1 & Hf1 & Hc1).
    unfold save. eexists. split; [reflexivity|]. cbn [stack stack_file console].
    split; [exact Hring|]. split; [exact Hinv1|].
    split; [eapply current_same_record; [|exact Hcur1]; reflexivity|].
    split; [reflexivity | exact Hc1].
  - apply orb_false_iff in Hcond as [_ Hd]. apply differs_false in Hd. subst.
    destruct (Hexp branch eq_refl) as (Hlt & _).
    unfold ret, save. eexists. split; [reflexivity|].
    cbn [stack stack_file console]. split; [reflexivity|].
    split.
    { destruct (stack s) as [r pos]. cbn [ring position] in *. subst pos.
      apply inv_cursor; [assumption | lia]. }
    split; [eapply current_same_record; [|exact Hcur]; reflexivity|].
    split; reflexivity.
Qed.

(** What [_cleanup] hands to [print_ring] after a failed checkout: the ring
    cut at the place of the branch that failed, the cursor on the branch one
    started from. *)
Lemma cleanup_lands
    (print_ring : bool -> method unit) (git : Git) (code : Z)
    (branch original : string) (print_only : bool) (s : Stack) (p : Z) (i : nat) :
  code <> 0 ->
  returncode (git ["git"; "branch"; "--no-color"]) = 0 ->
  NoDup (ring (stack s)) ->
  position (stack s) = Some p -> 0 <= p ->
  nth_error (ring (stack s)) i = Some branch ->
  In original (ring (stack s)) ->
  branch <> original ->
  exists s1,
    Cmd._cleanup print_ring git code branch original print_only s =
      print_ring print_only s1 /\
    ring (stack s1) =
      firstn i (ring (stack s)) ++ skipn (S i) (ring (stack s)) /\
    inv (stack s1) /\
    current s1 = Ok (Some original) s1 /\
    stack_file s1 = stack s1.
Proof.
  intros Hcode Hrc Hnd Hpos Hp Hi Ho Hne.
  destruct (cut_members _ _ _ Hnd Hi) as (Hnd' & Hmem).
  unfold Cmd._cleanup. apply Z.eqb_neq in Hcode. rewrite Hcode. cbn [negb].
  run_steps. rewrite (remove_cut _ _ _ Hnd Hi). run_steps.
  match goal with |- context [_fix_ring git original ?st] => set (s0 := st) end.
  destruct (fix_ring_lands_present git original s0 p Hrc Hnd' Hpos Hp)
    as (s' & Hrun & Hring & Hinv & Hcur & Hfile & _).
  { apply Hmem. split; [assumption | congruence]. }
  rewrite Hrun.
  eexists. split; [reflexivity|]. cbn [stack stack_file].
  split; [exact Hring|]. split; [exact Hinv|].
  split; [eapply current_same_record; [|exact Hcur]; reflexivity | exact Hfile].
Qed.

(** X10.  [_cleanup] after a failed checkout (a return code other than 0):
    if the ring has no duplicates and holds both the branch that failed and
    the branch one started from, and [position] is an integer that is not
    negative, then [print_ring] is called on a state where the failed branch
    is gone, every other entry is still there, the invariants hold, the file
    is up to date and [current()] is the branch one started from. *)
Theorem cleanup_recovers
    (print_ring : bool -> method unit) (git : Git) (code : Z)
    (branch original : string) (print_only : bool) (s : Stack) (p : Z) :
  code <> 0 ->
  returncode (git ["git"; "branch"; "--no-color"]) = 0 ->
  NoDup (ring (stack s)) ->
  position (stack s) = Some p -> 0 <= p ->
  In branch (ring (stack s)) ->
  In original (ring (stack s)) ->
  branch <> original ->
  exists s1,
    Cmd._cleanup print_ring git code branch original print_only s =
      print_ring print_only s1 /\
    ~ In branch (ring (stack s1)) /\
    (forall x, x <> branch -> In x (ring (stack s)) -> In x (ring (stack s1))) /\
    inv (stack s1) /\
    current s1 = Ok (Some original) s1 /\
    stack_file s1 = stack s1.
Proof.
  intros Hcode Hrc Hnd Hpos Hp Hb Ho Hne.
  destruct (In_nth_error _ _ Hb) as (i & Hi).
  destruct (cleanup_lands print_ring git code branch original print_only s p i
              Hcode Hrc Hnd Hpos Hp Hi Ho Hne)
    as (s1 & Hrun & Hring & Hinv & Hcur & Hfile).
  destruct (cut_members _ _ _ Hnd Hi) as (_ & Hmem).
  exists s1. split; [exact Hrun|]. rewrite Hring.
  split; [intros H; apply Hmem in H; tauto|].
  split; [intros x Hx Hin; apply Hmem; now split|].
  split; [exact Hinv|]. split; [exact Hcur | exact Hfile].
Qed.

Lemma cleanup_recovers_witness :
  exists s1,
    Cmd._cleanup (fun _ => ret tt) only_main 1 "bbb" "aaa" true
                 (loaded (mkRing ["aaa"; "bbb"] (Some 1))) = Ok tt s1 /\
    current s1 = Ok (Some "aaa") s1.
Proof.
  destruct (cleanup_recovers (fun _ => ret tt) only_main 1 "bbb" "aaa" true
              (loaded (mkRing ["aaa"; "bbb"] (Some 1))) 1)
    as (s1 & Hrun & _ & _ & _ & Hcur & _).
  - discriminate.
  - reflexivity.
  - apply nodupb_NoDup. reflexivity.
  - reflexivity.
  - lia.
  - right. left. reflexivity.
  - left. reflexivity.
  - discriminate.
  - exists s1. split; [exact Hrun | exact Hcur].
Defined.

(** * The commands *)

Lemma insert_members (l : list string) (i : Z) (name x : string) :
  In x (PyList.insert l i name) <-> In x l \/ x = name.
Proof.
  unfold PyList.insert.
  set (j := Z.to_nat (Z.min (Z.max (PyList.norm l i) 0) (PyList.len l))).
  rewrite <- (firstn_skipn j l) at 3. rewrite !in_app_iff. cbn [In].
  split; intros H; intuition congruence.
Qed.

Lemma push_members (name x : string) (s s1 : Stack) :
  push name s = Ok tt s1 ->
  (In x (ring (stack s1)) <-> In x (ring (stack s)) \/ x = name).
Proof.
  intros Hrun.
  destruct (in_dec string_dec name (ring (stack s))) as [Hin|Hin].
  - destruct (push_present name s Hin) as (n & _ & Hrun').
    rewrite Hrun' in Hrun. injection Hrun as <-. cbn [saved stack ring].
    split; [now left | intros [H| ->]; assumption].
  - rewrite (push_absent name s Hin) in Hrun. injection Hrun as <-.
    unfold saved. cbn [stack ring]. apply insert_members.
Qed.

Lemma getitem_In (l : list string) (i : Z) (x : string) :
  PyList.getitem l i = Some x -> In x l.
Proof.
  unfold PyList.getitem. destruct (_ <? 0); [discriminate|].
  apply nth_error_In.
Qed.

(** What [current] returns is in the ring. *)
Lemma current_member (s : Stack) (x : string) :
  current s = Ok (Some x) s -> In x (ring (stack s)).
Proof.
  run_method. destruct (truthy _); [|discriminate].
  run_method. destruct (position (stack s)) as [p|]; [|discriminate].
  destruct (_ >? _); [|discriminate].
  run_method. destruct (PyList.getitem _ _) as [y|] eqn:Hy; [|discriminate].
  intros [= <-]. eapply getitem_In. eassumption.
Qed.

(** ** Entries whose reference is gone *)

(** C3, as the code has it.  While [git branch --no-color] succeeds,
    [_fix_ring] on a record that satisfies the invariants removes nothing:
    the ring it leaves is the ring it found, with [branch] inserted after
    the cursor when the ring did not hold it.  Every entry stays, whatever
    git would say about the reference it names; the only entries
    [_fix_ring] ever drops are all of them at once, when that one command
    fails. *)
Theorem fix_ring_keeps_every_entry (git : Git) (branch : string) (s : Stack) :
  inv (stack s) ->
  returncode (git ["git"; "branch"; "--no-color"]) = 0 ->
  exists s', _fix_ring git branch s = Ok tt s' /\
             ring (stack s') =
               (if PyList.contains String.eqb branch (ring (stack s))
                then ring (stack s)
                else PyList.insert (ring (stack s)) (push_target (stack s))
                                   branch) /\
             forall x, In x (ring (stack s)) -> In x (ring (stack s')).
Proof.
  intros Hinv Hrc.
  destruct (fix_ring_lands git branch s Hinv Hrc)
    as (s' & Hrun & _ & Hcur & _ & Hhow).
  exists s'. split; [exact Hrun|].
  assert (ring (stack s') =
            (if PyList.contains String.eqb branch (ring (stack s))
             then ring (stack s)
             else PyList.insert (ring (stack s)) (push_target (stack s))
                                branch)) as Hring.
  { destruct Hhow as [Hsame|(s1 & Hpush & Hsame)]; rewrite Hsame.
    - apply current_member in Hcur. rewrite Hsame in Hcur.
      apply contains_In in Hcur. now rewrite Hcur.
    - destruct (in_dec string_dec branch (ring (stack s))) as [Hin|Hin].
      + destruct (push_present branch s Hin) as (n & _ & Hrun').
        rewrite Hrun' in Hpush. injection Hpush as <-.
        apply contains_In in Hin. now rewrite Hin.
      + rewrite (push_absent branch s Hin) in Hpush. injection Hpush as <-.
        apply contains_not_In in Hin. now rewrite Hin. }
  split; [exact Hring|]. intros x Hx. rewrite Hring.
  destruct (PyList.contains String.eqb branch (ring (stack s)));
    [exact Hx | apply insert_members; now left].
Qed.

Lemma fix_ring_keeps_every_entry_witness :
  exists s', _fix_ring without_gone "main" stale_entry = Ok tt s' /\
             In "gone" (ring (stack s')).
Proof.
  destruct (fix_ring_keeps_every_entry without_gone "main" stale_entry)
    as (s' & Hrun & _ & Hkept).
  - apply invb_inv. reflexivity.
  - reflexivity.
  - exists s'. split; [exact Hrun|]. apply Hkept. left. reflexivity.
Defined.

(** The ring holds [gone], a branch the repository does not have (git does
    not list it and cannot check it out), and [main], which is checked out.
    Reconciliation changes nothing: [gone] stays in the ring and in the
    file. *)
Example fix_ring_missing_reference_stays :
  PyList.contains String.eqb "gone" (GitQ.branches without_gone) = false /\
  returncode (GitQ.checkout without_gone [] (Some "gone")) = 1 /\
  _fix_ring without_gone "main" stale_entry = Ok tt stale_entry.
Proof. repeat split. Qed.

(** What [_prepare] leaves when the file holds a record that satisfies the
    invariants and git works. *)
Lemma prepare_lands (git : Git) (branch : string) (s : Stack) :
  inv (stack_file s) ->
  returncode (git ["git"; "branch"; "--no-color"]) = 0 ->
  GitQ.current_branch git = Some branch ->
  exists s', Cmd._prepare git s = Ok branch s' /\
             inv (stack s') /\
             current s' = Ok (Some branch) s' /\
             stack_file s' = stack s' /\
             (forall x, In x (ring (stack s')) <->
                        In x (ring (stack_file s)) \/ x = branch).
Proof.
  intros Hinv Hrc Hbr. unfold Cmd._prepare, bind at 1, StackP.init.
  unfold bind at 1. rewrite Hbr. cbn [or_raise ret].
  set (s0 := mkStack (stack_file s) (stack_file s) (console s)).
  destruct (fix_ring_lands git branch s0 Hinv Hrc)
    as (s' & Hrun & Hinv' & Hcur & Hfile & Hhow).
  unfold bind. rewrite Hrun. exists s'.
  split; [reflexivity|]. split; [exact Hinv'|]. split; [exact Hcur|].
  split; [exact Hfile|]. intros x.
  destruct Hhow as [Hhow|(s1 & Hpush & Hhow)].
  - apply current_member in Hcur. rewrite Hhow in *. cbn [s0 stack] in *.
    split; [now left | intros [H| ->]; assumption].
  - rewrite Hhow. apply (push_members branch x s0 s1 Hpush).
Qed.

(** Where the cursor of a record that satisfies the invariants stands. *)
Lemma cursor_of_current (s : Stack) (x : string) :
  inv (stack s) -> current s = Ok (Some x) s ->
  exists p, position (stack s) = Some p /\
            0 <= p < PyList.len (ring (stack s)) /\
            nth_error (ring (stack s)) (Z.to_nat p) = Some x.
Proof.
  intros Hinv Hcur.
  assert (ring (stack s) <> []) as Hne.
  { intros Hr. rewrite (current_empty s Hr) in Hcur. discriminate. }
  destruct (inv_nonempty_position _ Hinv Hne) as (p & Hpos & Hp).
  destruct (current_in_range s p Hpos Hp) as (y & Hy & Hrun).
  exists p. split; [exact Hpos|]. split; [exact Hp|]. congruence.
Qed.

(** X11.  The [pop] command never meets an empty ring while git works:
    [_prepare] has put the checked-out branch under the cursor, so the
    command returns, having taken exactly that branch out of the ring; every
    other entry of the file's ring is kept, the invariants hold and the file
    is up to date. *)
Theorem pop_command_pops_current (git : Git) (branch : string) (s : Stack) :
  inv (stack_file s) ->
  returncode (git ["git"; "branch"; "--no-color"]) = 0 ->
  GitQ.current_branch git = Some branch ->
  exists s', Cmd.pop git s = Ok tt s' /\
             ~ In branch (ring (stack s')) /\
             (forall x, x <> branch -> In x (ring (stack_file s)) ->
                        In x (ring (stack s'))) /\
             inv (stack s') /\
             stack_file s' = stack s'.
Proof.
  intros Hinv Hrc Hbr.
  destruct (prepare_lands git branch s Hinv Hrc Hbr)
    as (s1 & Hprep & Hinv1 & Hcur1 & _ & Hmem1).
  destruct (cursor_of_current s1 branch Hinv1 Hcur1) as (p & Hpos & Hp & Hnth).
  destruct (pop_in_range s1 p Hpos Hp) as (out & Hout & Hpop).
  pose proof Hinv1 as (_ & _ & Hnd).
  destruct (cut_members _ _ _ Hnd Hnth) as (_ & Hmem).
  assert (inv (popped (ring (stack s1)) p)) as Hinv2 by now apply inv_popped.
  set (s2 := saved (popped (ring (stack s1)) p) s1) in *.
  destruct (current_returns s2 Hinv2) as (v & Hcur2).
  exists s2. split.
  - unfold Cmd.pop, bind. rewrite Hprep, Hpop, Hcur2. reflexivity.
  - cbn [s2 saved stack stack_file popped ring].
    split; [intros H; apply Hmem in H; tauto|].
    split; [|split; [exact Hinv2 | reflexivity]].
    intros x Hx Hin. apply Hmem. split; [|exact Hx].
    apply Hmem1. now left.
Qed.

Lemma pop_command_pops_current_witness :
  exists s', Cmd.pop main_and_dev (loaded (mkRing ["dev"; "main"] (Some 0)))
               = Ok tt s' /\
             ~ In "main" (ring (stack s')).
Proof.
  destruct (pop_command_pops_current main_and_dev "main"
              (loaded (mkRing ["dev"; "main"] (Some 0))))
    as (s' & Hrun & Hgone & _).
  - apply invb_inv. reflexivity.
  - reflexivity.
  - reflexivity.
  - exists s'. split; assumption.
Defined.

(** X12.  The [push] command, when the checkout lands on a reference other
    than the one it started from: it returns with [current()] on the new
    reference and the invariants in place, and a reference the ring did not
    hold is inserted right after the one it was checked out from. *)
Theorem push_command_inserts_after
    (git git' : Git) (branch new_branch : string) (s : Stack) :
  inv (stack_file s) ->
  returncode (git ["git"; "branch"; "--no-color"]) = 0 ->
  GitQ.current_branch git = Some branch ->
  GitQ.current_branch git' = Some new_branch ->
  new_branch <> branch ->
  exists s', Cmd.push git git' s = Ok tt s' /\
             inv (stack s') /\
             current s' = Ok (Some new_branch) s' /\
             stack_file s' = stack s' /\
             (~ In new_branch (ring (stack_file s)) ->
              exists i, nth_error (ring (stack s')) i = Some branch /\
                        nth_error (ring (stack s')) (S i) = Some new_branch).
Proof.
  intros Hinv Hrc Hbr Hbr' Hne.
  destruct (prepare_lands git branch s Hinv Hrc Hbr)
    as (s1 & Hprep & Hinv1 & Hcur1 & _ & Hmem1).
  destruct (push_lands new_branch s1 Hinv1) as (s2 & Hpush & Hinv2 & Hcur2 & Hf2 & _).
  exists s2. split.
  - unfold Cmd.push, bind. rewrite Hprep, Hbr'. cbn [or_raise ret].
    apply String.eqb_neq in Hne. rewrite Hne. cbn [negb]. exact Hpush.
  - split; [exact Hinv2|]. split; [exact Hcur2|]. split; [exact Hf2|].
    intros Hnew.
    assert (~ In new_branch (ring (stack s1))) as Hnot.
    { intros H. apply Hmem1 in H. destruct H; [tauto | congruence]. }
    destruct (cursor_of_current s1 branch Hinv1 Hcur1) as (p & Hpos & Hp & Hnth).
    rewrite (push_absent _ _ Hnot) in Hpush. injection Hpush as <-.
    unfold saved, push_target. cbn [stack ring]. rewrite Hpos.
    rewrite insert_in_range by lia.
    exists (Z.to_nat p). split.
    + rewrite nth_error_app1 by (rewrite length_firstn; unfold PyList.len in Hp; lia).
      rewrite nth_error_firstn.
      destruct (Nat.ltb_spec (Z.to_nat p) (Z.to_nat (p + 1))); [exact Hnth | lia].
    + replace (S (Z.to_nat p)) with (Z.to_nat (p + 1)) by lia.
      apply nth_error_splice. unfold PyList.len in Hp. lia.
Qed.

Lemma push_command_inserts_after_witness :
  exists s', Cmd.push main_and_dev detached_head
                      (loaded (mkRing ["main"; "dev"] (Some 0))) = Ok tt s' /\
             ring (stack s') = ["main"; "1a2b3c4"; "dev"].
Proof.
  destruct (push_command_inserts_after main_and_dev detached_head "main" "1a2b3c4"
              (loaded (mkRing ["main"; "dev"] (Some 0))))
    as (s' & Hrun & _).
  - apply invb_inv. reflexivity.
  - reflexivity.
  - reflexivity.
  - reflexivity.
  - discriminate.
  - exists s'. split; [exact Hrun|].
    assert (Cmd.push main_and_dev detached_head
              (loaded (mkRing ["main"; "dev"] (Some 0))) =
            Ok tt (loaded (mkRing ["main"; "1a2b3c4"; "dev"] (Some 1))))
      as Heval by reflexivity.
    rewrite Heval in Hrun. injection Hrun as <-. reflexivity.
Defined.

(** Where a name stands in a ring without duplicates. *)
Lemma place_unique (l : list string) (i j : nat) (x : string) :
  NoDup l -> nth_error l i = Some x -> nth_error l j = Some x -> i = j.
Proof.
  intros Hnd Hi Hj.
  apply (proj1 (NoDup_nth_error l) Hnd);
    [apply nth_error_Some; congruence | congruence].
Qed.

(** A move of the cursor followed by a checkout that fails, as [next_branch]
    and [prev_branch] run them: [branch], the checked-out one, stands at
    place [i] of the file's ring, [next] is its neighbour in the direction
    of the move, and only the checkout of [next] is assumed to fail. *)
Lemma navigate_drops_stale
    (print_ring : bool -> method unit) (step : Z) (git : Git)
    (branch next : string) (s : Stack) (i : nat) :
  inv (stack_file s) ->
  returncode (git ["git"; "branch"; "--no-color"]) = 0 ->
  GitQ.current_branch git = Some branch ->
  nth_error (ring (stack_file s)) i = Some branch ->
  nth_error (ring (stack_file s))
            (Z.to_nat ((Z.of_nat i + step)
                       mod PyList.len (ring (stack_file s)))) = Some next ->
  next <> branch ->
  next <> EmptyString ->
  returncode (GitQ.checkout git [] (Some next)) <> 0 ->
  exists s1,
    Cmd.navigate print_ring (move step) git s = print_ring true s1 /\
    (forall x, In x (ring (stack s1)) <->
               In x (ring (stack_file s)) /\ x <> next) /\
    inv (stack s1) /\
    current s1 = Ok (Some branch) s1 /\
    stack_file s1 = stack s1.
Proof.
  intros Hinv Hrc Hbr Hi Hnext Hnb Hname Hco.
  pose proof Hinv as (_ & _ & Hnd).
  assert (ring (stack_file s) <> []) as Hne
    by (intros E; rewrite E in Hi; destruct i; discriminate).
  destruct (inv_nonempty_position _ Hinv Hne) as (p0 & Hpos0 & Hp0).
  set (s0 := mkStack (stack_file s) (stack_file s) (console s)).
  destruct (fix_ring_lands_present git branch s0 p0 Hrc Hnd Hpos0)
    as (s1 & Hfix & Hring1 & Hinv1 & Hcur1 & _ & _);
    [lia | eapply nth_error_In; exact Hi |].
  change (ring (stack s0)) with (ring (stack_file s)) in Hring1.
  destruct (cursor_of_current s1 branch Hinv1 Hcur1) as (p & Hpos & Hp & Hnth).
  rewrite Hring1 in Hp, Hnth.
  assert (Z.to_nat p = i) as Hpi by (eapply place_unique; eassumption).
  assert (p = Z.of_nat i) as -> by lia.
  assert (ring (stack s1) <> []) as Hne1 by now rewrite Hring1.
  destruct (move_nonempty step s1 (Z.of_nat i) Hne1 Hpos) as (y & Hy & Hmove).
  rewrite Hring1 in Hy, Hmove. rewrite Hnext in Hy. injection Hy as <-.
  set (q := (Z.of_nat i + step) mod PyList.len (ring (stack_file s))) in *.
  assert (0 <= q < PyList.len (ring (stack_file s))) as Hq
    by (apply Z.mod_pos_bound; lia).
  set (s2 := saved (mkRing (ring (stack_file s)) (Some q)) s1) in *.
  destruct (cleanup_lands print_ring git
              (returncode (GitQ.checkout git [] (Some next)))
              next branch true s2 q (Z.to_nat q))
    as (s3 & Hclean & Hring3 & Hinv3 & Hcur3 & Hfile3);
    [exact Hco | exact Hrc | exact Hnd | reflexivity | lia | exact Hnext
    | eapply nth_error_In; exact Hi | exact Hnb |].
  exists s3. split.
  - unfold Cmd.navigate, bind at 1, Cmd._prepare, bind at 1, StackP.init.
    unfold bind at 1. rewrite Hbr. cbn [or_raise ret]. fold s0.
    unfold bind at 1. rewrite Hfix. cbn [ret]. unfold bind at 1.
    rewrite Hmove.
    assert (PyStr.truthy next = true) as ->
      by (destruct next; [congruence | reflexivity]).
    cbn [negb]. exact Hclean.
  - split; [|split; [exact Hinv3 | split; [exact Hcur3 | exact Hfile3]]].
    intros x. rewrite Hring3. cbn [s2 saved stack ring].
    apply (cut_members _ _ _ Hnd Hnext).
Qed.

(** X13.  [next_branch] and [prev_branch] when the checkout of the entry
    the cursor moves to fails.  The file holds a record that satisfies the
    invariants and in which the checked-out branch stands at place [i];
    the entry after it (for [next_branch]) or before it (for
    [prev_branch]), going round the ring, is another, non-empty name whose
    checkout git refuses; nothing is assumed of any other checkout.  Then
    that entry, and only that entry, is taken out of the ring and
    [print_ring] is called with the cursor back on the checked-out branch,
    the invariants in place and the file up to date. *)
Theorem stale_branch_dropped
    (print_ring : bool -> method unit) (git : Git) (branch : string)
    (s : Stack) (i : nat) :
  inv (stack_file s) ->
  returncode (git ["git"; "branch"; "--no-color"]) = 0 ->
  GitQ.current_branch git = Some branch ->
  nth_error (ring (stack_file s)) i = Some branch ->
  (forall next,
     nth_error (ring (stack_file s))
               (Z.to_nat ((Z.of_nat i + 1)
                          mod PyList.len (ring (stack_file s)))) = Some next ->
     next <> branch -> next <> EmptyString ->
     returncode (GitQ.checkout git [] (Some next)) <> 0 ->
     exists s1,
       Cmd.next_branch print_ring git s = print_ring true s1 /\
       ~ In next (ring (stack s1)) /\
       (forall x, x <> next -> In x (ring (stack_file s)) ->
                  In x (ring (stack s1))) /\
       inv (stack s1) /\ current s1 = Ok (Some branch) s1 /\
       stack_file s1 = stack s1) /\
  (forall prev,
     nth_error (ring (stack_file s))
               (Z.to_nat ((Z.of_nat i - 1)
                          mod PyList.len (ring (stack_file s)))) = Some prev ->
     prev <> branch -> prev <> EmptyString ->
     returncode (GitQ.checkout git [] (Some prev)) <> 0 ->
     exists s1,
       Cmd.prev_branch print_ring git s = print_ring true s1 /\
       ~ In prev (ring (stack s1)) /\
       (forall x, x <> prev -> In x (ring (stack_file s)) ->
                  In x (ring (stack s1))) /\
       inv (stack s1) /\ current s1 = Ok (Some branch) s1 /\
       stack_file s1 = stack s1).
Proof.
  intros Hinv Hrc Hbr Hi. split.
  - intros next Hnext Hnb Hname Hco.
    destruct (navigate_drops_stale print_ring 1 git branch next s i
                Hinv Hrc Hbr Hi Hnext Hnb Hname Hco)
      as (s1 & Hrun & Hmem & Hrest).
    exists s1. split; [exact Hrun|].
    split; [intros H; apply Hmem in H; tauto|].
    split; [intros x Hx Hin; apply Hmem; now split | exact Hrest].
  - intros prev Hprev Hnb Hname Hco.
    destruct (navigate_drops_stale print_ring (-1) git branch prev s i
                Hinv Hrc Hbr Hi Hprev Hnb Hname Hco)
      as (s1 & Hrun & Hmem & Hrest).
    exists s1. split; [exact Hrun|].
    split; [intros H; apply Hmem in H; tauto|].
    split; [intros x Hx Hin; apply Hmem; now split | exact Hrest].
Qed.

Lemma stale_branch_dropped_witness :
  returncode (GitQ.checkout stale_dev [] (Some "main")) = 0 /\
  returncode (GitQ.checkout stale_dev [] None) = 0 /\
  exists s1,
    Cmd.next_branch (fun _ => ret tt) stale_dev
                    (loaded (mkRing ["main"; "dev"; "topic"] (Some 0)))
      = Ok tt s1 /\
    ~ In "dev" (ring (stack s1)) /\
    In "topic" (ring (stack s1)).
Proof.
  split; [reflexivity|]. split; [reflexivity|].
  destruct (stale_branch_dropped (fun _ => ret tt) stale_dev "main"
              (loaded (mkRing ["main"; "dev"; "topic"] (Some 0))) 0)
    as (Hforward & _).
  - apply invb_inv. reflexivity.
  - reflexivity.
  - reflexivity.
  - reflexivity.
  - destruct (Hforward "dev") as (s1 & Hrun & Hgone & Hkept & _).
    + reflexivity.
    + discriminate.
    + discriminate.
    + discriminate.
    + exists s1. split; [exact Hrun|]. split; [exact Hgone|].
      apply Hkept; [discriminate | right; right; left; reflexivity].
Defined.

(** In that repository [next] from [main] drops [dev] alone and stays on
    [main]; [prev] from [main] reaches [topic], whose checkout succeeds, and
    drops nothing. *)
Example only_the_stale_entry_goes :
  Cmd.next_branch (fun _ => ret tt) stale_dev
                  (loaded (mkRing ["main"; "dev"; "topic"] (Some 0))) =
    Ok tt (mkStack (mkRing ["main"; "topic"] (Some 0))
                   (mkRing ["main"; "topic"] (Some 0))
                   [_col 33 "Looks like dev no longer exists. Cleaned up - please re-select."; ""]) /\
  Cmd.prev_branch (fun _ => ret tt) stale_dev
                  (loaded (mkRing ["main"; "dev"; "topic"] (Some 0))) =
    Ok tt (loaded (mkRing ["main"; "dev"; "topic"] (Some 2))).
Proof. split; reflexivity. Qed.

(** X14.  The [clean] command, when the checked-out branch is among the
    branches git lists: [print_ring] is called on a ring that holds exactly
    the entries of the file's ring (and the checked-out branch) that git
    lists, with [current()] on the checked-out branch, the invariants in
    place and the file up to date. *)
Theorem clean_keeps_listed_branches
    (print_ring : bool -> method unit) (git : Git) (branch : string)
    (s : Stack) :
  inv (stack_file s) ->
  returncode (git ["git"; "branch"; "--no-color"]) = 0 ->
  GitQ.current_branch git = Some branch ->
  In branch (GitQ.branches git) ->
  exists s1,
    Cmd.remove_missing_branches print_ring git s = print_ring true s1 /\
    (forall x, In x (ring (stack s1)) <->
               (In x (ring (stack_file s)) \/ x = branch) /\
               In x (GitQ.branches git)) /\
    inv (stack s1) /\
    current s1 = Ok (Some branch) s1 /\
    stack_file s1 = stack s1.
Proof.
  intros Hinv Hrc Hbr Hlisted.
  destruct (prepare_lands git branch s Hinv Hrc Hbr)
    as (s1 & Hprep & Hinv1 & Hcur1 & _ & Hmem1).
  destruct (cursor_of_current s1 branch Hinv1 Hcur1) as (p & Hpos & Hp & _).
  pose proof (current_member _ _ Hcur1) as Hb1.
  pose proof Hinv1 as (_ & _ & Hnd).
  set (valid := filter (fun br => PyList.contains String.eqb br (GitQ.branches git))
                       (ring (stack s1))).
  set (pruned := filter (fun br => PyList.contains String.eqb br valid)
                        (ring (stack s1))).
  assert (forall x, In x pruned <->
                    In x (ring (stack s1)) /\ In x (GitQ.branches git)) as Hpr.
  { intros x. unfold pruned, valid.
    rewrite filter_In, contains_In, filter_In, contains_In. tauto. }
  set (s2 := mkStack (mkRing pruned (position (stack s1)))
                     (stack_file s1) (console s1)).
  destruct (fix_ring_lands_present git branch s2 p Hrc)
    as (s3 & Hrun & Hring3 & Hinv3 & Hcur3 & Hfile3 & _);
    [apply NoDup_filter; exact Hnd | exact Hpos | lia
    | apply Hpr; split; assumption |].
  exists s3. split.
  - unfold Cmd.remove_missing_branches, bind. rewrite Hprep.
    unfold get_ring, set_ring. fold valid pruned s2. rewrite Hrun. reflexivity.
  - split; [|split; [exact Hinv3 | split; [exact Hcur3 | exact Hfile3]]].
    intros x. rewrite Hring3. cbn [s2 stack ring]. rewrite Hpr, Hmem1. tauto.
Qed.

Lemma clean_keeps_listed_branches_witness :
  exists s1,
    Cmd.remove_missing_branches (fun _ => ret tt) main_and_dev
      (loaded (mkRing ["gone"; "main"; "dev"] (Some 1))) = Ok tt s1 /\
    stack s1 = mkRing ["main"; "dev"] (Some 0).
Proof.
  destruct (clean_keeps_listed_branches (fun _ => ret tt) main_and_dev "main"
              (loaded (mkRing ["gone"; "main"; "dev"] (Some 1))))
    as (s1 & Hrun & _).
  - apply invb_inv. reflexivity.
  - reflexivity.
  - reflexivity.
  - apply contains_In. reflexivity.
  - exists s1. split; [exact Hrun|].
    assert (Cmd.remove_missing_branches (fun _ => ret tt) main_and_dev
              (loaded (mkRing ["gone"; "main"; "dev"] (Some 1))) =
            Ok tt (loaded (mkRing ["main"; "dev"] (Some 0))))
      as Heval by reflexivity.
    rewrite Heval in Hrun. injection Hrun as <-. reflexivity.
Defined.

(** * Reading git's answers *)

Lemma filter_none {A} (f : A -> bool) (l : list A) :
  (forall x, In x l -> f x = false) -> filter f l = [].
Proof.
  induction l as [|y t IH]; intros H; cbn [filter]; [reflexivity|].
  rewrite (H y (or_introl eq_refl)). apply IH. intros x Hx. apply H. now right.
Qed.

Lemma filter_first {A} (f : A -> bool) (pre post : list A) (x : A) :
  (forall y, In y pre -> f y = false) -> f x = true ->
  filter f (pre ++ x :: post) = x :: filter f post.
Proof.
  intros Hpre Hx. rewrite filter_app, (filter_none f pre Hpre).
  cbn [app filter]. now rewrite Hx.
Qed.

Lemma rstrip_keeps (a : string) (c : ascii) :
  PyStr.is_space c = false ->
  PyStr.rstrip (a ++ String c EmptyString) = (a ++ String c EmptyString)%string.
Proof.
  intros Hc. induction a as [|x a IH]; cbn [String.append PyStr.rstrip].
  - now rewrite Hc.
  - rewrite IH. destruct a; reflexivity.
Qed.

Lemma prefix_append (a b : string) : String.prefix a (a ++ b) = true.
Proof.
  induction a as [|x a IH]; cbn [String.append]; [apply prefix_empty|].
  now apply prefix_same_head.
Qed.

Lemma drop_append (a b : string) :
  GitQ.drop (String.length a) (a ++ b) = b.
Proof.
  induction a as [|x a IH]; cbn [String.length String.append GitQ.drop];
    [destruct b; reflexivity | exact IH].
Qed.

(** The last closing bracket of a text that ends with one. *)
Lemma rsplit_last (x : string) :
  GitQ.rsplit ")" (x ++ ")") = Some (x, EmptyString).
Proof.
  induction x as [|c x IH]; cbn [String.append GitQ.rsplit].
  - reflexivity.
  - now rewrite IH.
Qed.

Lemma unwrap_detached_head (x : string) :
  GitQ.unwrap_detached (GitQ.detached ++ x ++ ")") = x.
Proof.
  pose proof (prefix_append GitQ.detached (x ++ ")")) as Hpre.
  pose proof (drop_append GitQ.detached (x ++ ")")) as Hdrop.
  remember (GitQ.detached ++ x ++ ")")%string as s eqn:Hs.
  destruct s as [|c t]; [discriminate Hs|].
  cbn [GitQ.unwrap_detached]. rewrite Hpre, Hdrop, rsplit_last.
  apply append_empty_r.
Qed.


(** X15.  When no line of [git branch]'s output starts with a star, as when
    git fails outside a repository, [current_branch] raises [IndexError], and
    so do [_prepare] and with it the [pop] command, before anything is
    reconciled or written. *)
Theorem prepare_needs_starred_line (git : Git) (s : Stack) :
  (forall l, In l (PyStr.split "010"%char
                     (GitM._run git ["git"; "branch"; "--no-color"])) ->
             PyStr.startswith "*" l = false) ->
  GitQ.current_branch git = None /\
  Cmd._prepare git s =
    Raise IndexError (mkStack (stack_file s) (stack_file s) (console s)) /\
  Cmd.pop git s =
    Raise IndexError (mkStack (stack_file s) (stack_file s) (console s)).
Proof.
  intros Hlines.
  assert (GitQ.current_branch git = None) as Hnone.
  { unfold GitQ.current_branch. now rewrite (filter_none _ _ Hlines). }
  assert (Cmd._prepare git s =
          Raise IndexError (mkStack (stack_file s) (stack_file s) (console s)))
    as Hprep.
  { unfold Cmd._prepare, bind, StackP.init. now rewrite Hnone. }
  split; [exact Hnone|]. split; [exact Hprep|].
  unfold Cmd.pop, bind. now rewrite Hprep.
Qed.

Lemma prepare_needs_starred_line_witness :
  Cmd._prepare no_repository push_example = Raise IndexError push_example.
Proof.
  destruct (prepare_needs_starred_line no_repository push_example)
    as (_ & Hprep & _).
  - intros l [<-|[]]. reflexivity.
  - exact Hprep.
Defined.

Lemma strip_blank_first (s : string) :
  PyStr.strip (String " " s) = PyStr.strip s.
Proof. reflexivity. Qed.

Lemma strip_keeps (h c : ascii) (a : string) :
  PyStr.is_space h = false -> PyStr.is_space c = false ->
  PyStr.strip (String h a ++ String c EmptyString) =
    (String h a ++ String c EmptyString)%string.
Proof.
  intros Hh Hc. unfold PyStr.strip. cbn [String.append PyStr.lstrip].
  rewrite Hh. change (String h (a ++ String c EmptyString))%string
    with (String h a ++ String c EmptyString)%string.
  now apply rstrip_keeps.
Qed.

Lemma strip_detached_line (x : string) :
  PyStr.strip (String " " (GitQ.detached ++ x ++ ")")) =
    (GitQ.detached ++ x ++ ")")%string.
Proof.
  rewrite strip_blank_first, <- append_assoc.
  change (GitQ.detached ++ x)%string
    with (String "(" ("HEAD detached at " ++ x))%string.
  apply strip_keeps; reflexivity.
Qed.

(** X16.  When the first starred line of [git branch]'s output is a detached
    HEAD, [current_branch] returns the description inside the brackets,
    whatever it is. *)
Theorem current_branch_detached (git : Git) (pre post : list string) (x : string) :
  PyStr.split "010"%char (GitM._run git ["git"; "branch"; "--no-color"]) =
    pre ++ ("* (HEAD detached at " ++ x ++ ")")%string :: post ->
  (forall l, In l pre -> PyStr.startswith "*" l = false) ->
  GitQ.current_branch git = Some x.
Proof.
  intros Hlines Hpre. unfold GitQ.current_branch. rewrite Hlines.
  rewrite (filter_first _ _ _ _ Hpre) by reflexivity.
  cbn [map]. f_equal.
  change (GitQ.tail ("* (HEAD detached at " ++ x ++ ")"))
    with (String " " (GitQ.detached ++ x ++ ")")).
  rewrite strip_detached_line. apply unwrap_detached_head.
Qed.

Lemma current_branch_detached_witness :
  GitQ.current_branch detached_head = Some "1a2b3c4".
Proof.
  apply (current_branch_detached detached_head [] [] "1a2b3c4").
  - reflexivity.
  - intros l [].
Defined.



(** * Showing the ring *)

Lemma split_no_separator (sep : ascii) (l : string) :
  (forall c, In c (list_ascii_of_string l) -> c <> sep) ->
  PyStr.split sep l = [l].
Proof.
  induction l as [|c t IH]; intros Hl; cbn [PyStr.split]; [reflexivity|].
  destruct (Ascii.eqb_spec c sep) as [->|_].
  - exfalso. apply (Hl sep); [now left | reflexivity].
  - rewrite IH; [reflexivity|]. intros d Hd. apply Hl. now right.
Qed.

Lemma pairs_dict_short (results : list (list string)) (r : list string) :
  In r results -> nth_error r 1 = None ->
  forall d, GitQ.pairs_dict d results = None.
Proof.
  intros Hin Hr. induction results as [|r0 rest IH]; [contradiction|].
  intros d. cbn [GitQ.pairs_dict]. destruct Hin as [->|Hin].
  - rewrite Hr. destruct (nth_error r 0); reflexivity.
  - destruct (nth_error r0 0), (nth_error r0 1); try reflexivity.
    now apply IH.
Qed.

(** X18.  When a line of [git for-each-ref]'s output has no [&], and so when
    the output is empty because the repository has no local branch,
    [statuses] raises [IndexError] and [Stack.print_ring] ends with it before
    it prints a line. *)
Theorem print_ring_needs_separator (git : Git) (s : Stack) (line : string) :
  In line (PyStr.split "010"%char
             (GitM._run git ["git"; "for-each-ref";
                             "--format=%(refname:short)&%(upstream:short)";
                             "refs/heads"])) ->
  (forall c, In c (list_ascii_of_string line) -> c <> "&"%char) ->
  GitQ.statuses git = None /\
  StackP.print_ring git s = Raise IndexError s.
Proof.
  intros Hin Hline.
  assert (GitQ.statuses git = None) as Hnone.
  { unfold GitQ.statuses, GitQ.remotes_for_local_branches.
    rewrite (pairs_dict_short _ (PyStr.split "&"%char line)); [reflexivity| |].
    - apply in_map. exact Hin.
    - now rewrite (split_no_separator _ _ Hline). }
  split; [exact Hnone|].
  unfold StackP.print_ring, bind. now rewrite Hnone.
Qed.

Lemma print_ring_needs_separator_witness :
  StackP.print_ring detached_head push_example = Raise IndexError push_example.
Proof.
  destruct (print_ring_needs_separator detached_head push_example EmptyString)
    as (_ & Hrun).
  - left. reflexivity.
  - intros c [].
  - exact Hrun.
Defined.

(** The loop of [print_ring] prints one line for each entry, numbered from
    where it starts. *)
Lemma print_lines_spec (statuses : GitQ.dict) (index : option Z)
    (refs : list string) : forall (i : nat) (s : Stack),
  exists lines,
    StackP.print_lines statuses index i refs s =
      Ok tt (mkStack (stack s) (stack_file s) (console s ++ lines)) /\
    List.length lines = List.length refs /\
    forall k ref, nth_error refs k = Some ref ->
                  nth_error lines k =
                    Some (StackP.ring_line statuses index (i + k) ref).
Proof.
  induction refs as [|ref rest IH]; intros i s; cbn [StackP.print_lines].
  - exists []. rewrite app_nil_r. destruct s. split; [reflexivity|].
    split; [reflexivity|]. intros [|k] r; discriminate.
  - unfold bind, print.
    destruct (IH (S i) (mkStack (stack s) (stack_file s)
                          (console s ++ [StackP.ring_line statuses index i ref])))
      as (lines & -> & Hlen & Hnth).
    exists (StackP.ring_line statuses index i ref :: lines).
    cbn [stack stack_file console]. rewrite <- app_assoc.
    split; [reflexivity|]. split; [cbn [List.length]; now rewrite Hlen|].
    intros [|k] r Hr; cbn [nth_error] in *.
    + injection Hr as <-. now rewrite Nat.add_0_r.
    + rewrite (Hnth k r Hr). do 2 f_equal. lia.
Qed.

(** X19.  When [statuses] returns, [Stack.print_ring] prints exactly one
    line for each entry of the ring, in the order of the ring: line [k] is
    the one for entry [k], in green exactly when [k] is [position].  It
    changes neither the record nor the file. *)
Theorem print_ring_lines (git : Git) (statuses : GitQ.dict) (s : Stack) :
  GitQ.statuses git = Some statuses ->
  exists lines,
    StackP.print_ring git s =
      Ok tt (mkStack (stack s) (stack_file s) (console s ++ lines)) /\
    List.length lines = List.length (ring (stack s)) /\
    forall k ref,
      nth_error (ring (stack s)) k = Some ref ->
      nth_error lines k =
        Some (let plain := StackP.ring_line statuses None k ref in
              match position (stack s) with
              | Some p => if Z.of_nat k =? p then _col 32 plain else plain
              | None => plain
              end).
Proof.
  intros Hst. unfold StackP.print_ring, bind. rewrite Hst.
  cbn [or_raise ret]. unfold get_ring, get_index.
  destruct (print_lines_spec statuses (position (stack s)) (ring (stack s)) O s)
    as (lines & Hrun & Hlen & Hnth).
  exists lines. split; [exact Hrun|]. split; [exact Hlen|].
  intros k ref Hk. rewrite (Hnth k ref Hk). cbn [Nat.add].
  unfold StackP.ring_line. destruct (position (stack s)); reflexivity.
Qed.

Lemma print_ring_lines_witness :
  exists lines,
    StackP.print_ring main_and_dev push_example =
      Ok tt (mkStack (stack push_example) (stack_file push_example)
                     (console push_example ++ lines)) /\
    List.length lines = 2%nat.
Proof.
  destruct (print_ring_lines main_and_dev
              [("dev", "="); ("main", "=")] push_example)
    as (lines & Hrun & Hlen & _).
  - reflexivity.
  - exists lines. split; [exact Hrun | exact Hlen].
Defined.

(** * The status token, from the commits git lists *)

(** White space at the end of a text is all [rstrip] takes. *)
Lemma rstrip_cons (c : ascii) (t : string) :
  PyStr.rstrip t <> EmptyString ->
  PyStr.rstrip (String c t) = String c (PyStr.rstrip t).
Proof.
  intros Ht. cbn [PyStr.rstrip]. destruct (PyStr.rstrip t); [congruence | reflexivity].
Qed.

Lemma rstrip_append (a t : string) :
  PyStr.rstrip t <> EmptyString ->
  PyStr.rstrip (a ++ t) = (a ++ PyStr.rstrip t)%string.
Proof.
  intros Ht. induction a as [|c a IH]; cbn [String.append]; [reflexivity|].
  rewrite rstrip_cons; [now rewrite IH|].
  rewrite IH. destruct a; cbn [String.append]; [exact Ht | discriminate].
Qed.

Lemma rstrip_blank_end (a t : string) :
  PyStr.rstrip t = EmptyString -> PyStr.rstrip (a ++ t) = PyStr.rstrip a.
Proof.
  intros Ht. induction a as [|c a IH]; cbn [String.append]; [exact Ht|].
  cbn [PyStr.rstrip]. now rewrite IH.
Qed.

Lemma rstrip_solid (s : string) :
  (forall c, In c (list_ascii_of_string s) -> PyStr.is_space c = false) ->
  PyStr.rstrip s = s.
Proof.
  induction s as [|c t IH]; intros Hs; [reflexivity|].
  cbn [PyStr.rstrip]. rewrite IH by (intros d Hd; apply Hs; now right).
  destruct t; [now rewrite (Hs c (or_introl eq_refl)) | reflexivity].
Qed.

Lemma split_first_line (l u : string) :
  (forall c, In c (list_ascii_of_string l) -> PyStr.is_space c = false) ->
  PyStr.split "010"%char (l ++ String "010" u) = l :: PyStr.split "010"%char u.
Proof.
  induction l as [|c t IH]; intros Hl; cbn [String.append PyStr.split].
  - reflexivity.
  - destruct (Ascii.eqb_spec c "010"%char) as [->|_].
    + specialize (Hl "010"%char (or_introl eq_refl)). discriminate Hl.
    + rewrite IH by (intros d Hd; apply Hl; now right). reflexivity.
Qed.

Section Commits.

Variable commits : list (side * string).

(** The names of commits hold no white space. *)
Hypothesis names_solid :
  forall commit, In commit commits ->
  forall c, In c (list_ascii_of_string (snd commit)) -> PyStr.is_space c = false.

Lemma line_solid (commit : side * string) :
  In commit commits ->
  forall c, In c (list_ascii_of_string (rev_list_line commit)) ->
            PyStr.is_space c = false.
Proof.
  intros Hin c. unfold rev_list_line.
  destruct commit as [[|] sha]; cbn [fst snd mark String.append list_ascii_of_string];
    (intros [<-|Hc]; [reflexivity | exact (names_solid _ Hin c Hc)]).
Qed.

End Commits.

(** The lines [status_for] reads are the lines git printed, one for each
    commit. *)
Lemma rev_list_lines (commits : list (side * string)) :
  (forall commit, In commit commits ->
   forall c, In c (list_ascii_of_string (snd commit)) ->
             PyStr.is_space c = false) ->
  commits <> [] ->
  PyStr.split "010"%char (PyStr.strip (rev_list_output commits)) =
    map rev_list_line commits.
Proof.
  intros Hsolid Hne.
  assert (PyStr.lstrip (rev_list_output commits) = rev_list_output commits)
    as Hl.
  { destruct commits as [|[[|] sha] rest]; [congruence| |]; reflexivity. }
  unfold PyStr.strip. rewrite Hl. clear Hl.
  assert (PyStr.rstrip (rev_list_output commits) <> EmptyString /\
          PyStr.split "010"%char (PyStr.rstrip (rev_list_output commits)) =
            map rev_list_line commits) as [_ H]; [|exact H].
  induction commits as [|commit rest IH]; [congruence|]. clear Hne.
  pose proof (line_solid (commit :: rest) Hsolid commit (or_introl eq_refl))
    as Hline.
  assert (rev_list_line commit <> EmptyString) as Hmark
    by (destruct commit as [[|] sha]; discriminate).
  cbn [rev_list_output map]. destruct rest as [|commit' rest'].
  - cbn [rev_list_output map].
    rewrite rstrip_blank_end by reflexivity.
    rewrite (rstrip_solid _ Hline). split; [exact Hmark|].
    apply split_no_separator. intros c Hc ->.
    specialize (Hline _ Hc). discriminate Hline.
  - destruct IH as [Hrest Hsplit];
      [intros c Hc; apply Hsolid; now right | discriminate |].
    change (rev_list_line commit ++
            String "010" (rev_list_output (commit' :: rest')))%string
      with (rev_list_line commit ++
            (String "010" EmptyString ++ rev_list_output (commit' :: rest')))%string.
    rewrite <- append_assoc, rstrip_append by exact Hrest.
    rewrite append_assoc. cbn [String.append].
    split; [destruct (rev_list_line commit); [congruence | discriminate]|].
    rewrite (split_first_line _ _ Hline), Hsplit. reflexivity.
Qed.

Lemma marked_lines (sd : side) (commits : list (side * string)) :
  List.length (filter (String.prefix (mark sd)) (map rev_list_line commits)) =
    on_side sd commits.
Proof.
  unfold on_side.
  induction commits as [|[sd' sha] rest IH]; [reflexivity|].
  cbn [map filter fst]. unfold rev_list_line at 1. cbn [fst snd].
  destruct sd, sd'; cbn [mark String.append String.prefix] in *;
    destruct (ascii_dec _ _) as [E|E]; try discriminate E; try congruence;
    rewrite ?prefix_empty; cbn [List.length]; now rewrite IH.
Qed.

(** C10.  [status_for local remote], when git lists the commits of
    [remote...local] as [git rev-list --left-right] does: with [N] the
    number of commits only [remote] reaches (those [local] is behind by) and
    [M] the number of commits only [local] reaches (those it is ahead by),
    the token is ["="] exactly when both are zero, and otherwise ["<N"] when
    [N > 0] followed by [">M"] when [M > 0], the numbers written in
    decimal. *)
Theorem status_for_token (git : Git) (local remote : string)
    (commits : list (side * string)) :
  (forall commit, In commit commits ->
   forall c, In c (list_ascii_of_string (snd commit)) ->
             PyStr.is_space c = false) ->
  stdout (git ["git"; "rev-list"; "--left-right";
               (remote ++ "..." ++ local)%string]) = rev_list_output commits ->
  let N := on_side LeftSide commits in
  let M := on_side RightSide commits in
  (GitM.status_for git local remote = "=" <-> N = O /\ M = O) /\
  GitM.status_for git local remote =
    match N, M with
    | O, O => "="
    | S _, O => "<" ++ NilEmpty.string_of_uint (Nat.to_uint N)
    | O, S _ => ">" ++ NilEmpty.string_of_uint (Nat.to_uint M)
    | S _, S _ => "<" ++ NilEmpty.string_of_uint (Nat.to_uint N) ++
                  ">" ++ NilEmpty.string_of_uint (Nat.to_uint M)
    end%string.
Proof.
  intros Hsolid Hout. cbv zeta.
  pose proof (status_for_lines git local remote) as Hlines.
  cbv zeta in Hlines. rewrite Hout in Hlines.
  assert (forall sd,
            List.length
              (filter (String.prefix (mark sd))
                      (PyStr.split "010"%char
                         (PyStr.strip (rev_list_output commits)))) =
              on_side sd commits) as Hcount.
  { intros sd. destruct commits as [|commit rest] eqn:Hc;
      [destruct sd; reflexivity|].
    rewrite <- Hc in *.
    rewrite rev_list_lines;
      [apply marked_lines | exact Hsolid | rewrite Hc; discriminate]. }
  change (String.prefix "<") with (String.prefix (mark LeftSide)) in Hlines.
  change (String.prefix ">") with (String.prefix (mark RightSide)) in Hlines.
  rewrite !Hcount in Hlines. exact Hlines.
Qed.

Lemma status_for_token_witness :
  GitM.status_for diverged "topic" "origin/topic" = "<3>1".
Proof.
  destruct (status_for_token diverged "topic" "origin/topic"
              [(LeftSide, "8f3a1c0d2b4e6f7a9c1d3e5f7a9b1c3d5e7f9a1b");
               (LeftSide, "1b9d7f5e3c1a9f7e5d3c1b9a7f5e3d1c0b2a4f6e");
               (RightSide, "4e6f8a0c2e4a6c8e0a2c4e6a8c0e2a4c6e8a0c2e");
               (LeftSide, "0a1b2c3d4e5f60718293a4b5c6d7e8f901234567")])
    as (_ & Htoken).
  - intros commit Hin c Hc.
    repeat (destruct Hin as [<-|Hin];
            [cbn in Hc;
             repeat (destruct Hc as [<-|Hc]; [reflexivity|]); contradiction|]).
    contradiction.
  - reflexivity.
  - exact Htoken.
Defined.

(** * The ring stack with [verbose] set *)

(** [StackM] is [class Stack] with [verbose] off: [save] and the methods
    that call it are those of [StackV] at [false], whatever git is. *)
Lemma quiet_stack (git : Git) :
  StackV.save false git = save /\
  StackV.push false git = push /\
  StackV.pop false git = pop /\
  StackV.move false git = move /\
  StackV.back false git = back /\
  StackV.forward false git = forward.
Proof. repeat split. Qed.

(** On the empty ring [save] is not reached, so the flag does not matter:
    [pop] leaves through [sys.exit(1)] after its message, [forward] and
    [back] return [None] and change nothing. *)
Lemma empty_ring_whatever_verbose (verbose : bool) (git : Git) (s : Stack) :
  (position (stack s) = None ->
   StackV.pop verbose git s =
     SysExit 1 (mkStack (stack s) (stack_file s)
                        (console s ++ ["No branches on the stack"]))) /\
  (ring (stack s) = [] ->
   StackV.forward verbose git s = Ok None s /\
   StackV.back verbose git s = Ok None s).
Proof.
  split.
  - intros Hpos. unfold StackV.pop, bind at 1, get_index. rewrite Hpos.
    reflexivity.
  - intros Hr. unfold StackV.forward, StackV.back, StackV.move, bind, get_ring.
    rewrite Hr. split; reflexivity.
Qed.

(** A line of [git for-each-ref] without the separator leaves no
    dictionary. *)
Lemma remotes_need_separator (git : Git) (line : string) :
  In line (PyStr.split "010"%char
             (GitM._run git ["git"; "for-each-ref";
                             "--format=%(refname:short)&%(upstream:short)";
                             "refs/heads"])) ->
  (forall c, In c (list_ascii_of_string line) -> c <> "&"%char) ->
  GitQ.remotes_for_local_branches git = None.
Proof.
  intros Hin Hline. unfold GitQ.remotes_for_local_branches.
  apply (pairs_dict_short _ (PyStr.split "&"%char line)).
  - apply in_map. exact Hin.
  - now rewrite (split_no_separator _ _ Hline).
Qed.

(** With [verbose] set, [statuses] prints the command it runs and then
    raises where [GitQ.statuses] has no dictionary. *)
Lemma verbose_statuses_raise (git : Git) (s : Stack) :
  GitQ.remotes_for_local_branches git = None ->
  GitV.statuses true git s = Raise IndexError (after_running s).
Proof.
  intros Hnone. unfold GitQ.remotes_for_local_branches, GitM._run,
    GitM._run_with_status in Hnone.
  unfold GitV.statuses, bind at 1, GitV.remotes_for_local_branches, bind at 1,
    GitV._run, bind at 1, GitV._run_with_status, bind at 1, GitV.i_print,
    print, ret.
  cbn [stdout]. rewrite Hnone. reflexivity.
Qed.

(** With [verbose] set, [save] prints the ring first, and the [IndexError]
    of [statuses] leaves [save] before the file is written. *)
Lemma verbose_save_raises (git : Git) (s : Stack) :
  GitQ.remotes_for_local_branches git = None ->
  StackV.save true git s = Raise IndexError (after_running s).
Proof.
  intros Hnone. unfold StackV.save, bind at 1, StackV.print_ring, bind at 1.
  rewrite (verbose_statuses_raise git s Hnone). reflexivity.
Qed.

(** C6, as the code has it with [verbose] set.  When [git for-each-ref]
    prints a line without the separator (no line at all, when the
    repository has no local branch), [push], and [pop], [forward] and
    [back] on a ring with a valid cursor, do not return: the [IndexError]
    raised while [save] prints the ring escapes them.  The record in memory
    is already changed, the file is not written. *)
Theorem verbose_operations_raise (git : Git) (s : Stack) (line : string) :
  In line (PyStr.split "010"%char
             (GitM._run git ["git"; "for-each-ref";
                             "--format=%(refname:short)&%(upstream:short)";
                             "refs/heads"])) ->
  (forall c, In c (list_ascii_of_string line) -> c <> "&"%char) ->
  (forall name, exists s',
     StackV.push true git name s = Raise IndexError s' /\
     In name (ring (stack s')) /\
     stack_file s' = stack_file s) /\
  (forall p,
     position (stack s) = Some p ->
     0 <= p < PyList.len (ring (stack s)) ->
     (exists s', StackV.pop true git s = Raise IndexError s' /\
                 stack s' = popped (ring (stack s)) p /\
                 stack_file s' = stack_file s) /\
     (exists s', StackV.forward true git s = Raise IndexError s' /\
                 stack_file s' = stack_file s) /\
     (exists s', StackV.back true git s = Raise IndexError s' /\
                 stack_file s' = stack_file s)).
Proof.
  intros Hline Hsep.
  pose proof (remotes_need_separator git line Hline Hsep) as Hnone. split.
  - intros name. unfold StackV.push, bind at 1, get_ring.
    destruct (PyList.contains String.eqb name (ring (stack s))) eqn:Hc.
    + pose proof (proj1 (contains_In _ _) Hc) as Hin.
      destruct (index_In name _ Hin) as (n & Hn & _).
      unfold bind at 1, bind at 1. rewrite Hn. cbn [or_raise ret].
      unfold bind at 1, set_index. rewrite verbose_save_raises by exact Hnone.
      eexists. split; [reflexivity|]. split; [exact Hin | reflexivity].
    + unfold bind at 1, bind at 1, get_index. unfold bind at 1, set_ring.
      cbn [ret]. unfold bind at 1, set_index.
      rewrite verbose_save_raises by exact Hnone.
      eexists. split; [reflexivity|]. split; [apply In_insert | reflexivity].
  - intros p Hpos Hp.
    assert (forall step, exists s',
              StackV.move true git step s = Raise IndexError s' /\
              stack_file s' = stack_file s) as Hmove.
    { intros step. unfold StackV.move, bind at 1, get_ring.
      assert (truthy (ring (stack s)) = true) as ->
        by (apply truthy_len; lia).
      cbn [negb]. unfold bind at 1, get_index. rewrite Hpos.
      unfold bind at 1, set_index. unfold bind at 1.
      rewrite verbose_save_raises by exact Hnone.
      eexists. split; reflexivity. }
    split; [|split; apply Hmove].
    destruct (getitem_in_range _ _ Hp) as (out & Hout).
    unfold StackV.pop, bind at 1, get_index. rewrite Hpos.
    unfold bind at 1, get_ring. unfold bind at 1. rewrite Hout.
    cbn [or_raise ret]. unfold bind at 1.
    rewrite (delitem_in_range _ _ Hp). cbn [or_raise ret].
    unfold bind at 1, set_ring. unfold bind at 1.
    match goal with
    | |- context [if truthy ?l then _ else _] =>
        destruct (truthy l) eqn:Ht
    end.
    + unfold set_index at 1. unfold bind at 1.
      rewrite verbose_save_raises by exact Hnone.
      eexists. split; [reflexivity|]. unfold popped, after_running.
      cbn [stack stack_file ring position]. rewrite Ht. split; reflexivity.
    + unfold set_index at 1. unfold bind at 1.
      rewrite verbose_save_raises by exact Hnone.
      eexists. split; [reflexivity|]. unfold popped, after_running.
      cbn [stack stack_file ring position]. rewrite Ht. split; reflexivity.
Qed.

Lemma verbose_operations_raise_witness :
  exists s',
    StackV.push true detached_head "topic" fresh = Raise IndexError s' /\
    In "topic" (ring (stack s')) /\
    stack_file s' = stack_file fresh.
Proof.
  destruct (verbose_operations_raise detached_head fresh EmptyString)
    as (Hpush & _).
  - left. reflexivity.
  - intros c [].
  - exact (Hpush "topic").
Defined.

(** A checkout at a commit, with no local branch, and [-v] on the command
    line: the first [push] on a fresh [Stack] prints what it runs and ends
    in [IndexError], with [topic] in the ring in memory and nothing written
    to the file.  With [verbose] off the same [push] returns. *)
Example verbose_push_raises :
  StackV.push true detached_head "topic" fresh =
    Raise IndexError
      (mkStack (mkRing ["topic"] (Some 0)) (mkRing [] None)
               ["Running: 'git for-each-ref --format=%(refname:short)&%(upstream:short) refs/heads'"]) /\
  StackV.push false detached_head "topic" fresh =
    Ok tt (loaded (mkRing ["topic"] (Some 0))).
Proof. split; reflexivity. Qed.

(** ** When every line of [git for-each-ref] has its separator *)

(** Asking for a status prints at most the command it runs, and returns
    what [GitM.status_for] computes. *)
Lemma status_for_returns (verbose : bool) (git : Git) (local remote : string)
    (s : Stack) :
  exists lines,
    GitV.status_for verbose git local remote s =
      Ok (GitM.status_for git local remote) (printed lines s).
Proof.
  unfold GitV.status_for, bind at 1, GitV._run, bind at 1,
    GitV._run_with_status, bind at 1, GitV.i_print.
  destruct verbose.
  - eexists [_]. reflexivity.
  - exists []. unfold printed. rewrite app_nil_r. destruct s. reflexivity.
Qed.

Lemma printed_printed (a b : list string) (s : Stack) :
  printed b (printed a s) = printed (a ++ b) s.
Proof. unfold printed. cbn [stack stack_file console]. now rewrite app_assoc. Qed.

Lemma status_items_returns (verbose : bool) (git : Git) (items : GitQ.dict) :
  forall s, exists lines,
    GitV.status_items verbose git items s =
      Ok (map (fun lr => (fst lr, GitM.status_for git (fst lr) (snd lr))) items)
         (printed lines s).
Proof.
  induction items as [|[loc rem] rest IH]; intros s; cbn [GitV.status_items map].
  - exists []. unfold printed, ret. rewrite app_nil_r. destruct s. reflexivity.
  - destruct (status_for_returns verbose git loc rem s) as (l1 & H1).
    destruct (IH (printed l1 s)) as (l2 & H2).
    exists (l1 ++ l2). unfold bind at 1. rewrite H1. unfold bind at 1.
    rewrite H2. rewrite printed_printed. reflexivity.
Qed.

(** Where [GitQ.statuses] has a dictionary, [statuses] returns it, whatever
    the flag, having printed at most the commands it ran. *)
Lemma verbose_statuses_return (verbose : bool) (git : Git) (st : GitQ.dict)
    (s : Stack) :
  GitQ.statuses git = Some st ->
  exists lines, GitV.statuses verbose git s = Ok st (printed lines s).
Proof.
  unfold GitQ.statuses.
  destruct (GitQ.remotes_for_local_branches git) as [m|] eqn:Hm; [|discriminate].
  intros [= <-].
  unfold GitQ.remotes_for_local_branches, GitM._run, GitM._run_with_status in Hm.
  assert (exists l1, GitV.remotes_for_local_branches verbose git s = Ok m (printed l1 s))
    as (l1 & H1).
  { unfold GitV.remotes_for_local_branches, bind at 1, GitV._run, bind at 1,
      GitV._run_with_status, bind at 1, GitV.i_print.
    destruct verbose.
    - eexists [_]. cbn [print ret stdout]. rewrite Hm. reflexivity.
    - exists []. cbn [ret stdout]. rewrite Hm. unfold printed.
      rewrite app_nil_r. destruct s. reflexivity. }
  destruct (status_items_returns verbose git m (printed l1 s)) as (l2 & H2).
  exists (l1 ++ l2). unfold GitV.statuses, bind. rewrite H1, H2, printed_printed.
  reflexivity.
Qed.

(** Then [save] returns with the record written to the file. *)
Lemma verbose_save_returns (verbose : bool) (git : Git) (st : GitQ.dict)
    (s : Stack) :
  GitQ.statuses git = Some st ->
  exists lines,
    StackV.save verbose git s =
      Ok tt (mkStack (stack s) (stack s) (console s ++ lines)).
Proof.
  intros Hst. unfold StackV.save. destruct verbose.
  - destruct (verbose_statuses_return true git st s Hst) as (l1 & H1).
    destruct (print_lines_spec st (position (stack s)) (ring (stack s)) O
                               (printed l1 s)) as (l2 & H2 & _).
    exists (l1 ++ l2). unfold bind at 1, StackV.print_ring, bind at 1.
    rewrite H1. unfold bind at 1, get_ring. unfold bind at 1, get_index.
    change (ring (stack (printed l1 s))) with (ring (stack s)).
    change (position (stack (printed l1 s))) with (position (stack s)).
    rewrite H2. cbn [stack stack_file console printed]. now rewrite app_assoc.
  - exists []. rewrite app_nil_r. reflexivity.
Qed.

Ltac save_returns verbose git st Hst :=
  match goal with
  | |- context [StackV.save verbose git ?x] =>
      let lines := fresh "lines" in
      let H := fresh "Hsave" in
      destruct (verbose_save_returns verbose git st x Hst) as (lines & H);
      rewrite H; exists lines
  end.

(** Where [GitQ.statuses] has a dictionary, [push], [pop] and the moves
    return under either value of the flag what they return with [verbose]
    off, and leave the same record and the same file; only the console
    holds more lines. *)
Lemma verbose_operations_return (verbose : bool) (git : Git) (st : GitQ.dict)
    (s : Stack) :
  GitQ.statuses git = Some st ->
  (forall name, exists s0 lines,
     push name s = Ok tt s0 /\
     StackV.push verbose git name s = Ok tt (printed lines s0)) /\
  (forall p,
     position (stack s) = Some p ->
     0 <= p < PyList.len (ring (stack s)) ->
     (exists out s0 lines,
        pop s = Ok out s0 /\
        StackV.pop verbose git s = Ok out (printed lines s0)) /\
     (forall step, exists v s0 lines,
        move step s = Ok v s0 /\
        StackV.move verbose git step s = Ok v (printed lines s0))).
Proof.
  intros Hst. split.
  - intros name. unfold StackV.push. run_method.
    destruct (PyList.contains String.eqb name (ring (stack s))) eqn:Hc.
    + pose proof (proj1 (contains_In _ _) Hc) as Hin.
      destruct (index_In name _ Hin) as (n & Hn & _). rewrite Hn.
      eexists. save_returns verbose git st Hst. split; reflexivity.
    + eexists. save_returns verbose git st Hst. split; reflexivity.
  - intros p Hpos Hp. split.
    + destruct (getitem_in_range _ _ Hp) as (out & Hout).
      unfold StackV.pop. run_method. rewrite Hpos. run_method.
      rewrite Hout, (delitem_in_range _ _ Hp).
      match goal with
      | |- context [if truthy ?l then _ else _] => destruct (truthy l)
      end; exists out; eexists; save_returns verbose git st Hst;
        split; reflexivity.
    + intros step.
      assert (0 <= (p + step) mod PyList.len (ring (stack s))
              < PyList.len (ring (stack s))) as Hq
        by (apply Z.mod_pos_bound; lia).
      destruct (getitem_in_range _ _ Hq) as (x & Hx).
      unfold StackV.move. run_method.
      assert (truthy (ring (stack s)) = true) as ->
        by (apply truthy_len; lia).
      cbn [negb]. run_method. rewrite Hpos. run_method. rewrite Hx.
      exists (Some x). eexists. save_returns verbose git st Hst.
      split; reflexivity.
Qed.

(** * Interactive selection, once the line is read *)

Lemma remove_absent (l : list string) (x : string) :
  ~ In x l -> PyList.remove String.eqb l x = None.
Proof.
  induction l as [|y t IH]; intros Hx; cbn [PyList.remove]; [reflexivity|].
  destruct (String.eqb_spec x y) as [->|_]; [exfalso; apply Hx; now left|].
  rewrite IH; [reflexivity|]. intros H. apply Hx. now right.
Qed.

(** Deleting one entry that is not the checked-out branch. *)
Lemma delete_one (pop_command : method unit) (branch b : string) (s : Stack)
    (i : nat) :
  NoDup (ring (stack s)) ->
  nth_error (ring (stack s)) i = Some b ->
  b <> branch ->
  forall rest,
    Select.delete_all pop_command branch (b :: rest) s =
      Select.delete_all pop_command branch rest
        (let r' := mkRing (firstn i (ring (stack s)) ++
                           skipn (S i) (ring (stack s)))
                          (position (stack s)) in
         mkStack r' r' (console s ++ [("Deleting " ++ b)%string])).
Proof.
  intros Hnd Hi Hne rest. cbn [Select.delete_all].
  assert (String.eqb branch b = false) as ->
    by (apply String.eqb_neq; congruence).
  run_steps. rewrite (remove_cut _ _ _ Hnd Hi). reflexivity.
Qed.

(** X20.  Deleting, in the interactive selection, an entry that is not the
    checked-out branch takes it out of the ring and writes the file, but
    leaves [position] as it was.  If the entry stood after the cursor,
    [current()] is unchanged; if it stood before the cursor, [current()] is
    afterwards the entry that followed the old current one, or [None] when
    the old current one was last. *)
Theorem delete_keeps_position (pop_command : method unit) (branch b : string)
    (s : Stack) (p : Z) (i : nat) :
  inv (stack s) ->
  position (stack s) = Some p ->
  nth_error (ring (stack s)) i = Some b ->
  b <> branch ->
  exists s',
    Select.delete_all pop_command branch [b] s = Ok tt s' /\
    ring (stack s') = firstn i (ring (stack s)) ++ skipn (S i) (ring (stack s)) /\
    position (stack s') = Some p /\
    stack_file s' = stack s' /\
    ((Z.to_nat p < i)%nat ->
     current s' = Ok (nth_error (ring (stack s)) (Z.to_nat p)) s') /\
    ((i < Z.to_nat p)%nat ->
     current s' = Ok (nth_error (ring (stack s)) (S (Z.to_nat p))) s').
Proof.
  intros Hinv Hpos Hi Hne. pose proof Hinv as (_ & Hidx & Hnd).
  specialize (Hidx p Hpos).
  rewrite (delete_one pop_command branch b s i Hnd Hi Hne []).
  cbn [Select.delete_all ret]. rewrite Hpos.
  set (l := ring (stack s)) in *. set (l' := firstn i l ++ skipn (S i) l).
  eexists. split; [reflexivity|]. cbn [stack ring position stack_file].
  split; [reflexivity|]. split; [reflexivity|]. split; [reflexivity|].
  assert (i < List.length l)%nat as Hil by (apply nth_error_Some; congruence).
  assert (S (List.length l') = List.length l) as Hlen.
  { unfold l'. rewrite length_app, length_firstn, length_skipn. lia. }
  unfold PyList.len in Hidx.
  assert (forall k v,
            nth_error l' (Z.to_nat p) = v ->
            (v = None -> (List.length l' <= Z.to_nat p)%nat) ->
            current (mkStack (mkRing l' (Some p)) (mkRing l' (Some p)) k)
              = Ok v (mkStack (mkRing l' (Some p)) (mkRing l' (Some p)) k))
    as Hcur.
  { intros k [x|] Hv Hnone.
    - eapply current_at_cursor; [| |reflexivity]; [lia | exact Hv].
    - apply current_beyond with (p := p); [reflexivity|].
      cbn [stack ring]. unfold PyList.len. specialize (Hnone eq_refl). lia. }
  split; intros Hlt; apply Hcur.
  - unfold l'. rewrite nth_error_cut.
    destruct (Nat.ltb_spec (Z.to_nat p) i); [reflexivity | lia].
  - intros Hnone. apply nth_error_None in Hnone. lia.
  - unfold l'. rewrite nth_error_cut.
    destruct (Nat.ltb_spec (Z.to_nat p) i); [lia | reflexivity].
  - intros Hnone. apply nth_error_None in Hnone. lia.
Qed.

Lemma delete_keeps_position_witness :
  exists s',
    Select.delete_all (ret tt) "ccc" ["aaa"]
      (loaded (mkRing ["aaa"; "bbb"; "ccc"] (Some 1))) = Ok tt s' /\
    current s' = Ok (Some "ccc") s'.
Proof.
  destruct (delete_keeps_position (ret tt) "ccc" "aaa"
              (loaded (mkRing ["aaa"; "bbb"; "ccc"] (Some 1))) 1 0)
    as (s' & Hrun & _ & _ & _ & _ & Hbefore).
  - apply invb_inv. reflexivity.
  - reflexivity.
  - reflexivity.
  - discriminate.
  - exists s'. split; [exact Hrun|]. apply Hbefore. cbn. lia.
Defined.

(** X21.  Naming the same entry twice in a deletion: the first removal is
    made and written to the file, the second raises [ValueError], which the
    [try] around the selection swallows; the entry stays deleted. *)
Theorem delete_twice_raises (pop_command : method unit) (branch b : string)
    (s : Stack) (i : nat) :
  NoDup (ring (stack s)) ->
  nth_error (ring (stack s)) i = Some b ->
  b <> branch ->
  exists s',
    Select.delete_all pop_command branch [b; b] s = Raise ValueError s' /\
    Select.try_pass (Select.delete_all pop_command branch [b; b]) s = Ok tt s' /\
    ring (stack s') = firstn i (ring (stack s)) ++ skipn (S i) (ring (stack s)) /\
    ~ In b (ring (stack s')) /\
    stack_file s' = stack s'.
Proof.
  intros Hnd Hi Hne.
  destruct (cut_members _ _ _ Hnd Hi) as (_ & Hmem).
  assert (~ In b (firstn i (ring (stack s)) ++ skipn (S i) (ring (stack s))))
    as Hgone by (intros H; apply Hmem in H; tauto).
  assert (exists s',
            Select.delete_all pop_command branch [b; b] s = Raise ValueError s' /\
            ring (stack s') =
              firstn i (ring (stack s)) ++ skipn (S i) (ring (stack s)) /\
            stack_file s' = stack s') as (s' & Hrun & Hring & Hfile).
  { rewrite (delete_one pop_command branch b s i Hnd Hi Hne [b]).
    cbn [Select.delete_all].
    assert (String.eqb branch b = false) as ->
      by (apply String.eqb_neq; congruence).
    run_steps. rewrite (remove_absent _ _ Hgone).
    eexists. split; [reflexivity|]. split; reflexivity. }
  exists s'. split; [exact Hrun|]. unfold Select.try_pass. rewrite Hrun.
  split; [reflexivity|]. split; [exact Hring|]. rewrite Hring.
  split; [exact Hgone | exact Hfile].
Qed.

Lemma delete_twice_raises_witness :
  exists s',
    Select.delete_all (ret tt) "aaa" ["bbb"; "bbb"] push_example
      = Raise ValueError s' /\
    ring (stack s') = ["aaa"].
Proof.
  destruct (delete_twice_raises (ret tt) "aaa" "bbb" push_example 1)
    as (s' & Hrun & _ & Hring & _).
  - apply nodupb_NoDup. reflexivity.
  - reflexivity.
  - discriminate.
  - exists s'. split; [exact Hrun | exact Hring].
Defined.

(** ** A line that is a number *)

Section NumberLine.

Variable py : PyUni.Interpreter.

Lemma digits_value_digits (s : PyUni.str) : forall (acc n : Z),
  PyUni.digits_value py acc s = Some n ->
  forall c, In c s -> PyUni.isdecimal py c = true.
Proof.
  induction s as [|d t IH]; intros acc n H c Hc; [contradiction|].
  cbn [PyUni.digits_value] in H.
  destruct (PyUni.decimal py d) as [v|] eqn:Hd; [|discriminate].
  destruct Hc as [<-|Hc]; [|eapply IH; eassumption].
  unfold PyUni.isdecimal. now rewrite Hd.
Qed.

Lemma int_digits (s : PyUni.str) (n : Z) :
  PyUni.int py s = Some n ->
  s <> [] /\ forall c, In c s -> PyUni.isdecimal py c = true.
Proof.
  intros H. split; [intros ->; discriminate|].
  eapply digits_value_digits. apply int_value. exact H.
Qed.

(** A decimal digit is neither [d] nor [D]. *)
Lemma digit_not_marker (c : N) :
  PyUni.isdecimal py c = true -> ((c =? 100) || (c =? 68))%N = false.
Proof.
  unfold PyUni.isdecimal, PyUni.decimal. intros H.
  apply orb_false_iff. split; apply N.eqb_neq; intros ->; discriminate H.
Qed.

Lemma groups_digits (s : PyUni.str) :
  (forall c, In c s -> PyUni.isdecimal py c = true) ->
  Select.groups py [] s = s.
Proof.
  induction s as [|c t IH]; intros Hs; [reflexivity|].
  cbn [Select.groups]. rewrite (Hs c (or_introl eq_refl)).
  cbn [app]. rewrite IH; [reflexivity|].
  intros d Hd. apply Hs. now right.
Qed.

Lemma rstrip_no_space (s : PyUni.str) :
  (forall c, In c s -> PyUni.isspace py c = false) ->
  PyUni.rstrip py s = s.
Proof.
  induction s as [|c t IH]; intros Hs; [reflexivity|].
  cbn [PyUni.rstrip]. rewrite IH by (intros d Hd; apply Hs; now right).
  destruct t; [now rewrite (Hs c (or_introl eq_refl)) | reflexivity].
Qed.

Lemma strip_no_space (s : PyUni.str) :
  (forall c, In c s -> PyUni.isspace py c = false) ->
  PyUni.strip py s = s.
Proof.
  intros Hs. unfold PyUni.strip.
  assert (PyUni.lstrip py s = s) as ->; [|now apply rstrip_no_space].
  destruct s as [|c t]; [reflexivity|]. cbn [PyUni.lstrip].
  now rewrite (Hs c (or_introl eq_refl)).
Qed.

Lemma words_no_space (s : PyUni.str) : forall cur,
  (forall c, In c s -> PyUni.isspace py c = false) ->
  cur ++ s <> [] ->
  PyUni.words py cur s = [cur ++ s].
Proof.
  induction s as [|c t IH]; intros cur Hs Hne; cbn [PyUni.words].
  - rewrite app_nil_r in *. destruct cur; [congruence | reflexivity].
  - rewrite (Hs c (or_introl eq_refl)). rewrite IH.
    + now rewrite <- app_assoc.
    + intros d Hd. apply Hs. now right.
    + rewrite <- app_assoc. destruct cur; discriminate.
Qed.

(** How a text of digits is matched and split: no marker, one token, the
    text itself. *)
Lemma number_line (resp : PyUni.str) (n : Z) :
  (forall c, PyUni.isdecimal py c = true -> PyUni.isspace py c = false) ->
  PyUni.int py resp = Some n ->
  PyUni.strip py resp = resp /\
  Select.re_match py resp = Some ([], resp) /\
  PyUni.split_ws py resp = [resp].
Proof.
  intros Hdb Hint. destruct (int_digits resp n Hint) as (Hne & Hdig).
  assert (forall c, In c resp -> PyUni.isspace py c = false)
    as Hsp by (intros c Hc; apply Hdb, Hdig, Hc).
  split; [now apply strip_no_space|]. split.
  - unfold Select.re_match. destruct resp as [|c t]; [congruence|].
    cbn [Select.marker].
    rewrite (digit_not_marker c (Hdig c (or_introl eq_refl))).
    now rewrite (groups_digits _ Hdig).
  - unfold PyUni.split_ws. now apply words_no_space.
Qed.

End NumberLine.

(** X22.  A line that, once the white space at its ends is stripped (the
    end of the line among it), is a single number [n] between 1 and the
    length of the ring selects entry [n - 1]: if that entry is the
    checked-out branch nothing happens, and otherwise the jump is made to
    that entry, inside the [try] that swallows its exceptions.  The digits
    are any decimal digits, of an interpreter in whose database no decimal
    digit is white space. *)
Theorem number_selects_entry
    (py : PyUni.Interpreter)
    (pop_command : method unit) (jump : string -> method unit)
    (line : PyUni.str) (branch : string) (s : Stack) (n : Z) :
  (forall c, PyUni.isdecimal py c = true -> PyUni.isspace py c = false) ->
  PyUni.int py (PyUni.strip py line) = Some n ->
  1 <= n <= PyList.len (ring (stack s)) ->
  exists x,
    nth_error (ring (stack s)) (Z.to_nat (n - 1)) = Some x /\
    Select.print_ring_select py pop_command jump (Some line) branch s =
      if String.eqb branch x then Ok tt (prompted s)
      else Select.try_pass (jump x) (prompted s).
Proof.
  intros Hdb Hint Hn. set (resp := PyUni.strip py line) in *.
  destruct (number_line py resp n Hdb Hint) as (Hstrip & Hmatch & Hsplit).
  destruct (int_digits py resp n Hint) as (Hne & _).
  destruct (getitem_in_range (ring (stack s)) (n - 1)) as (x & Hx); [lia|].
  exists x. split; [rewrite <- getitem_nonneg by lia; exact Hx|].
  unfold Select.print_ring_select, bind at 1, print at 1.
  fold (prompted s). unfold Select.try_pass at 1. fold resp.
  destruct resp as [|c0 t0] eqn:Hresp; [congruence|]. rewrite <- Hresp in *.
  unfold Select.selection. unfold bind at 1. rewrite Hmatch.
  cbn [or_raise ret fst snd PyUni.lower forallb map]. rewrite Hstrip, Hsplit.
  change (PyUni.eqb [] (PyUni.of_string "d")) with false. cbn iota.
  unfold bind at 1, get_ring. unfold bind at 1. cbn [Select.lookups].
  unfold bind at 1. rewrite Hint. cbn [or_raise ret].
  change (ring (stack (prompted s))) with (ring (stack s)).
  unfold bind at 1. rewrite Hx. cbn [or_raise ret].
  unfold bind at 1. cbn [ret]. unfold bind at 1.
  cbn [PyList.getitem PyList.norm Z.ltb Z.compare Z.to_nat nth_error or_raise ret].
  destruct (String.eqb branch x); [reflexivity|].
  unfold Select.try_pass. reflexivity.
Qed.

(** In the database of the examples no decimal digit is white space. *)
Lemma sample_digits_not_spaces (c : N) :
  PyUni.isdecimal sample_interpreter c = true ->
  PyUni.isspace sample_interpreter c = false.
Proof.
  unfold PyUni.isdecimal, PyUni.decimal, PyUni.isspace, sample_interpreter.
  cbn [PyUni.space_beyond PyUni.decimal_beyond existsb].
  destruct (N.ltb_spec c 128).
  - destruct ((48 <=? c) && (c <=? 57))%N eqn:E; [|discriminate].
    intros _. apply andb_true_iff in E as [E1 E2].
    apply N.leb_le in E1, E2.
    apply orb_false_iff. split; apply andb_false_iff.
    + right. apply N.leb_gt. lia.
    + right. apply N.leb_gt. lia.
  - intros Hd.
    assert ((1632 <= c <= 1641) \/ (2406 <= c <= 2415) \/
            (65296 <= c <= 65305))%N as Hr.
    { destruct ((1632 <=? c) && (c <=? 1641))%N eqn:E1;
        [apply andb_true_iff in E1 as [A B]; apply N.leb_le in A, B; lia|].
      destruct ((2406 <=? c) && (c <=? 2415))%N eqn:E2;
        [apply andb_true_iff in E2 as [A B]; apply N.leb_le in A, B; lia|].
      destruct ((65296 <=? c) && (c <=? 65305))%N eqn:E3;
        [apply andb_true_iff in E3 as [A B]; apply N.leb_le in A, B; lia|].
      discriminate Hd. }
    clear Hd.
    repeat (apply orb_false_iff; split); try (apply N.eqb_neq; lia);
      try reflexivity.
    apply andb_false_iff.
    destruct (N.leb_spec 8192 c); [right; apply N.leb_gt; lia | now left].
Qed.

Lemma number_selects_entry_witness :
  Select.print_ring_select sample_interpreter (ret tt) (fun _ => ret tt)
      (Some (PyUni.of_string "1
")) "aaa" push_example = Ok tt (prompted push_example) /\
  Select.print_ring_select sample_interpreter (ret tt)
      (fun b => print ("jump " ++ b)%string)
      (Some [160; 1634; 13; 10]%N) "aaa" push_example =
    Ok tt (printed ["jump bbb"] (prompted push_example)).
Proof.
  split.
  - destruct (number_selects_entry sample_interpreter (ret tt) (fun _ => ret tt)
                (PyUni.of_string "1
") "aaa" push_example 1) as (x & Hx & Hrun).
    + exact sample_digits_not_spaces.
    + reflexivity.
    + cbn. lia.
    + injection Hx as <-. exact Hrun.
  - destruct (number_selects_entry sample_interpreter (ret tt)
                (fun b => print ("jump " ++ b)%string)
                [160; 1634; 13; 10]%N "aaa" push_example 2)
      as (x & Hx & Hrun).
    + exact sample_digits_not_spaces.
    + reflexivity.
    + cbn. lia.
    + injection Hx as <-. exact Hrun.
Defined.
